(** * autovate: diff parsing, scope resolution and documentation synthesis

    A shallow embedding of [git_module.py], [langraph.py] and
    [app/docgen.py], with the properties of the specification stated and
    proved (or refuted) over it.

    Conventions of the embedding.
    - Python [str] values are [string]s; a character is a code point below
      256, and the character classes of Python's [re] and [str] methods are
      written out for that range.
    - Python [int]s are [Z].
    - [dict]s used as maps are [gmap]s; ordered dicts that are iterated are
      association lists.
    - [ast.parse], the file system and the JSON codec are libraries outside
      the repository: the syntax tree, the file system and the decoded JSON
      value are taken as data. *)

From Stdlib Require Import ZArith NArith List Bool Ascii String Lia Sorted.
From Stdlib Require Import Numbers.DecimalString Numbers.DecimalZ Numbers.DecimalN.
From stdpp Require Import base option list gmap strings.

Local Open Scope string_scope.
Local Open Scope Z_scope.

(* ===================================================================== *)
(** * Characters and strings as Python sees them *)
(* ===================================================================== *)

Module Py.

Definition code (c : ascii) : N := N_of_ascii c.

Definition in_range (lo hi : N) (c : ascii) : bool :=
  ((lo <=? code c) && (code c <=? hi))%N.

Definition is_code (n : N) (c : ascii) : bool := (code c =? n)%N.

(** [str.isspace] / [\s] in a [str] pattern. *)
Definition isspace (c : ascii) : bool :=
  in_range 9 13 c || in_range 28 32 c || is_code 133 c || is_code 160 c.

(** [\d] in a [str] pattern. *)
Definition isdigit (c : ascii) : bool := in_range 48 57 c.

Definition isupper_az (c : ascii) : bool := in_range 65 90 c.
Definition islower_az (c : ascii) : bool := in_range 97 122 c.
Definition isalpha_az (c : ascii) : bool := isupper_az c || islower_az c.

(** [\w] in a [str] pattern: alphanumeric code points and the underscore. *)
Definition isword (c : ascii) : bool :=
  isdigit c || isalpha_az c || is_code 95 c
  || is_code 170 c || is_code 178 c || is_code 179 c || is_code 181 c
  || is_code 185 c || is_code 186 c || in_range 188 190 c
  || in_range 192 214 c || in_range 216 246 c || in_range 248 255 c.

(** The line boundaries of [str.splitlines]. *)
Definition islinebreak (c : ascii) : bool :=
  in_range 10 13 c || in_range 28 30 c || is_code 133 c.

Definition LF : ascii := ascii_of_N 10.
Definition CR : ascii := ascii_of_N 13.
Definition TAB : ascii := ascii_of_N 9.

Definition nl : string := String LF "".

Definition len (s : string) : Z := Z.of_nat (String.length s).

(** [s.startswith(p)] *)
Fixpoint startswith (p s : string) : bool :=
  match p, s with
  | "", _ => true
  | String a p', String b s' => Ascii.eqb a b && startswith p' s'
  | String _ _, "" => false
  end.

(** [s[1:]] *)
Definition tail1 (s : string) : string :=
  match s with
  | "" => ""
  | String _ s' => s'
  end.

(** [p in s] for strings *)
Fixpoint contains (p s : string) : bool :=
  startswith p s ||
  match s with
  | "" => false
  | String _ s' => contains p s'
  end.

(** [s.splitlines()] *)
Fixpoint splitlines (s : string) : list string :=
  match s with
  | "" => []
  | String c rest =>
      if Ascii.eqb c CR then
        match rest with
        | String d rest' =>
            if Ascii.eqb d LF then "" :: splitlines rest'
            else "" :: splitlines rest
        | "" => [""]
        end
      else if islinebreak c then "" :: splitlines rest
      else
        match splitlines rest with
        | [] => [String c ""]
        | l :: ls => String c l :: ls
        end
  end.

(** [sep.join(parts)] *)
Fixpoint join (sep : string) (parts : list string) : string :=
  match parts with
  | [] => ""
  | [p] => p
  | p :: ps => p ++ sep ++ join sep ps
  end.

(** ["".join(parts)] *)
Definition concat (parts : list string) : string := fold_right String.append "" parts.

(** [s.lstrip()] and [s.lstrip(chars)] for a predicate on characters *)
Fixpoint lstrip_by (p : ascii -> bool) (s : string) : string :=
  match s with
  | "" => ""
  | String c s' => if p c then lstrip_by p s' else s
  end.

Definition rstrip_by (p : ascii -> bool) (s : string) : string :=
  String.rev (lstrip_by p (String.rev s)).

Definition strip_by (p : ascii -> bool) (s : string) : string :=
  rstrip_by p (lstrip_by p s).

Definition strip : string -> string := strip_by isspace.
Definition lstrip : string -> string := lstrip_by isspace.

(** [lines[a:b]] with [0 <= a] already clipped by the caller *)
Definition slice {A} (l : list A) (a b : Z) : list A :=
  take (Z.to_nat (b - a)) (drop (Z.to_nat a) l).

(** [int(s)] on a run of decimal digits *)
Definition digit_val (c : ascii) : Z := Z.of_N (code c) - 48.

Fixpoint int_go (acc : Z) (s : string) : Z :=
  match s with
  | "" => acc
  | String c s' => int_go (10 * acc + digit_val c) s'
  end.

Definition int (s : string) : Z := int_go 0 s.

(** [str(n)] for an [int] *)
Definition str (n : Z) : string := NilZero.string_of_int (Z.to_int n).

(** [x or d] for an optional integer: [None] and [0] are falsy. *)
Definition or_int (x : option Z) (d : Z) : Z :=
  match x with
  | Some v => if v =? 0 then d else v
  | None => d
  end.

(** [s.expandtabs(tabsize)]: a tab pads to the next multiple of [tabsize];
    a line feed or carriage return starts a new column count. *)
Fixpoint expandtabs_go (tabsize : nat) (col : nat) (s : string) : string :=
  match s with
  | "" => ""
  | String c s' =>
      if Ascii.eqb c TAB then
        match tabsize with
        | O => expandtabs_go tabsize col s'
        | S _ =>
            let incr := (tabsize - col mod tabsize)%nat in
            string_of_list_ascii (repeat " "%char incr)
              ++ expandtabs_go tabsize (col + incr) s'
        end
      else if Ascii.eqb c LF || Ascii.eqb c CR then
        String c (expandtabs_go tabsize 0 s')
      else String c (expandtabs_go tabsize (S col) s')
  end.

Definition expandtabs (tabsize : nat) (s : string) : string :=
  expandtabs_go tabsize 0 s.

(** [s.endswith(p)] *)
Definition endswith (p s : string) : bool :=
  startswith (String.rev p) (String.rev s).

(** [enumerate(l, start)] *)
Fixpoint enumerate_from {A} (start : Z) (l : list A) : list (Z * A) :=
  match l with
  | [] => []
  | x :: l' => (start, x) :: enumerate_from (start + 1) l'
  end.

(** [s.lower()] on code points below 256. *)
Definition lower_char (c : ascii) : ascii :=
  if isupper_az c || in_range 192 214 c || in_range 216 222 c
  then ascii_of_N (code c + 32) else c.

Fixpoint lower (s : string) : string :=
  match s with
  | "" => ""
  | String c s' => String (lower_char c) (lower s')
  end.

(** [s.count(c)] for a single character *)
Fixpoint count_char (c : ascii) (s : string) : Z :=
  match s with
  | "" => 0
  | String d s' => (if Ascii.eqb d c then 1 else 0) + count_char c s'
  end.

(** [s.rfind(c)] for a single character; [None] stands for [-1]. *)
Fixpoint rfind_go (c : ascii) (s : string) (i : nat) (found : option nat)
    : option nat :=
  match s with
  | "" => found
  | String d s' => rfind_go c s' (S i) (if Ascii.eqb d c then Some i else found)
  end.

Definition rfind (c : ascii) (s : string) : option nat := rfind_go c s 0 None.

Definition drop_str (n : nat) (s : string) : string :=
  substring n (String.length s - n) s.

(** [Path(p).name] for a path written with forward slashes and without a
    trailing slash: the final component. *)
Definition path_name (p : string) : string :=
  match rfind "/"%char p with
  | None => p
  | Some i => drop_str (S i) p
  end.

(** [Path(p).suffix]: the last dot of the name and what follows, unless the
    dot is the first or the last character of the name. *)
Definition path_suffix (p : string) : string :=
  let name := path_name p in
  match rfind "."%char name with
  | None => ""
  | Some i =>
      if ((0 <? i) && (i <? String.length name - 1))%nat
      then drop_str i name else ""
  end.

(** [root / rel] for a relative [rel]. *)
Definition path_join (root rel : string) : string := root ++ "/" ++ rel.

(** Truthiness of a string. *)
Definition truthy (s : string) : bool :=
  match s with "" => false | _ => true end.

End Py.

(* ===================================================================== *)
(** * Regular expressions: a backtracking matcher in the style of [re] *)
(* ===================================================================== *)

Module Re.

Inductive regex : Type :=
| Eps
| Chr (p : ascii -> bool)
| Seq (r1 r2 : regex)
| Alt (r1 r2 : regex)            (* ordered choice: r1 is tried first *)
| Star (r : regex)               (* greedy  r*  *)
| LazyStar (r : regex)           (* lazy    r*? *)
| Group (n : nat) (r : regex)    (* capturing group number n *)
| Bol (multiline : bool).        (* ^ *)

(** Matcher state: the text still to read, its offset in the subject, the
    character just before it ([None] at the start of the subject), and the
    groups captured so far. *)
Record mstate : Type := MState {
  rest : string;
  pos : nat;
  prev : option ascii;
  caps : list (nat * string);
}.

Definition set_cap (n : nat) (v : string) (cs : list (nat * string)) :=
  (n, v) :: List.filter (fun kv => negb (Nat.eqb (fst kv) n)) cs.

Fixpoint get_cap (n : nat) (cs : list (nat * string)) : option string :=
  match cs with
  | [] => None
  | (k, v) :: cs' => if Nat.eqb k n then Some v else get_cap n cs'
  end.

Definition at_bol (multiline : bool) (p : option ascii) : bool :=
  match p with
  | None => true
  | Some c => multiline && Ascii.eqb c Py.LF
  end.

Definition progress (before after : mstate) : bool :=
  (pos before <? pos after)%nat.

Section Matcher.

Variable subject : string.
Context {A : Type}.

(** Continuation-passing matcher: [k] is what remains to be matched after
    [r]; a [None] from [k] makes the matcher backtrack.  A starred body has
    to consume at least one character per round (all starred bodies of the
    patterns below are single character classes). *)
Fixpoint rmatch (r : regex) (st : mstate) (k : mstate -> option A) : option A :=
  match r with
  | Eps => k st
  | Chr p =>
      match rest st with
      | String c s' =>
          if p c then k (MState s' (S (pos st)) (Some c) (caps st)) else None
      | "" => None
      end
  | Seq r1 r2 => rmatch r1 st (fun st' => rmatch r2 st' k)
  | Alt r1 r2 =>
      match rmatch r1 st k with
      | Some a => Some a
      | None => rmatch r2 st k
      end
  | Star r' =>
      (fix loop (fuel : nat) (st : mstate) : option A :=
         match fuel with
         | O => k st
         | S fuel' =>
             match rmatch r' st
                     (fun st' => if progress st st' then loop fuel' st'
                                 else None) with
             | Some a => Some a
             | None => k st
             end
         end) (String.length (rest st)) st
  | LazyStar r' =>
      (fix loop (fuel : nat) (st : mstate) : option A :=
         match k st with
         | Some a => Some a
         | None =>
             match fuel with
             | O => None
             | S fuel' =>
                 rmatch r' st
                   (fun st' => if progress st st' then loop fuel' st'
                               else None)
             end
         end) (String.length (rest st)) st
  | Group n r' =>
      rmatch r' st
        (fun st' =>
           k (MState (rest st') (pos st') (prev st')
                (set_cap n (substring (pos st) (pos st' - pos st) subject)
                   (caps st'))))
  | Bol ml => if at_bol ml (prev st) then k st else None
  end.

End Matcher.

(** Derived forms. *)
Definition plus (r : regex) : regex := Seq r (Star r).
Definition opt (r : regex) : regex := Alt r Eps.

Fixpoint lit (s : string) : regex :=
  match s with
  | "" => Eps
  | String c s' => Seq (Chr (Ascii.eqb c)) (lit s')
  end.

Definition cat (rs : list regex) : regex := fold_right Seq Eps rs.
Definition alts (r : regex) (rs : list regex) : regex := fold_left Alt rs r.

Definition one_of (s : string) : ascii -> bool :=
  fun c => existsb (Ascii.eqb c) (list_ascii_of_string s).

Definition cor (p q : ascii -> bool) : ascii -> bool := fun c => p c || q c.
Definition any_char : ascii -> bool := fun _ => true.

(** A successful match: where it starts and ends in the subject and the
    captured groups. *)
Record rmatched : Type := Matched {
  m_start : nat;
  m_end : nat;
  m_caps : list (nat * string);
}.

Definition group (n : nat) (m : rmatched) : option string := get_cap n (m_caps m).

Definition accept (off : nat) (st : mstate) : option rmatched :=
  Some (Matched off (pos st) (caps st)).

(** [pattern.match(s)]: anchored at the start of [s]. *)
Definition pmatch (r : regex) (s : string) : option rmatched :=
  rmatch s r (MState s 0 None []) (accept 0).

(** [pattern.search(s)]: the leftmost position at which a match starts. *)
Fixpoint search_from (subject : string) (r : regex) (off : nat)
    (p : option ascii) (s : string) : option rmatched :=
  match rmatch subject r (MState s off p []) (accept off) with
  | Some m => Some m
  | None =>
      match s with
      | "" => None
      | String c s' => search_from subject r (S off) (Some c) s'
      end
  end.

Definition search (r : regex) (s : string) : option rmatched :=
  search_from s r 0 None s.

(** [pattern.finditer(s)]: successive searches, each starting where the
    previous match ended (one character further after an empty match). *)
Fixpoint finditer_go (fuel : nat) (subject : string) (r : regex) (off : nat)
    : list rmatched :=
  match fuel with
  | O => []
  | S fuel' =>
      let p := match off with
               | O => None
               | S off' => String.get off' subject
               end in
      match search_from subject r off p (Py.drop_str off subject) with
      | None => []
      | Some m =>
          let next := if (m_start m <? m_end m)%nat then m_end m
                      else S (m_end m) in
          if (next <=? String.length subject)%nat
          then m :: finditer_go fuel' subject r next
          else [m]
      end
  end.

Definition finditer (r : regex) (s : string) : list rmatched :=
  finditer_go (S (String.length s)) s r 0.

End Re.

(* ===================================================================== *)
(** * Syntax trees as [ast.parse] returns them *)
(* ===================================================================== *)

Module Ast.

Inductive node_kind : Type :=
| ClassDef | FunctionDef | AsyncFunctionDef
| OtherNode.   (* Module, statements, expressions, ... *)

(** A node: its class, its [name] (for declarations), the [lineno] and
    [end_lineno] attributes when the node has them, what
    [ast.get_docstring] returns for it (the empty string for [None]), and
    its child nodes in the order of [ast.iter_child_nodes].  The context
    markers [Load] and [Store], which the parser shares between nodes, are
    leaves that no chain goes through; trees are written without them. *)
#[local] Unset Elimination Schemes.
Inductive node : Type := Node {
  n_kind : node_kind;
  n_name : string;
  n_lineno : option Z;
  n_end_lineno : option Z;
  n_docstring : string;
  n_children : list node;
}.
#[local] Set Elimination Schemes.

Definition is_decl (k : node_kind) : bool :=
  match k with
  | ClassDef | FunctionDef | AsyncFunctionDef => true
  | OtherNode => false
  end.

(** A node object is identified by its position in the tree: the list of
    child indices that leads to it from the root. *)
Definition nref : Type := list nat * node.

Definition child_refs (r : nref) : list nref :=
  imap (fun i c => ((r.1 ++ [i])%list, c)) (n_children r.2).

Fixpoint size (n : node) : nat :=
  S ((fix sizes (l : list node) : nat :=
        match l with
        | [] => O
        | c :: l' => (size c + sizes l')%nat
        end) (n_children n)).

(** [ast.walk]: breadth first, a queue of nodes still to visit.  Each round
    yields one node, so [size tree] rounds visit the whole tree. *)
Fixpoint walk_go (fuel : nat) (todo : list nref) : list nref :=
  match fuel with
  | O => []
  | S fuel' =>
      match todo with
      | [] => []
      | r :: todo' => r :: walk_go fuel' (todo' ++ child_refs r)%list
      end
  end.

Definition walk (tree : node) : list nref := walk_go (size tree) [([], tree)].

(** The number of nodes below and including the nodes of a queue. *)
Definition forest_size (todo : list nref) : nat :=
  list_sum (map (fun r : nref => size r.2) todo).

(** The node at a position of the tree. *)
Fixpoint subtree (t : node) (p : list nat) : option node :=
  match p with
  | [] => Some t
  | i :: p' =>
      match n_children t !! i with
      | Some c => subtree c p'
      | None => None
      end
  end.

(** A reference is sound when its node sits at its position. *)
Definition sound (tree : node) (r : nref) : Prop := subtree tree r.1 = Some r.2.

End Ast.

(* ===================================================================== *)
(** * git_module.py: diff hunks and scope resolution *)
(* ===================================================================== *)

Module GitModule.

Import Re Ast.

Inductive change_type : Type := Add | Del.

(** A change dict [{'type': ..., 'lineno': ..., 'content': ...}]. *)
Record change : Type := Change {
  c_type : change_type;
  c_lineno : Z;
  c_content : string;
}.

(** The pattern "^@@ -(\d+)(?:,(\d+))? \+(\d+)(?:,(\d+))? @@". *)
Definition hunk_re : regex :=
  cat [ Bol false; lit "@@ -"; Group 1 (plus (Chr Py.isdigit));
        opt (cat [lit ","; Group 2 (plus (Chr Py.isdigit))]);
        lit " +"; Group 3 (plus (Chr Py.isdigit));
        opt (cat [lit ","; Group 4 (plus (Chr Py.isdigit))]);
        lit " @@" ].

Definition is_add_line (l : string) : bool :=
  Py.startswith "+" l && negb (Py.startswith "+++" l).

Definition is_del_line (l : string) : bool :=
  Py.startswith "-" l && negb (Py.startswith "---" l).

(** The inner [while]: the lines of one hunk, up to the next line that
    starts with ["@@ "].  Returns the changes and the lines not consumed. *)
Fixpoint hunk_body (old_line new_line : Z) (lines : list string)
    : list change * list string :=
  match lines with
  | [] => ([], [])
  | l :: lines' =>
      if Py.startswith "@@ " l then ([], lines)
      else if is_add_line l then
        let '(cs, r) := hunk_body old_line (new_line + 1) lines' in
        (Change Add new_line (Py.tail1 l) :: cs, r)
      else if is_del_line l then
        let '(cs, r) := hunk_body (old_line + 1) new_line lines' in
        (Change Del old_line (Py.tail1 l) :: cs, r)
      else hunk_body (old_line + 1) (new_line + 1) lines'
  end.

(** The outer [while]: one round per line that is looked at as a possible
    hunk header.  Every round consumes a line, so [length lines] rounds
    always suffice (see [parse_loop_fuel]). *)
Fixpoint parse_loop (fuel : nat) (lines : list string) : list change :=
  match fuel with
  | O => []
  | S fuel' =>
      match lines with
      | [] => []
      | l :: lines' =>
          match pmatch hunk_re l with
          | None => parse_loop fuel' lines'
          | Some m =>
              let old_line := Py.int (default "" (group 1 m)) in
              let new_line := Py.int (default "" (group 3 m)) in
              let '(cs, r) := hunk_body old_line new_line lines' in
              cs ++ parse_loop fuel' r
          end
      end
  end.

Definition parse_patch_for_changes (patch_text : string) : list change :=
  let lines := Py.splitlines patch_text in
  parse_loop (length lines) lines.

(** ** Structural scope resolution over the tree of [ast.parse] *)

Section Structural.

Variable ast_parse : string -> option node.

(** [max(candidates, key=lambda n: (n.lineno, n.end_lineno - n.lineno))]:
    tuples compare lexicographically and [max] keeps the first of several
    maximal elements. *)
Definition span_key (r : nref) : Z * Z :=
  let n := r.2 in
  (default 0 (n_lineno n), default 0 (n_end_lineno n) - default 0 (n_lineno n)).

Definition key_lt (a b : Z * Z) : bool :=
  (a.1 <? b.1) || ((a.1 =? b.1) && (a.2 <? b.2)).

(** The order that [key_lt] decides, non-strict. *)
Definition key_le (a b : Z * Z) : Prop :=
  a.1 < b.1 \/ (a.1 = b.1 /\ a.2 <= b.2).

Fixpoint max_from (best : nref) (l : list nref) : nref :=
  match l with
  | [] => best
  | x :: l' =>
      if key_lt (span_key best) (span_key x) then max_from x l'
      else max_from best l'
  end.

Definition pick_innermost (candidates : list nref) : option nref :=
  match candidates with
  | [] => None
  | x :: l => Some (max_from x l)
  end.

(** The parent map: [parent[child] = node] for every node of the walk. *)
Definition build_parent (tree : node) : gmap (list nat) nref :=
  fold_left
    (fun parent r =>
       fold_left (fun parent c => <[c.1 := r]> parent) (child_refs r) parent)
    (walk tree) ∅.

(** The edges written into the parent map, in the order of the writes. *)
Definition edges (l : list nref) : list (list nat * nref) :=
  flat_map (fun r => map (fun c : nref => (c.1, r)) (child_refs r)) l.

Definition is_candidate (target_lineno : Z) (r : nref) : bool :=
  is_decl (n_kind r.2) &&
  match n_lineno r.2, n_end_lineno r.2 with
  | Some lo, Some hi => (lo <=? target_lineno) && (target_lineno <=? hi)
  | _, _ => false
  end.

Definition chain_token (n : node) : list string :=
  match n_kind n with
  | ClassDef => ["class " ++ n_name n]
  | FunctionDef | AsyncFunctionDef => ["def " ++ n_name n]
  | OtherNode => []
  end.

(** [while node in parent: ...; node = parent[node]].  A parent's path is
    one shorter than its child's, so [S (length path)] rounds suffice. *)
Fixpoint chain_up (fuel : nat) (parent : gmap (list nat) nref) (r : nref)
    (chain : list string) : list string :=
  match fuel with
  | O => chain
  | S fuel' =>
      match parent !! r.1 with
      | None => chain
      | Some pr => chain_up fuel' parent pr (chain ++ chain_token r.2)%list
      end
  end.

(** The chain of tokens, outer to inner, before it is joined; [None] when
    the function returns [None]. *)
Definition python_chain_tokens (source_text : string) (target_lineno : Z)
    : option (list string) :=
  match ast_parse source_text with
  | None => None
  | Some tree =>
      let parent := build_parent tree in
      let candidates := List.filter (is_candidate target_lineno) (walk tree) in
      match pick_innermost candidates with
      | None => None
      | Some r => Some (rev (chain_up (S (length r.1)) parent r []))
      end
  end.

Definition render_chain (chain : list string) : string :=
  match chain with
  | [] => "module"
  | _ => Py.join " -> " chain
  end.

Definition find_enclosing_python_chain (source_text : string)
    (target_lineno : Z) : option string :=
  render_chain <$> python_chain_tokens source_text target_lineno.

End Structural.

(** ** Heuristic scope resolution by indentation *)

(** [decl_re], part by part:
    [^]  [(\s* )]  [(?:def|class)]  [\s+]  [([A-Za-z_]\w* )]. *)
Definition decl_re : regex :=
  cat [ Bol false; Group 1 (Star (Chr Py.isspace));
        Alt (lit "def") (lit "class");
        plus (Chr Py.isspace);
        Group 2 (Seq (Chr (cor Py.isalpha_az (one_of "_")))
                     (Star (Chr Py.isword))) ].

(** An entry of [decls]. *)
Record rdecl : Type := RDecl {
  r_lineno : Z;
  r_indent : Z;
  r_kind : string;
  r_name : string;
}.

Definition scan_line (i : Z) (line : string) : list rdecl :=
  match pmatch decl_re line with
  | None => []
  | Some m =>
      let indent := Py.len (Py.expandtabs 4 (default "" (group 1 m))) in
      let kind :=
        if Py.startswith "def" (Py.strip line) then "def" else "class" in
      let name := default "" (group 2 m) in
      [RDecl (i + 1) indent kind name]
  end.

Definition scan_decls (src_lines : list string) : list rdecl :=
  flat_map (fun il => scan_line il.1 il.2) (Py.enumerate_from 0 src_lines).

Definition rtoken (d : rdecl) : string := r_kind d ++ " " ++ r_name d.

(** The loop over [reversed(prev)]: the state is the chain built so far and
    [current_min_indent]. *)
Definition chain_step (st : list string * Z) (d : rdecl) : list string * Z :=
  if r_indent d <? st.2 then ((st.1 ++ [rtoken d])%list, r_indent d) else st.

Definition regex_chain_tokens (prev : list rdecl) : list string :=
  rev (fold_left chain_step (rev prev) ([], 10 ^ 9)).1.

Definition find_enclosing_by_regex (source_text : string) (target_lineno : Z)
    : string :=
  let src_lines := Py.splitlines source_text in
  let idx := target_lineno - 1 in
  if (idx <? 0) || (idx >=? Z.of_nat (length src_lines)) then "module"
  else
    let decls := scan_decls src_lines in
    let prev := List.filter (fun d => r_lineno d <=? target_lineno) decls in
    match prev with
    | [] => "module"
    | _ => render_chain (regex_chain_tokens prev)
    end.

(** The heuristic chain in the words of the specification: the
    declarations that start at or before the target line are walked in
    reverse order with a running minimum of the indentation, infinite at
    first ([None]); a declaration is appended when its indentation is
    strictly less than the minimum, which then becomes that indentation;
    the result is reversed. *)
Fixpoint walk_with_minimum (minimum : option Z) (decls : list rdecl)
    : list string :=
  match decls with
  | [] => []
  | d :: decls' =>
      let below := match minimum with
                   | None => true
                   | Some m => r_indent d <? m
                   end in
      if below then rtoken d :: walk_with_minimum (Some (r_indent d)) decls'
      else walk_with_minimum minimum decls'
  end.

Definition heuristic_chain_of_spec (decls : list rdecl) (target_lineno : Z)
    : list string :=
  rev (walk_with_minimum None
         (rev (List.filter (fun d => r_lineno d <=? target_lineno) decls))).

(** The chain computed for a change in the module-level loop: the
    structural resolver for [.py] paths, with the heuristic one as its
    fallback, and the heuristic one alone for every other path. *)
Definition enclosing_chain (ast_parse : string -> option node)
    (path file_text : string) (lineno : Z) : string :=
  if Py.endswith ".py" path then
    match find_enclosing_python_chain ast_parse file_text lineno with
    | Some chain => chain
    | None => find_enclosing_by_regex file_text lineno
    end
  else find_enclosing_by_regex file_text lineno.

(** ** The context of a change *)

(** [l[a:b]] for arbitrary integers: a negative index counts from the end,
    and both ends are clipped to the list. *)
Definition slice_index {A} (l : list A) (i : Z) : Z :=
  let n := Z.of_nat (length l) in
  if i <? 0 then Z.max 0 (n + i) else Z.min i n.

Definition py_slice {A} (l : list A) (a b : Z) : list A :=
  Py.slice l (slice_index l a) (slice_index l b).

(** [src_lines[ctx_start:ctx_end]] with [ctx_start = max(0, lineno - 3)] and
    [ctx_end = min(len(src_lines), lineno + 2)]. *)
Definition context_lines (src_lines : list string) (lineno : Z) : list string :=
  let ctx_start := Z.max 0 (lineno - 3) in
  let ctx_end := Z.min (Z.of_nat (length src_lines)) (lineno + 2) in
  py_slice src_lines ctx_start ctx_end.

(** One entry of [commit.diff(parent, create_patch=True)]: the two paths
    ([None] when the side does not exist) and the decoded patch text. *)
Record diff_entry : Type := DiffEntry {
  a_path : option string;
  b_path : option string;
  diff_text : string;
}.

(** A [rag_context] dict. *)
Record rag_context : Type := RagContext {
  rc_file_path : string;
  rc_ref : string;
  rc_change_type : change_type;
  rc_lineno : Z;
  rc_changed_line : string;
  rc_context : string;
  rc_enclosing_chain : string;
  rc_commit : string;
  rc_parent_commit : string;
}.

Section Aggregator.

Variable ast_parse : string -> option node.
(** [load_file_at_commit]: the text of a path at a revision, [None] when
    [git show] fails. *)
Variable load_file_at_commit : string -> string -> option string.
(** [commit.hexsha] and [parent.hexsha] *)
Variable commit_sha parent_sha : string.

(** The body of [for ch in changes]: the context appended for one change,
    or nothing when the change is skipped. *)
Definition change_context (d : diff_entry) (ch : change) : list rag_context :=
  let '(path, ref) :=
    match c_type ch with
    | Add => (b_path d, commit_sha)
    | Del => (a_path d, parent_sha)
    end in
  match path with
  | None => []
  | Some path =>
      if negb (Py.truthy path) then []
      else
        match load_file_at_commit path ref with
        | None => []
        | Some file_text =>
            let lineno := c_lineno ch in
            let src_lines := Py.splitlines file_text in
            let context_snippet := Py.join Py.nl (context_lines src_lines lineno) in
            let chain := enclosing_chain ast_parse path file_text lineno in
            [RagContext path ref (c_type ch) lineno (c_content ch)
               context_snippet chain commit_sha parent_sha]
        end
  end.

(** The body of [for diff in commit.diff(...)]. *)
Definition diff_contexts (d : diff_entry) : list rag_context :=
  flat_map (change_context d) (parse_patch_for_changes (diff_text d)).

(** [all_rag_contexts] after the loop over the diffs. *)
Definition collect_contexts (diffs : list diff_entry) : list rag_context :=
  flat_map diff_contexts diffs.

End Aggregator.

(** ** Companions of the two resolvers, used to state what they compute *)

(** The tokens of the declarations met on the way from the root of a tree
    down to a position, the root itself left out. *)
Fixpoint tokens_below (t : node) (p : list nat) : list string :=
  match p with
  | [] => []
  | i :: p' =>
      match n_children t !! i with
      | Some c => (chain_token c ++ tokens_below c p')%list
      | None => []
      end
  end.

(** The loop of the heuristic resolver with the declarations kept in place
    of their tokens. *)
Definition chain_step_decls (st : list rdecl * Z) (d : rdecl) : list rdecl * Z :=
  if r_indent d <? st.2 then ((st.1 ++ [d])%list, r_indent d) else st.

Definition regex_chain_decls (prev : list rdecl) : list rdecl :=
  rev (fold_left chain_step_decls (rev prev) ([], 10 ^ 9)).1.

Definition indent_lt (d e : rdecl) : Prop := r_indent d < r_indent e.

(** The same loop as a recursion over the reversed declarations. *)
Fixpoint select_below (minimum : Z) (decls : list rdecl) : list rdecl :=
  match decls with
  | [] => []
  | d :: decls' =>
      if r_indent d <? minimum then d :: select_below (r_indent d) decls'
      else select_below minimum decls'
  end.

(** The line numbers of the deletions and of the additions of a list of
    changes, in order. *)
Definition is_del (c : change) : bool :=
  match c_type c with Del => true | Add => false end.
Definition is_add (c : change) : bool :=
  match c_type c with Add => true | Del => false end.
Definition del_linenos (cs : list change) : list Z :=
  map c_lineno (List.filter is_del cs).
Definition add_linenos (cs : list change) : list Z :=
  map c_lineno (List.filter is_add cs).



(** The line a change was read from. *)
Definition from_line (c : change) (l : string) : Prop :=
  c_content c = Py.tail1 l
  /\ match c_type c with
     | Add => is_add_line l = true
     | Del => is_del_line l = true
     end.

End GitModule.

(* ===================================================================== *)
(** * langraph.py: language detection, file reading, declaration scan *)
(* ===================================================================== *)

Module Langraph.

Import Re Ast.

(** The part of the file system the code looks at.  [None] stands for a
    call that raises. *)
Record file_system : Type := FileSystem {
  fs_exists : string -> bool;
  fs_is_file : string -> bool;
  fs_stat_size : string -> option Z;
  fs_read_text : string -> option string;
}.

(** [_EXT_LANG] *)
Definition _EXT_LANG : list (string * string) :=
  [ (".py", "python"); (".js", "javascript"); (".ts", "typescript");
    (".java", "java"); (".go", "go"); (".rs", "rust"); (".c", "c");
    (".cpp", "cpp"); (".h", "c_header"); (".html", "html"); (".css", "css");
    (".json", "json"); (".yaml", "yaml"); (".yml", "yaml"); (".sh", "shell");
    ("Dockerfile", "dockerfile") ].

Fixpoint assoc {V} (k : string) (l : list (string * V)) : option V :=
  match l with
  | [] => None
  | (k', v) :: l' => if String.eqb k k' then Some v else assoc k l'
  end.

Definition detect_language_from_path (p : string) : string :=
  match assoc (Py.path_name p) _EXT_LANG with
  | Some lang => lang
  | None =>
      let ext := Py.lower (Py.path_suffix p) in
      default "unknown" (assoc ext _EXT_LANG)
  end.

Definition max_size_default : Z := 1000000.

(** Both [path.stat()] and [path.read_text(...)] sit inside the [try]. *)
Definition read_text_file_with (fs : file_system) (path : string)
    (max_size : Z) : option string :=
  match fs_stat_size fs path with
  | None => None
  | Some sz => if sz >? max_size then None else fs_read_text fs path
  end.

Definition read_text_file (fs : file_system) (path : string) : option string :=
  read_text_file_with fs path max_size_default.

(** An item [{'type': ..., 'name': ..., 'lineno': ..., 'end_lineno': ...}]. *)
Record decl : Type := Decl {
  d_type : string;
  d_name : string;
  d_lineno : option Z;
  d_end_lineno : option Z;
}.

Definition item_of (n : node) : decl :=
  Decl (match n_kind n with ClassDef => "class" | _ => "def" end)
       (n_name n) (n_lineno n) (n_end_lineno n).

Definition sort_key (d : decl) : Z := Py.or_int (d_lineno d) 0.

(** [list.sort] is stable: of two items with the same key the one that came
    first stays first. *)
Fixpoint insert_sorted (d : decl) (l : list decl) : list decl :=
  match l with
  | [] => [d]
  | e :: l' =>
      if sort_key d <=? sort_key e then d :: l
      else e :: insert_sorted d l'
  end.

Definition sort_items (l : list decl) : list decl :=
  fold_right insert_sorted [] l.

Definition by_lineno (d e : decl) : Prop := sort_key d <= sort_key e.

Section Scanner.

Variable ast_parse : string -> option node.

Definition parse_python_structure (source_text : string) : list decl :=
  match ast_parse source_text with
  | None => []
  | Some tree =>
      let items :=
        flat_map (fun r => if is_decl (n_kind r.2) then [item_of r.2] else [])
                 (walk tree) in
      sort_items items
  end.

End Scanner.

(** The relation the specification wants recorded on every Declaration:
    each declaration of a tree paired with its immediate enclosing
    declaration ([None] at module level), read off the tree. *)
Fixpoint items_with_enclosing (encl : option decl) (n : node)
    : list (decl * option decl) :=
  let here := if is_decl (n_kind n) then [(item_of n, encl)] else [] in
  let encl' := if is_decl (n_kind n) then Some (item_of n) else encl in
  (here ++ flat_map (items_with_enclosing encl') (n_children n))%list.

End Langraph.

(* ===================================================================== *)
(** * app/docgen.py: documentation comments, rendering, history *)
(* ===================================================================== *)

Module Docgen.

Import Re Ast Langraph.

(** Keys of the existing-documentation dict:
    [(f"{kind} {name}", lineno, end_lineno)]. *)
Definition doc_key : Type := string * Z * Z.

Definition ws : regex := Chr Py.isspace.

Definition ident (first : ascii -> bool) : regex :=
  Seq (Chr first) (Star (Chr Py.isword)).

Definition az_ : ascii -> bool := cor Py.isalpha_az (one_of "_").
Definition az_dollar : ascii -> bool := cor Py.isalpha_az (one_of "_$").

(** [func_re], part by part:  [^]  [\s*]  [(?:export\s+)?]  [(?:async\s+)?]
    [(?:function\*?|const|let|var|class)]  [\s+]  [([A-Za-z_$]\w* )]
    [\s*]  [[=(]]. *)
Definition func_re : regex :=
  cat [ Bol false; Star ws;
        opt (cat [lit "export"; plus ws]);
        opt (cat [lit "async"; plus ws]);
        alts (Seq (lit "function") (opt (lit "*")))
             [lit "const"; lit "let"; lit "var"; lit "class"];
        plus ws; Group 1 (ident az_dollar); Star ws; Chr (one_of "=(") ].

(** [jsdoc_re] and [javadoc_re]: the opener [/**], a lazy run of arbitrary
    characters (group 1), the closer [*/]. *)
Definition jsdoc_re : regex :=
  cat [ lit "/**"; Group 1 (LazyStar (Chr any_char)); lit "*/" ].

Definition javadoc_re : regex := jsdoc_re.

(** [java_re], part by part:  [^]  [\s*]  [(?:public|private|protected)?]
    [\s*]  [(?:static)?]  [\s*]
    [(?:class|interface|enum|void|[\w<>\[\]]+\s+)]  [([A-Za-z_$]\w* )]
    [\s*]  [[({]]. *)
Definition java_re : regex :=
  cat [ Bol false; Star ws;
        opt (alts (lit "public") [lit "private"; lit "protected"]);
        Star ws; opt (lit "static"); Star ws;
        alts (lit "class")
             [lit "interface"; lit "enum"; lit "void";
              Seq (plus (Chr (cor Py.isword (one_of "<>[]")))) (plus ws)];
        Group 1 (ident az_dollar); Star ws; Chr (one_of "({") ].

(** [go_re]:  [^]  [\s*]  then either  [func\s+]  [(?:\([^)]+\)\s+)?]
    [([A-Za-z_]\w* )]  or  [type\s+]  [([A-Za-z_]\w* )]. *)
Definition go_re : regex :=
  cat [ Bol false; Star ws;
        Alt (cat [ lit "func"; plus ws;
                   opt (cat [ lit "(";
                              plus (Chr (fun c => negb (Ascii.eqb c ")")));
                              lit ")"; plus ws ]);
                   Group 1 (ident az_) ])
            (cat [ lit "type"; plus ws; Group 2 (ident az_) ]) ].

(** [rust_re]:  [^]  [\s*]  [(?:pub\s+)?]  [(?:async\s+)?]
    [(?:fn|struct|enum|trait|impl|mod)]  [\s+]  [([A-Za-z_]\w* )]. *)
Definition rust_re : regex :=
  cat [ Bol false; Star ws;
        opt (cat [lit "pub"; plus ws]);
        opt (cat [lit "async"; plus ws]);
        alts (lit "fn") [lit "struct"; lit "enum"; lit "trait"; lit "impl"; lit "mod"];
        plus ws; Group 1 (ident az_) ].

(** A literal under [re.IGNORECASE]. *)
Fixpoint ilit (s : string) : regex :=
  match s with
  | "" => Eps
  | String a s' =>
      Seq (Chr (fun c => Ascii.eqb (Py.lower_char c) (Py.lower_char a)))
          (ilit s')
  end.

(** [_generic_decl_re], compiled with [re.IGNORECASE | re.MULTILINE]:
    [^]  [(\s* )]  [(class|def|interface|func|function|struct)]  [\s+]
    [([A-Za-z_]\w* )]. *)
Definition _generic_decl_re : regex :=
  cat [ Bol true; Group 1 (Star ws);
        Group 2 (alts (ilit "class")
                   [ilit "def"; ilit "interface"; ilit "func";
                    ilit "function"; ilit "struct"]);
        plus ws; Group 3 (ident az_) ].

(** ** Documentation comments *)

Definition is_star (c : ascii) : bool := Ascii.eqb c "*".

(** The clean-up shared by the JSDoc and JavaDoc extractors. *)
Definition clean_doc (raw : string) : string :=
  let doc := Py.strip raw in
  let doc_lines :=
    map (fun l => Py.strip (Py.lstrip_by is_star (Py.strip l)))
        (Py.splitlines doc) in
  Py.strip (Py.join Py.nl (List.filter Py.truthy doc_lines)).

(** The text of the [window] lines before line index [i]:
    ["\n".join(lines[max(0, i - window):i])]. *)
Definition look_behind (window : Z) (lines : list string) (i : Z) : string :=
  Py.join Py.nl (Py.slice lines (Z.max 0 (i - window)) i).

(** The body of the JavaScript loop for one line: the entry written to
    [out], if any. *)
Definition js_line_doc (lines : list string) (i : Z) (line : string)
    : option (doc_key * string) :=
  match pmatch func_re line with
  | None => None
  | Some m =>
      let name := default "" (group 1 m) in
      let lineno := i + 1 in
      match search jsdoc_re (look_behind 5 lines i) with
      | None => None
      | Some jm =>
          let doc := clean_doc (default "" (group 1 jm)) in
          if Py.truthy doc then
            let kind := if Py.contains "class" line then "class" else "function" in
            Some ((kind ++ " " ++ name, lineno, lineno), doc)
          else None
      end
  end.

Definition java_line_doc (lines : list string) (i : Z) (line : string)
    : option (doc_key * string) :=
  match pmatch java_re line with
  | None => None
  | Some m =>
      let name := default "" (group 1 m) in
      let lineno := i + 1 in
      match search javadoc_re (look_behind 10 lines i) with
      | None => None
      | Some jm =>
          let doc := clean_doc (default "" (group 1 jm)) in
          if Py.truthy doc then
            let kind :=
              if existsb (fun kw => Py.contains kw line)
                   ["class"; "interface"; "enum"]
              then "class" else "method" in
            Some ((kind ++ " " ++ name, lineno, lineno), doc)
          else None
      end
  end.

(** The comment lines directly above line index [i]: the [while] loop that
    walks upwards as long as the stripped line starts with [marker]. *)
Fixpoint comment_run (marker : string) (above : list string) : list string :=
  match above with
  | [] => []
  | l :: above' =>
      if Py.startswith marker (Py.strip l)
      then (comment_run marker above' ++
            [Py.strip (Py.drop_str (String.length marker) (Py.strip l))])%list
      else []
  end.

Definition comment_lines_above (marker : string) (lines : list string) (i : Z)
    : list string :=
  comment_run marker (rev (take (Z.to_nat i) lines)).

Definition go_line_doc (lines : list string) (i : Z) (line : string)
    : option (doc_key * string) :=
  match pmatch go_re line with
  | None => None
  | Some m =>
      let g1 := default "" (group 1 m) in
      let name := if Py.truthy g1 then g1 else default "" (group 2 m) in
      let lineno := i + 1 in
      match comment_lines_above "//" lines i with
      | [] => None
      | comment_lines =>
          let doc := Py.strip (Py.join Py.nl comment_lines) in
          if Py.truthy doc then
            let kind := if Py.truthy g1 then "func" else "type" in
            Some ((kind ++ " " ++ name, lineno, lineno), doc)
          else None
      end
  end.

Definition rust_kind (line : string) : string :=
  if Py.contains "fn" line then "fn"
  else if Py.contains "struct" line then "struct"
  else if Py.contains "enum" line then "enum"
  else if Py.contains "trait" line then "trait"
  else "impl".

Definition rust_line_doc (lines : list string) (i : Z) (line : string)
    : option (doc_key * string) :=
  match pmatch rust_re line with
  | None => None
  | Some m =>
      let name := default "" (group 1 m) in
      let lineno := i + 1 in
      match comment_lines_above "///" lines i with
      | [] => None
      | comment_lines =>
          let doc := Py.strip (Py.join Py.nl comment_lines) in
          if Py.truthy doc then
            Some ((rust_kind line ++ " " ++ name, lineno, lineno), doc)
          else None
      end
  end.

(** [for i, line in enumerate(lines): ...; out[key] = doc] *)
Definition put_doc (line_doc : list string -> Z -> string -> option (doc_key * string))
    (lines : list string) (out : gmap doc_key string) (il : Z * string)
    : gmap doc_key string :=
  match line_doc lines il.1 il.2 with
  | Some (k, doc) => <[k := doc]> out
  | None => out
  end.

Definition scan_docs (line_doc : list string -> Z -> string -> option (doc_key * string))
    (source_text : string) : gmap doc_key string :=
  let lines := Py.splitlines source_text in
  fold_left (put_doc line_doc lines) (Py.enumerate_from 0 lines) ∅.

Definition _parse_javascript_docstrings : string -> gmap doc_key string :=
  scan_docs js_line_doc.
Definition _parse_java_docstrings : string -> gmap doc_key string :=
  scan_docs java_line_doc.
Definition _parse_go_docstrings : string -> gmap doc_key string :=
  scan_docs go_line_doc.
Definition _parse_rust_docstrings : string -> gmap doc_key string :=
  scan_docs rust_line_doc.

(** The two block-comment extractors side by side: [java = true] for
    [_parse_java_docstrings], [false] for [_parse_javascript_docstrings]. *)
Definition block_line_doc (java : bool) :=
  if java then java_line_doc else js_line_doc.
Definition block_decl_re (java : bool) : regex :=
  if java then java_re else func_re.
Definition block_window (java : bool) : Z := if java then 10 else 5.
Definition block_comment_docs (java : bool) : string -> gmap doc_key string :=
  if java then _parse_java_docstrings else _parse_javascript_docstrings.

Section WithParser.

Variable ast_parse : string -> option node.

Definition put_python_doc (out : gmap doc_key string) (r : nref)
    : gmap doc_key string :=
  let n := r.2 in
  if is_decl (n_kind n) then
    let kind := match n_kind n with ClassDef => "class" | _ => "def" end in
    let lineno := default (-1) (n_lineno n) in
    let end_lineno := default (-1) (n_end_lineno n) in
    if Py.truthy (n_docstring n)
    then <[(kind ++ " " ++ n_name n, lineno, end_lineno) := n_docstring n]> out
    else out
  else out.

Definition _parse_python_docstrings (source_text : string)
    : gmap doc_key string :=
  match ast_parse source_text with
  | None => ∅
  | Some tree => fold_left put_python_doc (walk tree) ∅
  end.

Definition _parse_docstrings_by_language (source_text language : string)
    : gmap doc_key string :=
  if String.eqb language "python" then _parse_python_docstrings source_text
  else if String.eqb language "javascript" || String.eqb language "typescript"
  then _parse_javascript_docstrings source_text
  else if String.eqb language "java" then _parse_java_docstrings source_text
  else if String.eqb language "go" then _parse_go_docstrings source_text
  else if String.eqb language "rust" then _parse_rust_docstrings source_text
  else ∅.

(** ** Declarations *)

Definition generic_item (text : string) (m : rmatched) : decl :=
  let kind := Py.lower (default "" (group 2 m)) in
  let name := default "" (group 3 m) in
  let lineno := Py.count_char Py.LF (substring 0 (m_start m) text) + 1 in
  Decl kind name (Some lineno) None.

Definition _scan_declarations (text language : string) : list decl :=
  if String.eqb language "python" then parse_python_structure ast_parse text
  else map (generic_item text) (finditer _generic_decl_re text).

(** ** Rendering *)

Definition nl2 : string := Py.nl ++ Py.nl.

Definition placeholder : string := "No documentation available.".

Definition page_title (rel_path : string) : string := "# " ++ rel_path ++ nl2.

Definition template_heading (template : string) : string :=
  if String.eqb template "api" then "## API Documentation" ++ nl2
  else if String.eqb template "class_breakdown"
  then "## Class and Function Breakdown" ++ nl2
  else "## Documentation" ++ nl2.

(** [start = d.get("lineno") or 0] and [end = d.get("end_lineno") or start] *)
Definition decl_start (d : decl) : Z := Py.or_int (d_lineno d) 0.
Definition decl_end (d : decl) : Z := Py.or_int (d_end_lineno d) (decl_start d).

Definition section_header (d : decl) : string :=
  "### " ++ d_type d ++ " `" ++ d_name d ++ "` (lines "
  ++ Py.str (decl_start d) ++ "-" ++ Py.str (decl_end d) ++ ")" ++ nl2.

Definition existing_key (d : decl) : doc_key :=
  (d_type d ++ " " ++ d_name d, decl_start d, decl_end d).

Definition llm_key (rel_path : string) (d : decl) : string :=
  rel_path ++ ":" ++ d_type d ++ ":" ++ d_name d.

(** Truthiness of [existing_docs.get(key)]: [None] and [""] are falsy. *)
Definition present (doc : option string) : bool :=
  match doc with
  | Some s => Py.truthy s
  | None => false
  end.

Definition section_body (rel_path : string) (existing_docs : gmap doc_key string)
    (llm_docs : gmap string string) (d : decl) : string :=
  let doc := existing_docs !! existing_key d in
  let doc :=
    if negb (present doc) then Some (default "" (llm_docs !! llm_key rel_path d))
    else doc in
  Py.strip (if present doc then default "" doc else placeholder).

(** The identity of a declaration as its section header shows it. *)
Definition decl_tuple (d : decl) : string * string * Z * Z :=
  (d_type d, d_name d, decl_start d, decl_end d).

(** One section of the rendered document. *)
Definition section_text (rel_path : string) (existing_docs : gmap doc_key string)
    (llm_docs : gmap string string) (d : decl) : string :=
  section_header d ++ section_body rel_path existing_docs llm_docs d ++ nl2.

(** The header line of a section, without the blank line after it. *)
Definition header_line (d : decl) : string :=
  "### " ++ d_type d ++ " `" ++ d_name d ++ "` (lines "
  ++ Py.str (decl_start d) ++ "-" ++ Py.str (decl_end d) ++ ")".

(** Modelled from the spec: the reader that "re-parses the headers" of a
    rendered document, which the repository does not contain.  The document
    is cut into lines at line feeds, and every line of the form
    [### kind `name` (lines start-end)], with decimal [start] and [end], gives
    one (kind, name, start, end); other lines are passed over. *)
Fixpoint split_nl (s : string) : list string :=
  match s with
  | "" => [""]
  | String c s' =>
      if Ascii.eqb c Py.LF then "" :: split_nl s'
      else
        match split_nl s' with
        | [] => [String c ""]
        | l :: ls => String c l :: ls
        end
  end.

Fixpoint strip_prefix (p s : string) : option string :=
  match p, s with
  | "", _ => Some s
  | String a p', String b s' =>
      if Ascii.eqb a b then strip_prefix p' s' else None
  | String _ _, "" => None
  end.

(** The text before the first occurrence of [sep] and the text after it. *)
Fixpoint cut (sep s : string) : option (string * string) :=
  match strip_prefix sep s with
  | Some r => Some ("", r)
  | None =>
      match s with
      | "" => None
      | String c s' =>
          match cut sep s' with
          | Some (a, b) => Some (String c a, b)
          | None => None
          end
      end
  end.

Fixpoint all_digits (s : string) : bool :=
  match s with
  | "" => true
  | String c s' => Py.isdigit c && all_digits s'
  end.

Definition read_nat (s : string) : option Z :=
  if Py.truthy s && all_digits s
  then Z.of_int <$> NilEmpty.int_of_string s
  else None.

(** Modelled from the spec: one header line read back. *)
Definition parse_header (line : string) : option (string * string * Z * Z) :=
  match strip_prefix "### " line with
  | None => None
  | Some r =>
      match cut " `" r with
      | None => None
      | Some (kind, r) =>
          match cut "` (lines " r with
          | None => None
          | Some (name, r) =>
              match cut "-" r with
              | None => None
              | Some (a, r) =>
                  match cut ")" r with
                  | Some (b, "") =>
                      match read_nat a, read_nat b with
                      | Some lo, Some hi => Some (kind, name, lo, hi)
                      | _, _ => None
                      end
                  | _ => None
                  end
              end
          end
      end
  end.

(** Modelled from the spec: the headers of a document, in order. *)
Definition parse_headers (doc : string) : list (string * string * Z * Z) :=
  omap parse_header (split_nl doc).

(** [c] does not occur in [s]. *)
Fixpoint lacks (c : ascii) (s : string) : bool :=
  match s with
  | "" => true
  | String d s' => negb (Ascii.eqb c d) && lacks c s'
  end.

(** A declaration whose header reads back: kind and name are on one line,
    the kind has no space, the name no backquote, and the line numbers are
    known (not negative). *)
Definition header_safe (d : decl) : Prop :=
  lacks " " (d_type d) = true /\ lacks Py.LF (d_type d) = true
  /\ lacks "`" (d_name d) = true /\ lacks Py.LF (d_name d) = true
  /\ 0 <= decl_start d /\ 0 <= decl_end d.

(** One round of [for d in decls]: two strings are appended to [lines]. *)
Definition render_step (rel_path : string) (existing_docs : gmap doc_key string)
    (llm_docs : gmap string string) (lines : list string) (d : decl)
    : list string :=
  (lines ++ [section_header d;
             section_body rel_path existing_docs llm_docs d +:+ nl2])%list.

Definition _render_markdown_for_file (rel_path language text : string)
    (decls : list decl) (existing_docs : gmap doc_key string)
    (llm_docs : gmap string string) (template : string) : string :=
  let lines := [page_title rel_path; template_heading template] in
  match decls with
  | [] => Py.concat (lines ++ ["(No declarations found)" +:+ Py.nl])%list
  | _ =>
      Py.concat (fold_left (render_step rel_path existing_docs llm_docs)
                   decls lines)
  end.

(** ** The history store *)

(** Decoded JSON values; a [dict] keeps its keys in insertion order. *)
#[local] Unset Elimination Schemes.
Inductive json : Type :=
| JNull
| JBool (b : bool)
| JInt (n : Z)
| JStr (s : string)
| JList (l : list json)
| JDict (kvs : list (string * json)).
#[local] Set Elimination Schemes.

(** What [history.json] holds: nothing (no file), text that [json.loads]
    rejects, or the text of a JSON value.  [json.dumps] followed by
    [json.loads] gives the value back, so a written file is represented by
    the value written. *)
Inductive history_store : Type :=
| HAbsent
| HUnreadable
| HJson (j : json).

(** [d.setdefault(k, default)]: the value under [k], after adding
    [default] under [k] at the end when [k] is missing. *)
Fixpoint setdefault (k : string) (dflt : json) (kvs : list (string * json))
    : json * list (string * json) :=
  match kvs with
  | [] => (dflt, [(k, dflt)])
  | (k', v) :: kvs' =>
      if String.eqb k k' then (v, kvs)
      else let '(r, kvs'') := setdefault k dflt kvs' in (r, (k', v) :: kvs'')
  end.

(** [d[k] = v] on an existing key: the value is replaced in place. *)
Fixpoint dict_replace (k : string) (v : json) (kvs : list (string * json))
    : list (string * json) :=
  match kvs with
  | [] => []
  | (k', v') :: kvs' =>
      if String.eqb k k' then (k', v) :: kvs'
      else (k', v') :: dict_replace k v kvs'
  end.

(** [_update_history]: the new content of the file, or [None] when the
    function raises (the decoded value is not a dict, or its ["entries"] is
    not a list, so that [setdefault] or [append] is missing). *)
Definition _update_history (history_file : history_store) (entry : json)
    : option history_store :=
  let history :=
    match history_file with
    | HJson j => j
    | HAbsent | HUnreadable => JDict [("entries", JList [])]
    end in
  match history with
  | JDict kvs =>
      let '(entries, kvs') := setdefault "entries" (JList []) kvs in
      match entries with
      | JList l => Some (HJson (JDict (dict_replace "entries" (JList (l ++ [entry])) kvs')))
      | _ => None
      end
  | _ => None
  end.

(** [d.get(k)] *)
Fixpoint dict_get (k : string) (kvs : list (string * json)) : option json :=
  match kvs with
  | [] => None
  | (k', v) :: kvs' => if String.eqb k k' then Some v else dict_get k kvs'
  end.

(** The entries a reader finds in the store. *)
Definition entries_of (h : history_store) : list json :=
  match h with
  | HJson (JDict kvs) =>
      match dict_get "entries" kvs with
      | Some (JList l) => l
      | _ => []
      end
  | _ => []
  end.

(** A store that holds a history: no file yet, or a JSON object whose
    ["entries"], if it has the key, is a list. *)
Definition holds_history (h : history_store) : Prop :=
  match h with
  | HAbsent => True
  | HUnreadable => False
  | HJson (JDict kvs) =>
      match dict_get "entries" kvs with
      | Some (JList _) | None => True
      | Some _ => False
      end
  | HJson _ => False
  end.

(** ** The pipeline *)

Record DocOptions : Type := {
  template : string;
  export_formats : list string;
  use_llm : bool;
  manual_override : bool;
}.

(** A value of [files_data]. *)
Record file_data : Type := FileData {
  fd_text : string;
  fd_language : string;
  fd_decls : list decl;
  fd_existing_docs : gmap doc_key string;
}.

(** [d[k] = v] on a dict that is later iterated: an existing key keeps its
    place, a new key goes to the end. *)
Fixpoint dict_set {V} (k : string) (v : V) (kvs : list (string * V))
    : list (string * V) :=
  match kvs with
  | [] => [(k, v)]
  | (k', v') :: kvs' =>
      if String.eqb k k' then (k', v) :: kvs'
      else (k', v') :: dict_set k v kvs'
  end.

(** What a run leaves behind and returns. *)
Record run_result : Type := RunResult {
  changed : list string;                 (* "changed" / touched_files *)
  rendered : list (string * string);     (* the markdown written per file *)
  summary_md : string;                   (* docs/summary.md *)
  history_after : history_store;   (* docs/history.json *)
  total_files : Z;
}.

Section Pipeline.

Variable fs : file_system.
Variable repo_root : string.
(** The result of [_get_all_files_in_repo]. *)
Variable all_files : list string.
(** [repo.head.commit.hexsha], or [None] when the head is not valid. *)
Variable head : option string.
(** The generated texts that the exchange with the text-generation service
    yields for the files at hand. *)
Variable llm_service : list (string * file_data) -> gmap string string.

(** The body of the first loop of [generate_documentation]. *)
Definition collect_file (files_data : list (string * file_data))
    (file_path : string) : list (string * file_data) :=
  let abs_path := Py.path_join repo_root file_path in
  if negb (fs_exists fs abs_path) || negb (fs_is_file fs abs_path)
  then files_data
  else
    let lang := detect_language_from_path abs_path in
    if String.eqb lang "unknown" then files_data
    else
      match read_text_file fs abs_path with
      | None => files_data
      | Some txt =>
          let decls := _scan_declarations txt lang in
          match decls with
          | [] => files_data
          | _ =>
              let existing_docs := _parse_docstrings_by_language txt lang in
              dict_set file_path (FileData txt lang decls existing_docs)
                files_data
          end
      end.

Definition _generate_llm_docs_for_missing
    (files_data : list (string * file_data)) (use_llm : bool)
    : gmap string string :=
  if negb use_llm then ∅ else llm_service files_data.

Definition render_file (llm_docs : gmap string string) (template : string)
    (fd : string * file_data) : string * string :=
  (fd.1,
   _render_markdown_for_file fd.1 (fd_language fd.2) (fd_text fd.2)
     (fd_decls fd.2) (fd_existing_docs fd.2) llm_docs template).

Definition summary_text (template : string) (touched_files : list string)
    : string :=
  let n := Z.of_nat (length touched_files) in
  Py.concat
    ([ "# Documentation Summary" +:+ nl2;
       "Template: " +:+ template +:+ nl2;
       "Total files documented: " +:+ Py.str n +:+ nl2;
       "Files with generated documentation:" +:+ Py.nl ]
     ++ map (fun fp => "- " +:+ fp +:+ Py.nl) (take 100 touched_files)
     ++ (if n >? 100
         then [Py.nl +:+ "... and " +:+ Py.str (n - 100) +:+ " more files" +:+ Py.nl]
         else []))%list.

Definition history_entry (options : DocOptions) (touched_files : list string)
    : json :=
  JDict [ ("source_commit", match head with Some h => JStr h | None => JNull end);
          ("template", JStr (template options));
          ("manual_override", JBool (manual_override options));
          ("export_formats", JList (map JStr (export_formats options)));
          ("touched", JList (map JStr touched_files));
          ("total_files", JInt (Z.of_nat (length touched_files))) ].

(** [generate_documentation], from the listing of the files to the update
    of the history, for a run whose writes of the documents and of the
    summary succeed and whose generated texts are strings; [None] when
    [_update_history] raises.  A run that raises earlier raises as well, so
    [None] always stands for a run that raises, while [Some] stands for a
    run that returns only if nothing outside this model fails. *)
Definition generate_documentation (options : DocOptions)
    (history : history_store) : option run_result :=
  let files_data := fold_left collect_file all_files [] in
  let llm_docs := _generate_llm_docs_for_missing files_data (use_llm options) in
  let rendered := map (render_file llm_docs (template options)) files_data in
  let touched_files := map fst files_data in
  let summary := summary_text (template options) touched_files in
  match _update_history history (history_entry options touched_files) with
  | None => None
  | Some history' =>
      Some (RunResult touched_files rendered summary history'
              (Z.of_nat (length touched_files)))
  end.

End Pipeline.

End WithParser.

End Docgen.

(* ===================================================================== *)
(** * langraph.py: the codebase scan and the project type *)
(* ===================================================================== *)

Module LangraphScan.

Import Re Ast Langraph.

(** [_generic_decl_re] of langraph.py, compiled with
    [re.IGNORECASE | re.MULTILINE]:  [^]  [\s*]
    [(class|def|interface|func|function|struct)]  [\s+]  [([A-Za-z_]\w* )]. *)
Definition _generic_decl_re : regex :=
  cat [ Bol true; Star Docgen.ws;
        Group 1 (alts (Docgen.ilit "class")
                   [Docgen.ilit "def"; Docgen.ilit "interface";
                    Docgen.ilit "func"; Docgen.ilit "function";
                    Docgen.ilit "struct"]);
        plus Docgen.ws; Group 2 (Docgen.ident Docgen.az_) ].

Definition generic_item (source_text : string) (m : rmatched) : decl :=
  let kind := Py.lower (default "" (group 1 m)) in
  let name := default "" (group 2 m) in
  let lineno := Py.count_char Py.LF (substring 0 (m_start m) source_text) + 1 in
  Decl kind name (Some lineno) None.

Definition parse_generic_structure (source_text : string) : list decl :=
  map (generic_item source_text) (finditer _generic_decl_re source_text).

(** [_PROJECT_MARKERS] *)
Definition _PROJECT_MARKERS : list (string * list string) :=
  [ ("python", ["requirements.txt"; "pyproject.toml"; "setup.py"; "Pipfile"]);
    ("node", ["package.json"; "yarn.lock"]);
    ("docker", ["Dockerfile"; "docker-compose.yml"]);
    ("rust", ["Cargo.toml"]);
    ("go", ["go.mod"]) ].

Definition mem (x : string) (l : list string) : bool := existsb (String.eqb x) l.

(** [counter[k] += 1] *)
Fixpoint count_up (k : string) (c : list (string * Z)) : list (string * Z) :=
  match c with
  | [] => [(k, 1)]
  | (k', n) :: c' =>
      if String.eqb k k' then (k', n + 1) :: c' else (k', n) :: count_up k c'
  end.

(** [d[k].append(v)] on a [defaultdict(list)] *)
Fixpoint append_under (k v : string) (d : list (string * list string))
    : list (string * list string) :=
  match d with
  | [] => [(k, [v])]
  | (k', vs) :: d' =>
      if String.eqb k k' then (k', (vs ++ [v])%list) :: d'
      else (k', vs) :: append_under k v d'
  end.

(** An entry of [files]. *)
Record file_info : Type := FileInfo {
  fi_path : string;
  fi_size : Z;
  fi_language : string;
}.

(** The state of the loop of [scan_codebase]. *)
Record scan_state : Type := ScanState {
  st_files : list file_info;
  st_languages : list (string * Z);
  st_markers : list (string * list string);
  st_parsed : list (string * list decl);
  st_seen : Z;
}.

(** The summary returned. *)
Record scan_summary : Type := ScanSummary {
  sm_root : string;
  sm_file_count : Z;
  sm_languages : list (string * Z);
  sm_markers : list (string * list string);
  sm_files : list file_info;
  sm_parsed : list (string * list decl);
}.

Definition default_ignore_dirs : list string :=
  [".git"; "__pycache__"; "node_modules"; ".venv"; "venv"].

Definition default_max_files : Z := 2000.

(** The components of a relative path written with forward slashes. *)
Fixpoint split_slash (s : string) : list string :=
  match s with
  | "" => [""]
  | String c s' =>
      if Ascii.eqb c "/" then "" :: split_slash s'
      else
        match split_slash s' with
        | [] => [String c ""]
        | l :: ls => String c l :: ls
        end
  end.

Section Scan.

Variable ast_parse : string -> option node.
Variable fs : file_system.
(** The root as given, and [root.parts]. *)
Variable root : string.
Variable root_parts : list string.
Variable max_files : Z.
Variable ignore_dirs : list string.

Definition entry_parts (rel : string) : list string :=
  (root_parts ++ split_slash rel)%list.

Definition add_markers (name rel : string) (markers : list (string * list string))
    : list (string * list string) :=
  fold_left
    (fun markers km =>
       if mem name km.2 then append_under km.1 rel markers else markers)
    _PROJECT_MARKERS markers.

(** One round of [for p in root.rglob('*')] for the entry at the relative
    path [rel].  The result is [inl] while the loop goes on (with [None]
    when [p.stat()] raises) and [inr] once [break] is reached. *)
Definition scan_entry (st : scan_state) (rel : string)
    : option scan_state + scan_state :=
  let p := Py.path_join root rel in
  if st_seen st >=? max_files then inr st
  else if existsb (fun part => mem part ignore_dirs) (entry_parts rel)
  then inl (Some st)
  else if fs_is_file fs p then
    let lang := detect_language_from_path p in
    match fs_stat_size fs p with
    | None => inl None
    | Some size =>
        let files := (st_files st ++ [FileInfo rel size lang])%list in
        let languages := count_up lang (st_languages st) in
        let markers := add_markers (Py.path_name p) rel (st_markers st) in
        let seen := st_seen st + 1 in
        match read_text_file fs p with
        | None =>
            inl (Some (ScanState files languages markers (st_parsed st) seen))
        | Some txt =>
            let decls :=
              if String.eqb lang "python"
              then parse_python_structure ast_parse txt
              else parse_generic_structure txt in
            inl (Some (ScanState files languages markers
                         (Docgen.dict_set rel decls (st_parsed st)) seen))
        end
    end
  else inl (Some st).

Fixpoint scan_loop (st : scan_state) (entries : list string)
    : option scan_state :=
  match entries with
  | [] => Some st
  | rel :: entries' =>
      match scan_entry st rel with
      | inr st' => Some st'
      | inl None => None
      | inl (Some st') => scan_loop st' entries'
      end
  end.

(** [scan_codebase] over the entries that [root.rglob('*')] yields, given
    by their paths relative to the root; [None] when a [stat] raises. *)
Definition scan_codebase (entries : list string) : option scan_summary :=
  match scan_loop (ScanState [] [] [] [] 0) entries with
  | None => None
  | Some st =>
      Some (ScanSummary root (Z.of_nat (length (st_files st)))
              (st_languages st) (st_markers st) (st_files st) (st_parsed st))
  end.

End Scan.

(** [infer_project_type] *)

(** [markers.get(k)] is truthy: the key is there with a non-empty list. *)
Definition marked (markers : list (string * list string)) (k : string) : bool :=
  match assoc k markers with
  | Some (_ :: _) => true
  | _ => false
  end.

(** [max(langs.items(), key=lambda x: x[1])]: the first item with the
    greatest count. *)
Fixpoint max_item (best : string * Z) (l : list (string * Z)) : string * Z :=
  match l with
  | [] => best
  | x :: l' => if best.2 <? x.2 then max_item x l' else max_item best l'
  end.

Definition marker_guesses (markers : list (string * list string)) : list string :=
  ((if marked markers "python" then ["python-package"] else [])
   ++ (if marked markers "node" then ["nodejs-app"] else [])
   ++ (if marked markers "docker" then ["dockerized"] else [])
   ++ (if marked markers "rust" then ["rust-crate"] else [])
   ++ (if marked markers "go" then ["go-module"] else []))%list.

Definition infer_project_type (markers : list (string * list string))
    (langs : list (string * Z)) : list string :=
  match marker_guesses markers with
  | [] =>
      match langs with
      | [] => ["unknown"]
      | x :: l => ["dominant-language:" ++ (max_item x l).1]
      end
  | guesses => guesses
  end.

(** The sum of the counts of a [Counter]. *)
Definition total (c : list (string * Z)) : Z := fold_right Z.add 0 (map snd c).

Section Listing.

Variable fs : file_system.
Variable root : string.
Variable root_parts : list string.
Variable max_files : Z.
Variable ignore_dirs : list string.

(** What an entry of [files] records: an entry of the listing that is a
    file, with its size and language, and with no ignored directory among
    the parts of its path. *)
Definition listed (entries : list string) (fi : file_info) : Prop :=
  let p := Py.path_join root (fi_path fi) in
  In (fi_path fi) entries
  /\ fs_is_file fs p = true
  /\ fs_stat_size fs p = Some (fi_size fi)
  /\ fi_language fi = detect_language_from_path p
  /\ Forall (fun part => ~ In part ignore_dirs)
       (entry_parts root_parts (fi_path fi)).

(** What the loop of [scan_codebase] keeps true of its state. *)
Definition scan_inv (entries : list string) (st : scan_state) : Prop :=
  st_seen st = Z.of_nat (length (st_files st))
  /\ st_seen st <= Z.max 0 max_files
  /\ total (st_languages st) = Z.of_nat (length (st_files st))
  /\ Forall (listed entries) (st_files st)
  /\ (forall rel, In rel (map fst (st_parsed st)) ->
        In rel (map fi_path (st_files st))
        /\ read_text_file fs (Py.path_join root rel) <> None)
  /\ (forall rel, In rel (concat (map snd (st_markers st))) ->
        In rel (map fi_path (st_files st))).

End Listing.

End LangraphScan.

(* ===================================================================== *)
(** * app/docgen.py: missing documentation and export paths *)
(* ===================================================================== *)

Module DocgenExports.

Import Langraph Docgen.

(** The test [key not in existing] of [_generate_llm_docs_for_missing].
    The key is built from [decl.get("lineno", 0)] and
    [decl.get("end_lineno", lineno)]; both keys are always present in a
    declaration, so a stored [None] is what [get] returns, and a key with a
    [None] in it is in no dict of existing documentation. *)
Definition is_missing (existing : gmap doc_key string) (d : decl) : bool :=
  match d_lineno d, d_end_lineno d with
  | Some lineno, Some end_lineno =>
      negb (bool_decide
              (is_Some (existing !! (d_type d ++ " " ++ d_name d, lineno, end_lineno))))
  | _, _ => true
  end.

(** An entry of [missing_docs]: (file_path, lang, kind, name, lineno). *)
Definition missing_entry : Type := string * string * string * string * option Z.

Definition missing_of_file (fd : string * file_data) : list missing_entry :=
  flat_map
    (fun d => if is_missing (fd_existing_docs fd.2) d
              then [(fd.1, fd_language fd.2, d_type d, d_name d, d_lineno d)]
              else [])
    (fd_decls fd.2).

(** [missing_docs] after the first loop of the function. *)
Definition missing_docs (files_data : list (string * file_data))
    : list missing_entry :=
  flat_map missing_of_file files_data.

(** [s.replace(a, b)] for a single character [a] *)
Fixpoint replace_char (a : ascii) (b : string) (s : string) : string :=
  match s with
  | "" => ""
  | String c s' =>
      if Ascii.eqb c a then b ++ replace_char a b s'
      else String c (replace_char a b s')
  end.

(** [safe_name = file_path.replace("/", "__")] *)
Definition safe_name (file_path : string) : string :=
  replace_char "/" "__" file_path.

(** [Path(p).with_suffix(suffix)] for a path with a non-empty name: the
    suffix of the name is replaced, or [suffix] is added when the name has
    none. *)
Definition with_suffix (suffix p : string) : string :=
  let name := Py.path_name p in
  let parent := substring 0 (String.length p - String.length name) p in
  let old_suffix := Py.path_suffix p in
  let stem :=
    substring 0 (String.length name - String.length old_suffix) name in
  parent ++ stem ++ suffix.

(** Where [_write_exports] writes the format [fmt] ("md", "html" or "pdf") of
    the document of [file_path]. *)
Definition export_path (drafts_dir file_path fmt : string) : string :=
  with_suffix ("." ++ fmt) (Py.path_join drafts_dir (safe_name file_path)).

(** ** Companions of the pipeline, used to state what it computes *)

(** [_update_history] called once per entry of a list; [None] when one of
    the calls raises. *)
Fixpoint update_all (h : history_store) (entries : list json)
    : option history_store :=
  match entries with
  | [] => Some h
  | e :: es =>
      match _update_history h e with
      | None => None
      | Some h' => update_all h' es
      end
  end.

(** The two line-comment extractors side by side: [rust = true] for
    [_parse_rust_docstrings], [false] for [_parse_go_docstrings]. *)
Definition line_marker (rust : bool) : string := if rust then "///" else "//".
Definition line_decl_re (rust : bool) : Re.regex := if rust then rust_re else go_re.
Definition line_comment_doc (rust : bool) :=
  if rust then rust_line_doc else go_line_doc.
Definition line_comment_docs (rust : bool) : string -> gmap doc_key string :=
  if rust then _parse_rust_docstrings else _parse_go_docstrings.

(** The key under which [_parse_python_docstrings] stores the docstring of
    a declaration node. *)
Definition python_key (n : Ast.node) : doc_key :=
  ((match Ast.n_kind n with Ast.ClassDef => "class" | _ => "def" end)
     ++ " " ++ Ast.n_name n,
   default (-1) (Ast.n_lineno n), default (-1) (Ast.n_end_lineno n)).

(** A declaration node with a docstring. *)
Definition documented (n : Ast.node) : Prop :=
  Ast.is_decl (Ast.n_kind n) = true /\ Ast.n_docstring n <> "".

(** [text[:m.start()].count("\n") + 1] *)
Definition line_of (text : string) (m : Re.rmatched) : Z :=
  Py.count_char Py.LF (substring 0 (Re.m_start m) text) + 1.

(** What the first loop of [generate_documentation] stores for a file. *)
Definition documentable (ast_parse : string -> option Ast.node)
    (fs : file_system) (repo_root file_path : string) (data : file_data) : Prop :=
  let abs_path := Py.path_join repo_root file_path in
  fs_exists fs abs_path = true
  /\ fs_is_file fs abs_path = true
  /\ fd_language data = detect_language_from_path abs_path
  /\ fd_language data <> "unknown"
  /\ read_text_file fs abs_path = Some (fd_text data)
  /\ fd_decls data = _scan_declarations ast_parse (fd_text data) (fd_language data)
  /\ fd_decls data <> []
  /\ fd_existing_docs data
     = _parse_docstrings_by_language ast_parse (fd_text data) (fd_language data).

End DocgenExports.

(* ===================================================================== *)
(** * Sample inputs *)
(* ===================================================================== *)

Module Samples.

Import Ast.

(** A diff of one file with one hunk: line 5 is replaced and a line is
    added at the end. *)
Definition sample_patch : string :=
  Py.join Py.nl
    ["--- a/app.py"; "+++ b/app.py"; "@@ -5,3 +5,4 @@";
     "-a"; "+b"; " c"; " d"; "+e"].

(** A Python file: [class A] on lines 1-10 with [def b] on lines 3-5, and
    a module-level statement on line 12. *)
Definition sample_src : string :=
  Py.join Py.nl
    [ "class A:";
      "    x = 1";
      "    def b(self):";
      "        y = 2";
      "        return y";
      "    z = 3";
      "    w = 4";
      "    v = 5";
      "    u = 6";
      "    t = 7";
      "";
      "q = 8" ].

(** The tree of [ast.parse(sample_src)]. *)
Definition leaf (l : Z) : node := Node OtherNode "" (Some l) (Some l) "" [].
(** [Assign(targets=[Name], value=Constant)] on line [l] *)
Definition assign (l : Z) : node :=
  Node OtherNode "" (Some l) (Some l) "" [leaf l; leaf l].

Definition sample_def_b : node :=
  Node FunctionDef "b" (Some 3) (Some 5) ""
    [ Node OtherNode "" None None "" [leaf 3];          (* arguments, arg self *)
      assign 4;
      Node OtherNode "" (Some 5) (Some 5) "" [leaf 5] ]. (* Return(Name y) *)

Definition sample_class_A : node :=
  Node ClassDef "A" (Some 1) (Some 10) ""
    [ assign 2; sample_def_b; assign 6; assign 7; assign 8; assign 9;
      assign 10 ].

Definition sample_tree : node :=
  Node OtherNode "" None None "" [sample_class_A; assign 12].

(** A parser that knows [sample_src]. *)
Definition sample_parse (source_text : string) : option node :=
  if String.eqb source_text sample_src then Some sample_tree else None.

(** [class A: def f] and [class B: def f], two lines each. *)
Definition method_f : node :=
  Node FunctionDef "f" (Some 2) (Some 2) ""
    [ Node OtherNode "" None None "" [leaf 2];
      Node OtherNode "" (Some 2) (Some 2) "" [] ].
Definition class_with_f (name : string) : node :=
  Node OtherNode "" None None ""
    [ Node ClassDef name (Some 1) (Some 2) "" [method_f] ].

(** A function of two lines. *)
Definition small_src : string := Py.join Py.nl ["def f():"; "    pass"].

(** A comment, three other lines, then a function. *)
Definition gap_src : string :=
  Py.join Py.nl
    ["/** Helper notes */"; ""; "x = 1;"; ""; "function f(x) {"; "}"].

(** A checkout with three Python files: one that can be read, one of two
    million bytes, one whose text cannot be read. *)
Definition sample_fs : Langraph.file_system :=
  let known p := existsb (String.eqb p)
                   ["repo/app.py"; "repo/big.py"; "repo/locked.py"] in
  Langraph.FileSystem known known
    (fun p => if String.eqb p "repo/app.py" then Some 123
              else if String.eqb p "repo/big.py" then Some 2000000
              else if String.eqb p "repo/locked.py" then Some 10
              else None)
    (fun p => if String.eqb p "repo/app.py" then Some sample_src
              else if String.eqb p "repo/big.py" then Some "x = 1"
              else None).

Definition sample_files : list string := ["app.py"; "big.py"; "locked.py"].

Definition sample_options : Docgen.DocOptions :=
  {| Docgen.template := "api"; Docgen.export_formats := ["md"; "html"];
     Docgen.use_llm := false; Docgen.manual_override := false |}.

Definition sample_result : Docgen.run_result :=
  default (Docgen.RunResult [] [] "" Docgen.HAbsent 0)
    (Docgen.generate_documentation sample_parse sample_fs "repo" sample_files
       (Some "0123abcd") (fun _ => ∅) sample_options Docgen.HAbsent).

(** The patch of a pure rename: no hunk. *)
Definition rename_patch : string :=
  Py.join Py.nl
    ["similarity index 100%"; "rename from old.py"; "rename to new.py"].

(** Two functions, and documentation for the first one that contains a
    line looking like the header of the second. *)
Definition decl_f : Langraph.decl := Langraph.Decl "def" "f" (Some 1) (Some 2).
Definition decl_g : Langraph.decl := Langraph.Decl "def" "g" (Some 3) (Some 4).

Definition forged_docs : gmap Docgen.doc_key string :=
  {[ ("def f", 1, 2) :=
       "x" ++ Docgen.nl2 ++ "### def `g` (lines 3-4)" ++ Docgen.nl2 ++ "y" ]}.

Definition plain_docs : gmap Docgen.doc_key string :=
  <[ ("def f", 1, 2) := "x" ]> {[ ("def g", 3, 4) := "y" ]}.

(** Three functions: the first has documentation in the source and a
    generated text, the second a generated text only, the third neither. *)
Definition decl_h : Langraph.decl := Langraph.Decl "def" "h" (Some 5) (Some 6).
Definition resolution_existing : gmap Docgen.doc_key string :=
  {[ ("def f", 1, 2) := "Existing f." ]}.
Definition resolution_generated : gmap string string :=
  <[ "app.py:def:f" := "Generated f." ]> {[ "app.py:def:g" := "Generated g." ]}.

(** A history with two entries, and a run on it. *)
Definition prior_history : Docgen.history_store :=
  Docgen.HJson
    (Docgen.JDict
       [("entries",
         Docgen.JList
           [Docgen.JDict [("template", Docgen.JStr "api");
                          ("total_files", Docgen.JInt 3)];
            Docgen.JDict [("template", Docgen.JStr "api");
                          ("total_files", Docgen.JInt 4)]])]).

Definition later_result : Docgen.run_result :=
  default (Docgen.RunResult [] [] "" Docgen.HAbsent 0)
    (Docgen.generate_documentation sample_parse sample_fs "repo" sample_files
       (Some "0123abcd") (fun _ => ∅) sample_options prior_history).

(** A commit that changes [app.py] by [sample_patch]; both revisions of the
    file read as [sample_src]. *)
Definition sample_load (path ref : string) : option string :=
  if String.eqb path "app.py" then Some sample_src else None.

Definition sample_diffs : list GitModule.diff_entry :=
  [GitModule.DiffEntry (Some "app.py") (Some "app.py") sample_patch].

Definition sample_context : GitModule.rag_context :=
  Eval vm_compute in
    default (GitModule.RagContext "" "" GitModule.Add 0 "" "" "" "" "")
      (head (GitModule.collect_contexts sample_parse sample_load "c1" "p0"
               sample_diffs)).

(** Declarations as the heuristic resolver lists them: a class and two of
    its methods. *)
Definition sample_prev : list GitModule.rdecl :=
  [GitModule.RDecl 1 0 "class" "A"; GitModule.RDecl 2 4 "def" "f";
   GitModule.RDecl 5 4 "def" "g"].

(** A Go file with a documented function. *)
Definition go_src : string :=
  Py.join Py.nl
    ["package main"; ""; "// Add adds."; "// It is total.";
     "func Add(a int, b int) int {"; "}"].

(** A Python function with a docstring, and its tree. *)
Definition documented_src : string :=
  Py.join Py.nl ["def f():"; "    '''Do f.'''"; "    return 1"].

Definition documented_tree : node :=
  Node OtherNode "" None None ""
    [ Node FunctionDef "f" (Some 1) (Some 3) "Do f."
        [ Node OtherNode "" None None "" [];               (* arguments *)
          Node OtherNode "" (Some 2) (Some 2) "" [leaf 2]; (* Expr(Constant) *)
          Node OtherNode "" (Some 3) (Some 3) "" [leaf 3]  (* Return(Constant) *)
        ] ].

Definition documented_parse (source_text : string) : option node :=
  if String.eqb source_text documented_src then Some documented_tree else None.

(** A history file with a key of its own. *)
Definition versioned_history : list (string * Docgen.json) :=
  [("version", Docgen.JInt 2); ("entries", Docgen.JList [])].

(** Marker files and language counts of a scan. *)
Definition sample_markers : list (string * list string) :=
  [("node", ["package.json"])].
Definition sample_langs : list (string * Z) :=
  [("javascript", 3); ("python", 5); ("go", 5)].

(** A file that is gone by the time its size is asked for. *)
Definition vanishing_fs : Langraph.file_system :=
  Langraph.FileSystem (fun _ => true) (fun _ => true) (fun _ => None)
    (fun _ => None).

(** The scan of the sample checkout, stopped after two files. *)
Definition sample_summary : LangraphScan.scan_summary :=
  default (LangraphScan.ScanSummary "" 0 [] [] [] [])
    (LangraphScan.scan_codebase sample_parse sample_fs "repo" ["repo"] 2
       LangraphScan.default_ignore_dirs sample_files).

End Samples.

(* ===================================================================== *)
(** * Properties *)
(* ===================================================================== *)

(** ** Strings *)

Module PyFacts.
Import Py.

Lemma startswith_app p s : startswith p s = true -> exists t, s = p ++ t.
Proof.
  revert s. induction p as [|a p IH]; intros s H.
  - exists s. reflexivity.
  - destruct s as [|b s]; [discriminate|]. simpl in H.
    apply andb_true_iff in H as [Hab Hp].
    apply Ascii.eqb_eq in Hab. subst b.
    destruct (IH _ Hp) as [t ->]. exists t. reflexivity.
Qed.

Lemma startswith_app_true p t : startswith p (p ++ t) = true.
Proof.
  induction p as [|a p IH]; [reflexivity|]. simpl.
  rewrite Ascii.eqb_refl. exact IH.
Qed.

Lemma append_cons x (a b : string) : String x a ++ b = String x (a ++ b).
Proof. reflexivity. Qed.

Lemma append_nil_l (a : string) : "" ++ a = a.
Proof. reflexivity. Qed.

Ltac str_norm_in H :=
  repeat (rewrite append_cons in H || rewrite append_nil_l in H).

Lemma append_assoc (a b c : string) : (a ++ b) ++ c = a ++ (b ++ c).
Proof.
  induction a as [|x a IH]; [reflexivity|]. rewrite !append_cons, IH. reflexivity.
Qed.

Lemma append_nil_r (a : string) : a ++ "" = a.
Proof.
  induction a as [|x a IH]; [reflexivity|]. rewrite append_cons, IH. reflexivity.
Qed.

Lemma concat_app l1 l2 : concat (l1 ++ l2)%list = concat l1 ++ concat l2.
Proof.
  induction l1 as [|a l1 IH]; [reflexivity|].
  cbn [app concat fold_right]. fold (concat (l1 ++ l2)%list). rewrite IH.
  fold (concat l1). rewrite append_assoc. reflexivity.
Qed.

(** A space-free prefix is determined by the string it is cut from. *)
Lemma space_split_inj k k' n n' :
  contains " " k = false -> contains " " k' = false ->
  k ++ " " ++ n = k' ++ " " ++ n' -> k = k' /\ n = n'.
Proof.
  revert k'. induction k as [|a k IH]; intros k' Hk Hk' H.
  - destruct k' as [|a' k']; str_norm_in H.
    + inversion H. split; reflexivity.
    + inversion H; subst. cbn in Hk'. discriminate.
  - destruct k' as [|a' k']; str_norm_in H.
    + inversion H; subst. cbn in Hk. discriminate.
    + inversion H; subst.
      cbn [contains] in Hk, Hk'. apply orb_false_iff in Hk as [_ Hk].
      apply orb_false_iff in Hk' as [_ Hk'].
      destruct (IH k' Hk Hk' H2) as [-> ->]. split; reflexivity.
Qed.

Lemma length_append (a b : string) :
  String.length (a ++ b) = (String.length a + String.length b)%nat.
Proof.
  induction a as [|c a IH]; [reflexivity|].
  rewrite append_cons. cbn [String.length]. rewrite IH. reflexivity.
Qed.

Lemma substring_all s : substring 0 (String.length s) s = s.
Proof. induction s as [|c s IH]; [reflexivity|]. cbn. rewrite IH. reflexivity. Qed.

Lemma substring_skip a b m :
  substring (String.length a) m (a ++ b) = substring 0 m b.
Proof.
  induction a as [|c a IH]; [reflexivity|].
  rewrite append_cons. cbn [String.length substring]. exact IH.
Qed.

Lemma substring_prefix a b :
  substring 0 (String.length a) (a ++ b) = a.
Proof.
  induction a as [|c a IH]; [rewrite append_nil_l; destruct b; reflexivity|].
  rewrite append_cons. cbn [String.length substring]. rewrite IH. reflexivity.
Qed.

Lemma colon_split_inj k k' n n' :
  contains ":" k = false -> contains ":" k' = false ->
  k ++ ":" ++ n = k' ++ ":" ++ n' -> k = k' /\ n = n'.
Proof.
  revert k'. induction k as [|a k IH]; intros k' Hk Hk' H.
  - destruct k' as [|a' k']; str_norm_in H.
    + inversion H. split; reflexivity.
    + inversion H; subst. cbn in Hk'. discriminate.
  - destruct k' as [|a' k']; str_norm_in H.
    + inversion H; subst. cbn in Hk. discriminate.
    + inversion H; subst.
      cbn [contains] in Hk, Hk'. apply orb_false_iff in Hk as [_ Hk].
      apply orb_false_iff in Hk' as [_ Hk'].
      destruct (IH k' Hk Hk' H2) as [-> ->]. split; reflexivity.
Qed.

End PyFacts.

(** ** The diff hunk parser *)

Module GitModuleFacts.
Import Re Ast GitModule PyFacts Samples.

Lemma hunk_body_rest_length o n lines :
  (length (hunk_body o n lines).2 <= length lines)%nat.
Proof.
  revert o n.
  induction lines as [|l lines IH]; intros o n; cbn [hunk_body]; [simpl; lia|].
  destruct (Py.startswith "@@ " l); [simpl; lia|].
  destruct (is_add_line l).
  { specialize (IH o (n + 1)). destruct (hunk_body o (n + 1) lines). simpl in *. lia. }
  destruct (is_del_line l).
  { specialize (IH (o + 1) n). destruct (hunk_body (o + 1) n lines). simpl in *. lia. }
  specialize (IH (o + 1) (n + 1)). simpl; lia.
Qed.

(** The outer loop never runs out of rounds: any number of rounds from
    [length lines] on gives the same result. *)
Lemma parse_loop_fuel fuel : forall lines fuel',
  (length lines <= fuel)%nat -> (length lines <= fuel')%nat ->
  parse_loop fuel lines = parse_loop fuel' lines.
Proof.
  induction fuel as [|fuel IH]; intros lines fuel' H H'.
  - destruct lines; [|simpl in H; lia]. destruct fuel'; reflexivity.
  - destruct lines as [|l lines]; [destruct fuel'; reflexivity|].
    destruct fuel' as [|fuel']; [simpl in H'; lia|].
    cbn [parse_loop length] in *. destruct (pmatch hunk_re l).
    + pose proof (hunk_body_rest_length (Py.int (default "" (group 1 r)))
                    (Py.int (default "" (group 3 r))) lines) as Hl.
      destruct (hunk_body _ _ lines) as [cs r']. simpl in Hl.
      f_equal. apply IH; lia.
    + apply IH; lia.
Qed.

Lemma hunk_header_5_5 sfx :
  exists m, pmatch hunk_re ("@@ -5,3 +5,4 @@" ++ sfx) = Some m
    /\ group 1 m = Some "5" /\ group 3 m = Some "5".
Proof.
  eexists. split; [vm_compute; reflexivity|]. split; reflexivity.
Qed.

Lemma parse_loop_skip pre : forall lines,
  Forall (fun l => pmatch hunk_re l = None) pre ->
  parse_loop (length (pre ++ lines)) (pre ++ lines)
  = parse_loop (length lines) lines.
Proof.
  induction pre as [|l pre IH]; intros lines Hpre; [reflexivity|].
  inversion Hpre as [|? ? Hl Hpre']; subst.
  cbn [app length parse_loop]. rewrite Hl. apply IH, Hpre'.
Qed.

Lemma del_line_shape l :
  is_del_line l = true ->
  Py.startswith "@@ " l = false /\ is_add_line l = false.
Proof.
  unfold is_del_line, is_add_line. intros H.
  apply andb_true_iff in H as [H _].
  apply startswith_app in H as [t ->]. split; reflexivity.
Qed.

Lemma add_line_shape l :
  is_add_line l = true -> Py.startswith "@@ " l = false.
Proof.
  unfold is_add_line. intros H.
  apply andb_true_iff in H as [H _].
  apply startswith_app in H as [t ->]. reflexivity.
Qed.

(** C1, as the code has it: after the header [@@ -5,3 +5,4 @@] (with
    whatever follows the second [@@] on that line, and after any lines that
    are not hunk headers), a deletion line followed by an addition line
    gives a [del] record at line 5 and an [add] record at line 5: the
    deletion advances the old counter only, so the addition still carries
    the start of the new range. *)
Theorem hunk_del_then_add patch_text pre header l1 l2 more :
  Py.splitlines patch_text = (pre ++ header :: l1 :: l2 :: more)%list ->
  Forall (fun l => pmatch hunk_re l = None) pre ->
  Py.startswith "@@ -5,3 +5,4 @@" header = true ->
  is_del_line l1 = true ->
  is_add_line l2 = true ->
  exists tl,
    parse_patch_for_changes patch_text
    = Change Del 5 (Py.tail1 l1) :: Change Add 5 (Py.tail1 l2) :: tl.
Proof.
  intros Hlines Hpre Hh H1 H2.
  unfold parse_patch_for_changes. rewrite Hlines.
  rewrite parse_loop_skip by exact Hpre.
  apply startswith_app in Hh as [sfx ->].
  destruct (hunk_header_5_5 sfx) as (m & Hm & Hg1 & Hg3).
  destruct (del_line_shape _ H1) as [H1a H1b].
  pose proof (add_line_shape _ H2) as H2a.
  cbn [length parse_loop]. rewrite Hm, Hg1, Hg3.
  change (Py.int (default "" (Some "5"))) with 5.
  cbn [hunk_body]. rewrite H1a, H1b, H1, H2a, H2.
  destruct (hunk_body (5 + 1) (5 + 1) more) as [cs r].
  eexists. cbn [app]. reflexivity.
Qed.

Lemma hunk_del_then_add_witness :
  exists tl,
    parse_patch_for_changes sample_patch
    = Change Del 5 "a" :: Change Add 5 "b" :: tl.
Proof.
  apply (hunk_del_then_add sample_patch ["--- a/app.py"; "+++ b/app.py"]
           "@@ -5,3 +5,4 @@" "-a" "+b" [" c"; " d"; "+e"]).
  - reflexivity.
  - repeat constructor.
  - reflexivity.
  - reflexivity.
  - reflexivity.
Defined.

(** C1 as it is written fails on [sample_patch]: the addition on the second
    payload line is recorded at line 5, not 6. *)
Lemma hunk_del_then_add_lineno_6_fails :
  parse_patch_for_changes sample_patch
  = [Change Del 5 "a"; Change Add 5 "b"; Change Add 8 "e"]
  /\ forall tl, parse_patch_for_changes sample_patch
               <> Change Del 5 "a" :: Change Add 6 "b" :: tl.
Proof.
  assert (H : parse_patch_for_changes sample_patch
              = [Change Del 5 "a"; Change Add 5 "b"; Change Add 8 "e"])
    by (vm_compute; reflexivity).
  split; [exact H|]. intros tl. rewrite H. discriminate.
Qed.

(** C2, evaluated on [sample_src]: line 4 resolves to the chain
    [class A, def b] and line 8 to [class A].  For line 12, outside every
    declaration, the structural resolver returns [None] instead of the empty
    chain; the caller then falls back to the indentation heuristic, which
    answers ["class A -> def b"] and not ["module"]. *)
Theorem sample_scope_resolution :
  python_chain_tokens sample_parse sample_src 4 = Some ["class A"; "def b"]
  /\ enclosing_chain sample_parse "app.py" sample_src 4 = "class A -> def b"
  /\ python_chain_tokens sample_parse sample_src 8 = Some ["class A"]
  /\ enclosing_chain sample_parse "app.py" sample_src 8 = "class A"
  /\ python_chain_tokens sample_parse sample_src 12 = None
  /\ find_enclosing_python_chain sample_parse sample_src 12 = None
  /\ enclosing_chain sample_parse "app.py" sample_src 12 = "class A -> def b"
  /\ enclosing_chain sample_parse "app.py" sample_src 12 <> "module".
Proof.
  assert (H12 : enclosing_chain sample_parse "app.py" sample_src 12
                = "class A -> def b") by (vm_compute; reflexivity).
  repeat split; try (vm_compute; reflexivity).
  rewrite H12. discriminate.
Qed.

(** ** The choice of the innermost candidate *)

Lemma key_lt_false a b : key_lt a b = false -> key_le b a.
Proof.
  unfold key_lt, key_le. intros H.
  apply orb_false_iff in H as [H1 H2].
  apply Z.ltb_ge in H1.
  apply andb_false_iff in H2 as [H2|H2].
  - apply Z.eqb_neq in H2. lia.
  - apply Z.ltb_ge in H2. lia.
Qed.

Lemma key_lt_true a b : key_lt a b = true -> key_le a b.
Proof.
  unfold key_lt, key_le. intros H.
  apply orb_true_iff in H as [H|H].
  - apply Z.ltb_lt in H. lia.
  - apply andb_true_iff in H as [H1 H2].
    apply Z.eqb_eq in H1. apply Z.ltb_lt in H2. lia.
Qed.

Lemma key_le_trans a b c : key_le a b -> key_le b c -> key_le a c.
Proof. unfold key_le. lia. Qed.

Lemma key_le_refl a : key_le a a.
Proof. unfold key_le. lia. Qed.

Lemma max_from_spec l : forall best,
  let r := max_from best l in
  In r (best :: l)
  /\ key_le (span_key best) (span_key r)
  /\ forall c, In c l -> key_le (span_key c) (span_key r).
Proof.
  induction l as [|x l IH]; intros best; cbn [max_from].
  - split; [left; reflexivity|]. split; [apply key_le_refl|]. intros c [].
  - destruct (key_lt (span_key best) (span_key x)) eqn:E.
    + destruct (IH x) as (Hin & Hx & Hall).
      split; [right; exact Hin|].
      split; [eapply key_le_trans; [apply key_lt_true, E|exact Hx]|].
      intros c [<-|Hc]; [exact Hx|apply Hall, Hc].
    + destruct (IH best) as (Hin & Hb & Hall).
      split; [destruct Hin as [<-|Hin]; [left; reflexivity|right; right; exact Hin]|].
      split; [exact Hb|].
      intros c [<-|Hc]; [|apply Hall, Hc].
      eapply key_le_trans; [apply key_lt_false, E|exact Hb].
Qed.




(** ** The indentation heuristic *)

Lemma chain_step_fold l : forall acc m,
  (fold_left chain_step l (acc, m)).1
  = (acc ++ walk_with_minimum (Some m) l)%list.
Proof.
  induction l as [|d l IH]; intros acc m; cbn [fold_left walk_with_minimum].
  - rewrite app_nil_r. reflexivity.
  - unfold chain_step at 2. cbn [fst snd].
    destruct (r_indent d <? m).
    + rewrite IH, <- app_assoc. reflexivity.
    + apply IH.
Qed.

Lemma walk_with_minimum_bound l :
  Forall (fun d => r_indent d < 10 ^ 9) l ->
  walk_with_minimum None l = walk_with_minimum (Some (10 ^ 9)) l.
Proof.
  destruct l as [|d l]; [reflexivity|]. intros H.
  inversion H as [|? ? Hd _]; subst. cbn [walk_with_minimum].
  apply Z.ltb_lt in Hd. rewrite Hd. reflexivity.
Qed.

Lemma regex_chain_tokens_spec prev :
  Forall (fun d => r_indent d < 10 ^ 9) prev ->
  regex_chain_tokens prev = rev (walk_with_minimum None (rev prev)).
Proof.
  intros H. unfold regex_chain_tokens.
  rewrite chain_step_fold, walk_with_minimum_bound; [reflexivity|].
  apply Forall_forall. intros d Hd. rewrite Forall_forall in H.
  apply H. apply list_elem_of_In, in_rev, list_elem_of_In, Hd.
Qed.

(** C8, as the code has it: for a target line inside the file the chain is
    the one the specification describes (the running minimum starts at
    [10 ^ 9], which is as good as infinite while every indentation is below
    it); for a target line outside the file the answer is ["module"]
    whatever the declarations are. *)
Theorem find_enclosing_by_regex_spec source_text target_lineno :
  let src_lines := Py.splitlines source_text in
  Forall (fun d => r_indent d < 10 ^ 9) (scan_decls src_lines) ->
  (1 <= target_lineno <= Z.of_nat (length src_lines) ->
   find_enclosing_by_regex source_text target_lineno
   = render_chain (heuristic_chain_of_spec (scan_decls src_lines) target_lineno))
  /\ (~ 1 <= target_lineno <= Z.of_nat (length src_lines) ->
      find_enclosing_by_regex source_text target_lineno = "module").
Proof.
  intros src_lines Hb. unfold find_enclosing_by_regex. fold src_lines.
  split; intros Hr.
  - destruct (_ || _) eqn:E.
    { apply orb_true_iff in E as [E|E]; [apply Z.ltb_lt in E|apply Z.geb_le in E]; lia. }
    unfold heuristic_chain_of_spec.
    set (prev := List.filter _ (scan_decls src_lines)).
    assert (Hp : Forall (fun d => r_indent d < 10 ^ 9) prev).
    { apply Forall_forall. intros d Hd. rewrite Forall_forall in Hb. apply Hb.
      apply list_elem_of_In in Hd. unfold prev in Hd.
      apply filter_In in Hd as [Hd _]. apply list_elem_of_In, Hd. }
    rewrite <- regex_chain_tokens_spec by exact Hp.
    destruct prev; reflexivity.
  - destruct (_ || _) eqn:E; [reflexivity|].
    apply orb_false_iff in E as [E1 E2].
    apply Z.ltb_ge in E1.
    rewrite Z.geb_leb in E2. apply Z.leb_gt in E2. lia.
Qed.

Lemma find_enclosing_by_regex_spec_witness :
  (1 <= 2 <= Z.of_nat (length (Py.splitlines sample_src)) ->
   find_enclosing_by_regex sample_src 2
   = render_chain
       (heuristic_chain_of_spec (scan_decls (Py.splitlines sample_src)) 2))
  /\ (~ 1 <= 2 <= Z.of_nat (length (Py.splitlines sample_src)) ->
      find_enclosing_by_regex sample_src 2 = "module").
Proof.
  apply (find_enclosing_by_regex_spec sample_src 2).
  replace (scan_decls (Py.splitlines sample_src))
    with [RDecl 1 0 "class" "A"; RDecl 3 4 "def" "b"]
    by (vm_compute; reflexivity).
  repeat constructor.
Defined.

(** C8 as it is written fails for a target line past the end of the text:
    the declarations above it are not looked at. *)
Lemma find_enclosing_by_regex_past_the_end :
  find_enclosing_by_regex small_src 5 = "module"
  /\ heuristic_chain_of_spec (scan_decls (Py.splitlines small_src)) 5 = ["def f"]
  /\ find_enclosing_by_regex small_src 5
     <> render_chain
          (heuristic_chain_of_spec (scan_decls (Py.splitlines small_src)) 5).
Proof.
  split; [vm_compute; reflexivity|]. split; [vm_compute; reflexivity|].
  vm_compute. discriminate.
Qed.

End GitModuleFacts.

(** ** Syntax trees: the walk and the parent map *)

Module AstFacts.
Import Ast GitModule.

Lemma subtree_snoc p : forall t i,
  subtree t (p ++ [i]) = subtree t p ≫= fun n => n_children n !! i.
Proof.
  induction p as [|j p IH]; intros t i; cbn [app subtree].
  - simpl. destruct (n_children t !! i); reflexivity.
  - destruct (n_children t !! j); [apply IH|reflexivity].
Qed.

Lemma child_refs_lookup r c :
  c ∈ child_refs r <-> exists i, c.1 = (r.1 ++ [i])%list /\ n_children r.2 !! i = Some c.2.
Proof.
  unfold child_refs. rewrite elem_of_lookup_imap. split.
  - intros (i & n & -> & Hn). exists i. split; [reflexivity|exact Hn].
  - intros (i & H1 & H2). exists i, c.2. split; [|exact H2].
    destruct c as [p n]. simpl in *. subst p. reflexivity.
Qed.

Lemma child_refs_sound tree r c :
  sound tree r -> c ∈ child_refs r -> sound tree c.
Proof.
  unfold sound. intros Hr Hc. apply child_refs_lookup in Hc as (i & -> & Hi).
  rewrite subtree_snoc, Hr. exact Hi.
Qed.

Lemma walk_go_sound tree fuel : forall todo,
  Forall (sound tree) todo -> Forall (sound tree) (walk_go fuel todo).
Proof.
  induction fuel as [|fuel IH]; intros todo H; cbn [walk_go]; [constructor|].
  destruct todo as [|r todo]; [constructor|].
  inversion H as [|? ? Hr Htodo]; subst.
  constructor; [exact Hr|]. apply IH.
  apply Forall_app. split; [exact Htodo|].
  apply Forall_forall. intros c Hc. eapply child_refs_sound; eauto.
Qed.

Lemma walk_sound tree : Forall (sound tree) (walk tree).
Proof.
  apply walk_go_sound. constructor; [reflexivity|constructor].
Qed.

Lemma sound_inj tree r r' : sound tree r -> sound tree r' -> r.1 = r'.1 -> r = r'.
Proof.
  unfold sound. destruct r as [p n], r' as [p' n']. simpl.
  intros H H' ->. congruence.
Qed.

Lemma fold_children_edges r (cs : list nref) : forall m : gmap (list nat) nref,
  fold_left (fun parent (c : nref) => <[c.1 := r]> parent) cs m
  = fold_left (fun parent kv => <[kv.1 := kv.2]> parent)
      (map (fun c : nref => (c.1, r)) cs) m.
Proof.
  induction cs as [|c cs IH]; intros m; [reflexivity|]. cbn. apply IH.
Qed.

Lemma build_parent_edges_go l : forall m : gmap (list nat) nref,
  fold_left
    (fun parent r =>
       fold_left (fun parent (c : nref) => <[c.1 := r]> parent) (child_refs r) parent)
    l m
  = fold_left (fun parent kv => <[kv.1 := kv.2]> parent) (edges l) m.
Proof.
  induction l as [|r l IH]; intros m; [reflexivity|].
  cbn [fold_left edges flat_map]. rewrite fold_left_app, IH, fold_children_edges.
  reflexivity.
Qed.

Lemma fold_insert_lookup (es : list (list nat * nref)) k v :
  forall m : gmap (list nat) nref,
  (forall v', (k, v') ∈ es -> v' = v) ->
  ((k, v) ∈ es \/ m !! k = Some v) ->
  fold_left (fun parent kv => <[kv.1 := kv.2]> parent) es m !! k = Some v.
Proof.
  induction es as [|[k0 v0] es IH]; intros m Hall Hin; cbn [fold_left].
  - destruct Hin as [Hin|Hm]; [inversion Hin|exact Hm].
  - apply IH.
    + intros v' Hv'. apply Hall. right. exact Hv'.
    + cbn. destruct (decide (k0 = k)) as [->|Hne].
      * right. rewrite lookup_insert_eq. f_equal. apply Hall. left.
      * destruct Hin as [Hin|Hm].
        -- left. apply elem_of_cons in Hin as [Heq|Hin]; [congruence|exact Hin].
        -- right. rewrite lookup_insert_ne by exact Hne. exact Hm.
Qed.

Lemma elem_of_edges l k v :
  (k, v) ∈ edges l <-> v ∈ l /\ exists c, c ∈ child_refs v /\ c.1 = k.
Proof.
  unfold edges. rewrite list_elem_of_In, in_flat_map. split.
  - intros (r & Hr & Hkv). apply in_map_iff in Hkv as (c & Heq & Hc).
    inversion Heq; subst. split; [apply list_elem_of_In, Hr|].
    exists c. split; [apply list_elem_of_In, Hc|reflexivity].
  - intros (Hv & c & Hc & <-). exists v. split; [apply list_elem_of_In, Hv|].
    apply in_map_iff. exists c. split; [reflexivity|apply list_elem_of_In, Hc].
Qed.

(** The parent map built for a query sends every child of a walked node to
    that node. *)
Lemma build_parent_child tree r c :
  r ∈ walk tree -> c ∈ child_refs r -> build_parent tree !! c.1 = Some r.
Proof.
  intros Hr Hc. unfold build_parent. rewrite build_parent_edges_go.
  pose proof (walk_sound tree) as Hs. rewrite Forall_forall in Hs.
  apply fold_insert_lookup.
  - intros r' Hr'. apply elem_of_edges in Hr' as (Hr'w & c' & Hc' & Heq).
    apply child_refs_lookup in Hc as (i & Hi & _).
    apply child_refs_lookup in Hc' as (i' & Hi' & _).
    rewrite Hi, Hi' in Heq. apply app_inj_tail in Heq as [Heq _].
    eapply sound_inj; eauto.
  - left. apply elem_of_edges. split; [exact Hr|]. exists c. split; [exact Hc|reflexivity].
Qed.

Lemma fold_insert_inv (P : list nat -> nref -> Prop) es :
  forall m : gmap (list nat) nref,
  (forall k v, (k, v) ∈ es -> P k v) ->
  (forall k v, m !! k = Some v -> P k v) ->
  forall k v,
    fold_left (fun parent kv => <[kv.1 := kv.2]> parent) es m !! k = Some v ->
    P k v.
Proof.
  induction es as [|[k0 v0] es IH]; intros m Hes Hm k v; cbn [fold_left].
  - apply Hm.
  - apply IH.
    + intros k' v' H. apply Hes. right. exact H.
    + intros k' v'. cbn. destruct (decide (k0 = k')) as [->|Hne].
      * rewrite lookup_insert_eq. intros [= <-]. apply Hes. left.
      * rewrite lookup_insert_ne by exact Hne. apply Hm.
Qed.

(** Every entry of the parent map is an edge of the tree: the key is the
    position of a child of the value. *)
Lemma build_parent_inv tree k pr :
  build_parent tree !! k = Some pr ->
  pr ∈ walk tree /\ exists i, k = (pr.1 ++ [i])%list.
Proof.
  unfold build_parent. rewrite build_parent_edges_go.
  apply (fold_insert_inv
           (fun k pr => pr ∈ walk tree /\ exists i, k = (pr.1 ++ [i])%list)).
  - intros k' v' H. apply elem_of_edges in H as (Hv & c & Hc & <-).
    split; [exact Hv|].
    apply child_refs_lookup in Hc as (i & Hi & _). eauto.
  - intros ? ? H. rewrite lookup_empty in H. discriminate.
Qed.

Lemma size_children n :
  size n = S (list_sum (map size (n_children n))).
Proof.
  destruct n as [k nm lo hi doc cs]. cbn [size n_children]. f_equal.
  induction cs as [|c cs IH]; [reflexivity|]. cbn [map]. rewrite IH. reflexivity.
Qed.

Lemma list_sum_cons (a : nat) l : list_sum (a :: l) = (a + list_sum l)%nat.
Proof. reflexivity. Qed.

Lemma forest_size_imap (cs : list node) : forall g : nat -> list nat,
  forest_size (imap (fun i c => (g i, c)) cs) = list_sum (map size cs).
Proof.
  unfold forest_size.
  induction cs as [|c cs IH]; intros g; [reflexivity|].
  cbn [imap map]. rewrite !list_sum_cons. f_equal. apply (IH (g ∘ S)).
Qed.

Lemma forest_size_child_refs r :
  forest_size (child_refs r) = list_sum (map size (n_children r.2)).
Proof. apply forest_size_imap. Qed.

Lemma forest_size_app l1 l2 :
  forest_size (l1 ++ l2) = (forest_size l1 + forest_size l2)%nat.
Proof. unfold forest_size. rewrite map_app, list_sum_app. reflexivity. Qed.

Lemma forest_size_cons r todo :
  forest_size (r :: todo) = (size r.2 + forest_size todo)%nat.
Proof. reflexivity. Qed.

Lemma forest_size_step r todo :
  forest_size (r :: todo) = S (forest_size (todo ++ child_refs r)).
Proof.
  rewrite forest_size_cons, forest_size_app, forest_size_child_refs, size_children.
  lia.
Qed.

(** The walk never runs out of rounds. *)
Lemma walk_go_fuel fuel : forall fuel' todo,
  (forest_size todo <= fuel)%nat -> (forest_size todo <= fuel')%nat ->
  walk_go fuel todo = walk_go fuel' todo.
Proof.
  induction fuel as [|fuel IH]; intros fuel' todo H H'.
  - destruct todo as [|r todo]; [destruct fuel'; reflexivity|].
    rewrite forest_size_cons, size_children in H. lia.
  - destruct todo as [|r todo]; [destruct fuel'; reflexivity|].
    destruct fuel' as [|fuel'].
    { rewrite forest_size_cons, size_children in H'. lia. }
    cbn [walk_go]. f_equal.
    pose proof (forest_size_step r todo) as Hs.
    apply IH; lia.
Qed.

Lemma walk_length fuel : forall todo,
  (forest_size todo <= fuel)%nat ->
  length (walk_go fuel todo) = forest_size todo.
Proof.
  induction fuel as [|fuel IH]; intros todo H.
  - destruct todo as [|r todo]; [reflexivity|].
    rewrite forest_size_cons, size_children in H. lia.
  - destruct todo as [|r todo]; [reflexivity|].
    pose proof (forest_size_step r todo) as Hs.
    cbn [walk_go length]. rewrite IH by lia. lia.
Qed.

(** The walk yields as many nodes as the tree has. *)
Lemma walk_visits_all tree : length (walk tree) = size tree.
Proof.
  unfold walk. rewrite walk_length; unfold forest_size; cbn; lia.
Qed.

(** Walking up never runs out of rounds. *)
Lemma chain_up_fuel tree fuel : forall fuel' r chain,
  (length r.1 < fuel)%nat -> (length r.1 < fuel')%nat ->
  chain_up fuel (build_parent tree) r chain
  = chain_up fuel' (build_parent tree) r chain.
Proof.
  induction fuel as [|fuel IH]; intros fuel' r chain H H'; [lia|].
  destruct fuel' as [|fuel']; [lia|]. cbn [chain_up].
  destruct (build_parent tree !! r.1) as [pr|] eqn:E; [|reflexivity].
  apply build_parent_inv in E as (_ & i & Hi).
  rewrite Hi, length_app in H, H'. cbn in H, H'.
  apply IH; lia.
Qed.

End AstFacts.

(** ** The structural scanner *)

Module LangraphFacts.
Import Ast Langraph AstFacts Samples GitModule.

Lemma insert_sorted_perm d l : Permutation (insert_sorted d l) (d :: l).
Proof.
  induction l as [|e l IH]; cbn [insert_sorted]; [reflexivity|].
  destruct (sort_key d <=? sort_key e); [reflexivity|].
  rewrite IH. apply perm_swap.
Qed.

Lemma sort_items_perm l : Permutation (sort_items l) l.
Proof.
  induction l as [|d l IH]; [reflexivity|]. cbn [sort_items fold_right].
  rewrite insert_sorted_perm. constructor. exact IH.
Qed.

Lemma insert_sorted_sorted d l :
  Sorted by_lineno l -> Sorted by_lineno (insert_sorted d l).
Proof.
  induction l as [|e l IH]; intros Hs; cbn [insert_sorted].
  - repeat constructor.
  - destruct (sort_key d <=? sort_key e) eqn:E.
    + constructor; [exact Hs|]. constructor. apply Z.leb_le, E.
    + apply Z.leb_gt in E. inversion Hs as [|? ? Hs' Hhd]; subst.
      constructor; [apply IH, Hs'|].
      destruct l as [|e' l]; cbn [insert_sorted].
      * constructor. unfold by_lineno. lia.
      * destruct (sort_key d <=? sort_key e').
        -- constructor. unfold by_lineno. lia.
        -- inversion Hhd; subst. constructor. assumption.
Qed.

Lemma sort_items_sorted l : Sorted by_lineno (sort_items l).
Proof.
  induction l as [|d l IH]; [constructor|].
  cbn [sort_items fold_right]. apply insert_sorted_sorted, IH.
Qed.

(** C5, as the code has it: the items of the structural scanner are the
    [type], [name], [lineno] and [end_lineno] of the declaration nodes,
    sorted by line, and nothing else; the enclosing relation is not stored
    with them.  It is rebuilt for every query as a parent map over the tree,
    which sends the position of each child of a walked node to that node
    and holds nothing but such edges. *)
Theorem scanner_items_and_parent_map ast_parse source_text tree :
  ast_parse source_text = Some tree ->
  Permutation (parse_python_structure ast_parse source_text)
    (map item_of (List.filter (fun n => is_decl (n_kind n)) (map snd (walk tree))))
  /\ Sorted by_lineno (parse_python_structure ast_parse source_text)
  /\ (forall r c, r ∈ walk tree -> c ∈ child_refs r ->
        build_parent tree !! c.1 = Some r)
  /\ (forall k pr, build_parent tree !! k = Some pr ->
        pr ∈ walk tree /\ exists i, k = (pr.1 ++ [i])%list).
Proof.
  intros Hp. unfold parse_python_structure. rewrite Hp.
  split; [|split; [apply sort_items_sorted|split]].
  - rewrite sort_items_perm.
    induction (walk tree) as [|r l IH]; [reflexivity|].
    cbn [flat_map map List.filter].
    destruct (is_decl (n_kind r.2)); cbn [app map]; [constructor|]; exact IH.
  - intros r c. apply build_parent_child.
  - intros k pr. apply build_parent_inv.
Qed.

Lemma scanner_items_and_parent_map_witness :
  Permutation (parse_python_structure sample_parse sample_src)
    (map item_of (List.filter (fun n => is_decl (n_kind n)) (map snd (walk sample_tree))))
  /\ Sorted by_lineno (parse_python_structure sample_parse sample_src)
  /\ (forall r c, r ∈ walk sample_tree -> c ∈ child_refs r ->
        build_parent sample_tree !! c.1 = Some r)
  /\ (forall k pr, build_parent sample_tree !! k = Some pr ->
        pr ∈ walk sample_tree /\ exists i, k = (pr.1 ++ [i])%list).
Proof.
  apply (scanner_items_and_parent_map sample_parse sample_src sample_tree).
  reflexivity.
Defined.

(** C5 as it is written fails: the method [f] of [class A] and the method
    [f] of [class B] give the same item, so no field of the item tells its
    enclosing declaration. *)
Lemma scanner_items_carry_no_back_reference :
  let f := Decl "def" "f" (Some 2) (Some 2) in
  let in_A := class_with_f "A" in
  let in_B := class_with_f "B" in
  parse_python_structure (fun _ => Some in_A) ""
    = [Decl "class" "A" (Some 1) (Some 2); f]
  /\ parse_python_structure (fun _ => Some in_B) ""
    = [Decl "class" "B" (Some 1) (Some 2); f]
  /\ In (f, Some (Decl "class" "A" (Some 1) (Some 2)))
        (items_with_enclosing None in_A)
  /\ In (f, Some (Decl "class" "B" (Some 1) (Some 2)))
        (items_with_enclosing None in_B)
  /\ ~ exists back_reference : decl -> option decl,
        forall tree d e,
          In (d, e) (items_with_enclosing None tree) -> back_reference d = e.
Proof.
  cbv zeta.
  assert (HA : In (Decl "def" "f" (Some 2) (Some 2),
                   Some (Decl "class" "A" (Some 1) (Some 2)))
                 (items_with_enclosing None (class_with_f "A")))
    by (vm_compute; tauto).
  assert (HB : In (Decl "def" "f" (Some 2) (Some 2),
                   Some (Decl "class" "B" (Some 1) (Some 2)))
                 (items_with_enclosing None (class_with_f "B")))
    by (vm_compute; tauto).
  split; [vm_compute; reflexivity|]. split; [vm_compute; reflexivity|].
  split; [exact HA|]. split; [exact HB|].
  intros [back_reference H].
  pose proof (H _ _ _ HA) as H1. pose proof (H _ _ _ HB) as H2.
  rewrite H1 in H2. discriminate.
Qed.

End LangraphFacts.

(** ** The matcher *)

Module ReFacts.
Import Re PyFacts.

Lemma rmatch_lit_prefix {A} subject p : forall st (k : mstate -> option A) a,
  rmatch subject (lit p) st k = Some a -> Py.startswith p (rest st) = true.
Proof.
  induction p as [|c p IH]; intros st k a H; [reflexivity|].
  cbn [lit rmatch] in H.
  destruct (rest st) as [|d s'] eqn:E; [discriminate|].
  destruct (Ascii.eqb c d) eqn:Ecd; [|discriminate].
  apply IH in H. cbn [rest] in H.
  cbn [Py.startswith]. rewrite Ecd, H. reflexivity.
Qed.

Lemma search_from_lit_contains subject p r s : forall off prev m,
  search_from subject (Seq (lit p) r) off prev s = Some m ->
  Py.contains p s = true.
Proof.
  induction s as [|c s IH]; intros off prev m H; cbn [search_from] in H.
  - destruct (rmatch _ _ _ _) eqn:E; [|discriminate].
    cbn [rmatch] in E. apply rmatch_lit_prefix in E. cbn [rest] in E.
    cbn [Py.contains]. rewrite E. reflexivity.
  - cbn [Py.contains]. destruct (rmatch _ _ _ _) eqn:E.
    + cbn [rmatch] in E. apply rmatch_lit_prefix in E. cbn [rest] in E.
      rewrite E. reflexivity.
    + apply IH in H. rewrite H. apply orb_true_r.
Qed.

Section Engine.

Variable subject : string.
Context {A : Type}.

Lemma rmatch_consumes r : forall st (k : mstate -> option A) a,
  rmatch subject r st k = Some a ->
  exists st' mid,
    k st' = Some a
    /\ rest st = mid ++ rest st'
    /\ pos st' = (pos st + String.length mid)%nat.
Proof.
  induction r as [|p|r1 IH1 r2 IH2|r1 IH1 r2 IH2|r IH|r IH|n r IH|ml];
    intros st k a; cbn [rmatch].
  - intros H. exists st, "". split; [exact H|]. split; [reflexivity|cbn; lia].
  - destruct (rest st) as [|c s'] eqn:E; [discriminate|].
    destruct (p c); [|discriminate]. intros H.
    eexists. exists (String c ""). split; [exact H|]. cbn. split; [reflexivity|lia].
  - intros H. apply IH1 in H as (st1 & m1 & H & Hr1 & Hp1).
    apply IH2 in H as (st2 & m2 & H & Hr2 & Hp2).
    exists st2, (m1 ++ m2). split; [exact H|].
    rewrite Hr1, Hr2, append_assoc, length_append. split; [reflexivity|lia].
  - destruct (rmatch subject r1 st k) as [a'|] eqn:E.
    + intros [= <-]. apply IH1, E.
    + apply IH2.
  - generalize (String.length (rest st)) as fuel. intros fuel. revert st.
    induction fuel as [|fuel IHf]; intros st.
    + intros H. exists st, "". split; [exact H|]. split; [reflexivity|cbn; lia].
    + match goal with
      | |- context [rmatch subject r st ?k'] =>
          destruct (rmatch subject r st k') as [a'|] eqn:E
      end.
      * intros [= <-]. apply IH in E as (st1 & m1 & E & Hr1 & Hp1).
        destruct (progress st st1); [|discriminate].
        apply IHf in E as (st2 & m2 & E & Hr2 & Hp2).
        exists st2, (m1 ++ m2). split; [exact E|].
        rewrite Hr1, Hr2, append_assoc, length_append. split; [reflexivity|lia].
      * intros H. exists st, "". split; [exact H|]. split; [reflexivity|cbn; lia].
  - generalize (String.length (rest st)) as fuel. intros fuel. revert st.
    induction fuel as [|fuel IHf]; intros st.
    + destruct (k st) as [a'|] eqn:E; [|discriminate].
      intros [= <-]. exists st, "". split; [exact E|]. split; [reflexivity|cbn; lia].
    + destruct (k st) as [a'|] eqn:E.
      * intros [= <-]. exists st, "". split; [exact E|]. split; [reflexivity|cbn; lia].
      * intros H. apply IH in H as (st1 & m1 & H & Hr1 & Hp1).
        destruct (progress st st1); [|discriminate].
        apply IHf in H as (st2 & m2 & H & Hr2 & Hp2).
        exists st2, (m1 ++ m2). split; [exact H|].
        rewrite Hr1, Hr2, append_assoc, length_append. split; [reflexivity|lia].
  - intros H. apply IH in H as (st1 & m1 & H & Hr1 & Hp1).
    eexists. exists m1. split; [exact H|]. cbn [rest pos]. auto.
  - destruct (at_bol ml (prev st)); [|discriminate].
    intros H. exists st, "". split; [exact H|]. split; [reflexivity|cbn; lia].
Qed.

Lemma rmatch_lit_consumes p : forall st (k : mstate -> option A) a,
  rmatch subject (lit p) st k = Some a ->
  exists st',
    k st' = Some a
    /\ rest st = p ++ rest st'
    /\ pos st' = (pos st + String.length p)%nat
    /\ caps st' = caps st.
Proof.
  induction p as [|c p IH]; intros st k a; cbn [lit rmatch].
  - intros H. exists st. split; [exact H|]. split; [reflexivity|]. cbn. split; [lia|reflexivity].
  - destruct (rest st) as [|d s'] eqn:E; [discriminate|].
    destruct (Ascii.eqb c d) eqn:Ecd; [|discriminate].
    apply Ascii.eqb_eq in Ecd. subst d. intros H.
    apply IH in H as (st' & H & Hr & Hp & Hc). cbn [rest pos caps] in *.
    exists st'. split; [exact H|]. rewrite Hr, append_cons. cbn [String.length].
    split; [reflexivity|]. split; [lia|exact Hc].
Qed.

End Engine.

Lemma search_from_start subject r s : forall pre p m,
  search_from subject r (String.length pre) p s = Some m ->
  subject = pre ++ s ->
  exists pre' s' p',
    subject = pre' ++ s'
    /\ rmatch subject r (MState s' (String.length pre') p' [])
         (accept (String.length pre')) = Some m.
Proof.
  induction s as [|c s IH]; intros pre p m; cbn [search_from].
  - destruct (rmatch _ _ _ _) as [m'|] eqn:E; [|discriminate].
    intros [= <-] Hs. eauto.
  - destruct (rmatch _ _ _ _) as [m'|] eqn:E.
    + intros [= <-] Hs. eauto.
    + intros H Hs.
      apply (IH (pre ++ String c "") (Some c) m).
      * rewrite length_append. cbn [String.length].
        replace (String.length pre + 1)%nat with (S (String.length pre)) by lia.
        exact H.
      * rewrite Hs, append_assoc, append_cons, append_nil_l. reflexivity.
Qed.

Lemma get_set_cap n v cs : get_cap n (set_cap n v cs) = Some v.
Proof. unfold set_cap. cbn [get_cap]. rewrite Nat.eqb_refl. reflexivity. Qed.

Lemma rmatch_seq {A} subject r1 r2 st (k : mstate -> option A) :
  rmatch subject (Seq r1 r2) st k
  = rmatch subject r1 st (fun st' => rmatch subject r2 st' k).
Proof. reflexivity. Qed.

Lemma rmatch_group {A} subject n r st (k : mstate -> option A) :
  rmatch subject (Group n r) st k
  = rmatch subject r st
      (fun st' =>
         k (MState (rest st') (pos st') (prev st')
              (set_cap n (substring (pos st) (pos st' - pos st) subject)
                 (caps st')))).
Proof. reflexivity. Qed.

End ReFacts.

(** ** Documentation comments, rendering, history and the pipeline *)

Module DocgenFacts.
Import Re Ast Langraph Docgen Samples PyFacts ReFacts.

Lemma enumerate_from_lookup {A} (l : list A) : forall start i x,
  In (i, x) (Py.enumerate_from start l) ->
  start <= i /\ l !! Z.to_nat (i - start) = Some x.
Proof.
  induction l as [|y l IH]; intros start i x; cbn [Py.enumerate_from In]; [intros []|].
  intros [[= <- <-]|H].
  - split; [lia|]. rewrite Z.sub_diag. reflexivity.
  - apply IH in H as [Hle Hl]. split; [lia|].
    replace (Z.to_nat (i - start)) with (S (Z.to_nat (i - (start + 1)))) by lia.
    exact Hl.
Qed.

Lemma put_doc_fold line_doc lines key doc l : forall out : gmap doc_key string,
  fold_left (put_doc line_doc lines) l out !! key = Some doc ->
  out !! key = Some doc
  \/ exists i line, In (i, line) l /\ line_doc lines i line = Some (key, doc).
Proof.
  induction l as [|[i line] l IH]; intros out H; cbn [fold_left] in H; [left; exact H|].
  apply IH in H as [H|(i' & line' & Hin & Hd)].
  - unfold put_doc in H. cbn [fst snd] in H.
    destruct (line_doc lines i line) as [[k d]|] eqn:E; [|left; exact H].
    destruct (decide (k = key)) as [->|Hne].
    + rewrite lookup_insert_eq in H. injection H as ->.
      right. exists i, line. split; [left; reflexivity|exact E].
    + rewrite lookup_insert_ne in H by exact Hne. left. exact H.
  - right. exists i', line'. split; [right; exact Hin|exact Hd].
Qed.

Lemma scan_docs_lookup line_doc source_text key doc :
  scan_docs line_doc source_text !! key = Some doc ->
  exists i line,
    0 <= i /\ Py.splitlines source_text !! Z.to_nat i = Some line
    /\ line_doc (Py.splitlines source_text) i line = Some (key, doc).
Proof.
  unfold scan_docs. intros H. apply put_doc_fold in H as [H|(i & line & Hin & Hd)].
  - rewrite lookup_empty in H. discriminate.
  - apply enumerate_from_lookup in Hin as [Hi Hl]. rewrite Z.sub_0_r in Hl.
    exists i, line. auto.
Qed.

Lemma block_line_doc_inv java lines i line key doc :
  block_line_doc java lines i line = Some (key, doc) ->
  pmatch (block_decl_re java) line <> None
  /\ (exists tok, key = (tok, i + 1, i + 1))
  /\ exists jm,
       search jsdoc_re (look_behind (block_window java) lines i) = Some jm
       /\ doc = clean_doc (default "" (group 1 jm))
       /\ doc <> "".
Proof.
  destruct java; cbn [block_line_doc block_decl_re block_window].
  - unfold java_line_doc, javadoc_re. destruct (pmatch java_re line); [|discriminate].
    destruct (search jsdoc_re _) as [jm|]; [|discriminate].
    destruct (Py.truthy _) eqn:E; [|discriminate].
    intros [= <- <-]. split; [discriminate|]. split; [eauto|].
    exists jm. split; [reflexivity|]. split; [reflexivity|].
    intros Hd. rewrite Hd in E. discriminate.
  - unfold js_line_doc. destruct (pmatch func_re line); [|discriminate].
    destruct (search jsdoc_re _) as [jm|]; [|discriminate].
    destruct (Py.truthy _) eqn:E; [|discriminate].
    intros [= <- <-]. split; [discriminate|]. split; [eauto|].
    exists jm. split; [reflexivity|]. split; [reflexivity|].
    intros Hd. rewrite Hd in E. discriminate.
Qed.

Lemma look_behind_length window (lines : list string) i :
  0 <= window -> 0 <= i ->
  (length (Py.slice lines (Z.max 0 (i - window)) i) <= Z.to_nat window)%nat.
Proof.
  intros Hw Hi. unfold Py.slice. rewrite length_take. lia.
Qed.

Lemma jsdoc_block s jm :
  search jsdoc_re s = Some jm ->
  exists pre body post,
    s = pre ++ "/**" ++ body ++ "*/" ++ post
    /\ group 1 jm = Some body.
Proof.
  unfold search. intros H.
  apply (search_from_start s jsdoc_re s "" None jm) in H; [|reflexivity].
  destruct H as (pre & s' & p' & Hs & H).
  unfold jsdoc_re in H. cbn [cat fold_right] in H.
  rewrite rmatch_seq in H.
  apply rmatch_lit_consumes in H as (st1 & H & Hr1 & Hp1 & Hc1).
  cbn [rest pos caps] in Hr1, Hp1, Hc1.
  rewrite rmatch_seq, rmatch_group in H.
  apply rmatch_consumes in H as (st2 & body & H & Hr2 & Hp2).
  cbv beta in H. rewrite rmatch_seq in H.
  apply rmatch_lit_consumes in H as (st3 & H & Hr3 & Hp3 & Hc3).
  cbn [rest pos caps] in Hr3, Hp3, Hc3.
  cbn [rmatch] in H. unfold accept in H. injection H as <-.
  exists pre, body, (rest st3). split.
  - rewrite Hs, Hr1, Hr2, Hr3. reflexivity.
  - unfold group. cbn [m_caps]. rewrite Hc3.
    replace (pos st2 - pos st1)%nat with (String.length body) by lia.
    rewrite get_set_cap. f_equal.
    rewrite Hs, Hr1, Hr2, Hp1.
    replace (pre ++ "/**" ++ body ++ rest st2) with ((pre ++ "/**") ++ body ++ rest st2)
      by (rewrite append_assoc; reflexivity).
    rewrite <- length_append, substring_skip. apply substring_prefix.
Qed.

(** C4, as the code has it: documentation is attributed to a declaration
    only from the look-behind window, the (at most) 5 lines above a
    JavaScript declaration and 10 lines above a Java one: the text is that
    of a [/** ... */] block of the window, cleaned up, and it is not
    empty.  A declaration whose window holds no opener gets no entry. *)
Theorem block_comment_window java source_text :
  let lines := Py.splitlines source_text in
  let docs := block_comment_docs java source_text in
  let window i := look_behind (block_window java) lines i in
  (forall key doc,
     docs !! key = Some doc ->
     exists i line tok pre body post,
       0 <= i /\ lines !! Z.to_nat i = Some line
       /\ pmatch (block_decl_re java) line <> None
       /\ key = (tok, i + 1, i + 1)
       /\ window i
          = Py.join Py.nl (Py.slice lines (Z.max 0 (i - block_window java)) i)
       /\ (length (Py.slice lines (Z.max 0 (i - block_window java)) i)
           <= Z.to_nat (block_window java))%nat
       /\ window i = pre ++ "/**" ++ body ++ "*/" ++ post
       /\ doc = clean_doc body
       /\ doc <> "")
  /\ (forall i tok,
        0 <= i ->
        Py.contains "/**" (window i) = false ->
        docs !! (tok, i + 1, i + 1) = None).
Proof.
  intros lines docs window.
  assert (Hdocs : docs = scan_docs (block_line_doc java) source_text)
    by (destruct java; reflexivity).
  split.
  - intros key doc H. rewrite Hdocs in H.
    apply scan_docs_lookup in H as (i & line & Hi & Hl & Hd).
    apply block_line_doc_inv in Hd as (Hm & (tok & Hk) & jm & Hs & Hdoc & Hne).
    apply jsdoc_block in Hs as (pre & body & post & Hw & Hg).
    exists i, line, tok, pre, body, post.
    rewrite Hg in Hdoc. cbn in Hdoc.
    repeat split; try assumption.
    apply look_behind_length; [destruct java; cbn; lia|exact Hi].
  - intros i tok Hi Hc.
    destruct (docs !! (tok, i + 1, i + 1)) as [doc|] eqn:E; [|reflexivity].
    exfalso. rewrite Hdocs in E.
    apply scan_docs_lookup in E as (i' & line & Hi' & Hl & Hd).
    apply block_line_doc_inv in Hd as (_ & (tok' & Hk) & jm & Hs & _).
    injection Hk as _ Hii. assert (i' = i) by lia. subst i'.
    unfold search, jsdoc_re in Hs. cbn [cat fold_right] in Hs.
    apply search_from_lit_contains in Hs. unfold window, lines in Hc. congruence.
Qed.

Lemma block_comment_window_witness :
  exists i line tok pre body post,
    0 <= i /\ Py.splitlines gap_src !! Z.to_nat i = Some line
    /\ pmatch (block_decl_re false) line <> None
    /\ ("function f", 5, 5) = (tok, i + 1, i + 1)
    /\ look_behind (block_window false) (Py.splitlines gap_src) i
       = Py.join Py.nl
           (Py.slice (Py.splitlines gap_src) (Z.max 0 (i - block_window false)) i)
    /\ (length (Py.slice (Py.splitlines gap_src)
                  (Z.max 0 (i - block_window false)) i)
        <= Z.to_nat (block_window false))%nat
    /\ look_behind (block_window false) (Py.splitlines gap_src) i
       = pre ++ "/**" ++ body ++ "*/" ++ post
    /\ "Helper notes" = clean_doc body
    /\ "Helper notes" <> "".
Proof.
  apply (proj1 (block_comment_window false gap_src) ("function f", 5, 5)
           "Helper notes").
  vm_compute. reflexivity.
Defined.

(** C4 as it is written fails: a comment three lines above a JavaScript
    function, with a blank line, a statement and a blank line in between,
    is attributed to it. *)
Lemma block_comment_attributed_across_gap :
  Py.splitlines gap_src
  = ["/** Helper notes */"; ""; "x = 1;"; ""; "function f(x) {"; "}"]
  /\ _parse_javascript_docstrings gap_src !! ("function f", 5, 5)
     = Some "Helper notes".
Proof. repeat split; vm_compute; reflexivity. Qed.

(** *** Rendering *)

Lemma render_steps rel_path existing llm decls : forall lines,
  Py.concat (fold_left (render_step rel_path existing llm) decls lines)
  = Py.concat lines ++ Py.concat (map (section_text rel_path existing llm) decls).
Proof.
  induction decls as [|d decls IH]; intros lines; cbn [fold_left map].
  - cbn. rewrite append_nil_r. reflexivity.
  - rewrite IH. unfold render_step. rewrite concat_app, append_assoc.
    f_equal. cbn [Py.concat fold_right]. unfold section_text.
    rewrite append_nil_r, !append_assoc. reflexivity.
Qed.

Lemma render_sections rel_path language text decls existing llm template :
  decls <> [] ->
  _render_markdown_for_file rel_path language text decls existing llm template
  = page_title rel_path ++ template_heading template
    ++ Py.concat (map (section_text rel_path existing llm) decls).
Proof.
  intros Hne. unfold _render_markdown_for_file.
  destruct decls as [|d decls]; [contradiction|].
  rewrite render_steps. cbn [Py.concat fold_right].
  rewrite append_nil_r, append_assoc. reflexivity.
Qed.

(** C6: a file with declarations is rendered as its title, the heading of
    the template and one section per declaration in order; the body of a
    section is the existing documentation found under (kind name, start,
    end) when there is one (and it is not empty), otherwise the generated
    text under file:kind:name when there is one, otherwise the placeholder.
    The first key tells (kind, name, start, end) apart exactly, kinds being
    single words, and the second (file, kind, name), paths and kinds being
    free of colons. *)
Theorem doc_resolution_order rel_path language text decls existing llm template :
  decls <> [] ->
  _render_markdown_for_file rel_path language text decls existing llm template
  = page_title rel_path ++ template_heading template
    ++ Py.concat (map (section_text rel_path existing llm) decls)
  /\ forall d,
       let body := section_body rel_path existing llm d in
       let found :=
         existing !! (d_type d ++ " " ++ d_name d, decl_start d, decl_end d) in
       let generated := llm !! (rel_path ++ ":" ++ d_type d ++ ":" ++ d_name d) in
       (forall doc, found = Some doc -> doc <> "" -> body = Py.strip doc)
       /\ (found = None \/ found = Some "" ->
           forall g, generated = Some g -> g <> "" -> body = Py.strip g)
       /\ (found = None \/ found = Some "" ->
           generated = None \/ generated = Some "" ->
           body = placeholder)
       /\ (forall d',
             Py.contains " " (d_type d) = false ->
             Py.contains " " (d_type d') = false ->
             (existing_key d = existing_key d' <-> decl_tuple d = decl_tuple d'))
       /\ (forall rel_path' d',
             Py.contains ":" rel_path = false ->
             Py.contains ":" rel_path' = false ->
             Py.contains ":" (d_type d) = false ->
             Py.contains ":" (d_type d') = false ->
             (llm_key rel_path d = llm_key rel_path' d'
              <-> (rel_path, d_type d, d_name d) = (rel_path', d_type d', d_name d'))).
Proof.
  intros Hne. split; [apply render_sections, Hne|].
  intros d body found generated. unfold body, section_body.
  change (existing !! existing_key d) with found.
  change (llm !! llm_key rel_path d) with generated.
  split; [|split; [|split; [|split]]].
  + intros doc Hf Hd. rewrite Hf. destruct doc; [contradiction|]. reflexivity.
  + intros Hf g Hg Hgne.
    assert (Hp : present found = false) by (destruct Hf as [-> | ->]; reflexivity).
    rewrite Hp, Hg. cbn [negb default]. destruct g; [contradiction|]. reflexivity.
  + intros Hf Hg.
    assert (Hp : present found = false) by (destruct Hf as [-> | ->]; reflexivity).
    rewrite Hp. cbn [negb].
    destruct Hg as [-> | ->]; vm_compute; reflexivity.
  + intros d' Hs Hs'. unfold existing_key, decl_tuple. split.
    * intros [= Hk -> ->].
      destruct (space_split_inj _ _ _ _ Hs Hs' Hk) as [-> ->]. reflexivity.
    * intros [= -> -> -> ->]. reflexivity.
  + intros rel_path' d' Hr Hr' Hs Hs'. unfold llm_key. split.
    * intros Hk.
      destruct (colon_split_inj _ _ _ _ Hr Hr' Hk) as [-> Hk'].
      destruct (colon_split_inj _ _ _ _ Hs Hs' Hk') as [-> ->]. reflexivity.
    * intros [= -> -> ->]. reflexivity.
Qed.

Lemma doc_resolution_order_witness :
  _render_markdown_for_file "app.py" "python" "" [decl_f; decl_g; decl_h]
    resolution_existing resolution_generated "api"
  = page_title "app.py" ++ template_heading "api"
    ++ Py.concat (map (section_text "app.py" resolution_existing resolution_generated)
                   [decl_f; decl_g; decl_h])
  /\ section_body "app.py" resolution_existing resolution_generated decl_f
     = "Existing f."
  /\ section_body "app.py" resolution_existing resolution_generated decl_g
     = "Generated g."
  /\ section_body "app.py" resolution_existing resolution_generated decl_h
     = placeholder.
Proof.
  destruct (doc_resolution_order "app.py" "python" "" [decl_f; decl_g; decl_h]
              resolution_existing resolution_generated "api")
    as [Hpage Hbody]; [discriminate|].
  split; [exact Hpage|]. split; [|split].
  - apply (proj1 (Hbody decl_f) "Existing f."); [vm_compute; reflexivity|discriminate].
  - apply (proj1 (proj2 (Hbody decl_g)) (or_introl eq_refl) "Generated g.");
      [vm_compute; reflexivity|discriminate].
  - apply (proj1 (proj2 (proj2 (Hbody decl_h)))); left; vm_compute; reflexivity.
Defined.

(** *** The history store *)

Lemma setdefault_spec k dflt kvs :
  setdefault k dflt kvs
  = match dict_get k kvs with
    | Some v => (v, kvs)
    | None => (dflt, (kvs ++ [(k, dflt)])%list)
    end.
Proof.
  induction kvs as [|[k' v] kvs IH]; cbn [setdefault dict_get app]; [reflexivity|].
  destruct (String.eqb k k'); [reflexivity|].
  rewrite IH. destruct (dict_get k kvs); reflexivity.
Qed.

Lemma dict_get_app k kvs kvs' :
  dict_get k (kvs ++ kvs')
  = match dict_get k kvs with
    | Some v => Some v
    | None => dict_get k kvs'
    end.
Proof.
  induction kvs as [|[k' v] kvs IH]; cbn [dict_get app]; [reflexivity|].
  destruct (String.eqb k k'); [reflexivity|exact IH].
Qed.

Lemma dict_get_replace k v kvs :
  is_Some (dict_get k kvs) -> dict_get k (dict_replace k v kvs) = Some v.
Proof.
  induction kvs as [|[k' v'] kvs IH]; cbn [dict_get dict_replace].
  - intros [? [=]].
  - destruct (String.eqb k k') eqn:E; cbn [dict_get]; rewrite E; [reflexivity|exact IH].
Qed.

Lemma update_history_appends h entry h' :
  _update_history h entry = Some h' ->
  entries_of h' = (entries_of h ++ [entry])%list
  \/ (h = HUnreadable /\ entries_of h' = [entry]).
Proof.
  unfold _update_history.
  destruct h as [| |j].
  - cbn. intros [= <-]. left. reflexivity.
  - cbn. intros [= <-]. right. split; reflexivity.
  - destruct j as [| | | |l|kvs]; try discriminate.
    rewrite setdefault_spec.
    destruct (dict_get "entries" kvs) as [v|] eqn:E.
    + destruct v as [| | | |l|]; try discriminate.
      intros [= <-]. left. cbn [entries_of]. rewrite E.
      rewrite dict_get_replace by (rewrite E; eauto). reflexivity.
    + intros [= <-]. left. cbn [entries_of]. rewrite E.
      rewrite dict_get_replace; [reflexivity|].
      rewrite dict_get_app, E. cbn. eauto.
Qed.

Lemma update_history_returns h entry :
  holds_history h ->
  exists h', _update_history h entry = Some h' /\ holds_history h'.
Proof.
  unfold _update_history.
  destruct h as [| |j]; cbn [holds_history].
  - intros _. eexists. split; [reflexivity|]. cbn. exact I.
  - intros [].
  - destruct j as [| | | |l|kvs]; cbn [holds_history]; try (intros []).
    rewrite setdefault_spec.
    destruct (dict_get "entries" kvs) as [v|] eqn:E.
    + destruct v as [| | | |l|]; intros Hv; try contradiction.
      eexists. split; [reflexivity|]. cbn [holds_history].
      rewrite dict_get_replace by (rewrite E; eauto). exact I.
    + intros _. eexists. split; [reflexivity|]. cbn [holds_history].
      rewrite dict_get_replace; [exact I|].
      rewrite dict_get_app, E. cbn. eauto.
Qed.

Lemma update_history_raises h entry :
  ~ holds_history h -> h <> HUnreadable -> _update_history h entry = None.
Proof.
  unfold _update_history, holds_history.
  destruct h as [| |j]; [tauto|congruence|].
  destruct j as [| | | | |kvs]; try reflexivity.
  rewrite setdefault_spec.
  destruct (dict_get "entries" kvs) as [v|]; [|tauto].
  destruct v; try reflexivity. tauto.
Qed.

Section Pipeline.

Variable ast_parse : string -> option node.
Variable fs : file_system.
Variable repo_root : string.
Variable all_files : list string.
Variable head : option string.
Variable llm_service : list (string * file_data) -> gmap string string.

(** C7, as the code has it: a run that returns was given a store that
    holds a history or a file that cannot be decoded; on a store that holds
    a history the entries afterwards are the entries before, unchanged and
    in their order, followed by the one entry of this run, and a file that
    cannot be decoded is replaced by a history with that one entry.  On a
    store that holds a history the update itself never raises; on a store
    of any other shape the run raises. *)
Theorem history_grows_by_one options history :
  (forall res,
     generate_documentation ast_parse fs repo_root all_files head llm_service
       options history = Some res ->
     (holds_history history \/ history = HUnreadable)
     /\ (holds_history history ->
         entries_of (history_after res)
         = (entries_of history ++ [history_entry head options (changed res)])%list)
     /\ (history = HUnreadable ->
         entries_of (history_after res)
         = [history_entry head options (changed res)])
     /\ holds_history (history_after res))
  /\ (holds_history history ->
      forall entry, exists h', _update_history history entry = Some h')
  /\ (~ holds_history history -> history <> HUnreadable ->
      generate_documentation ast_parse fs repo_root all_files head llm_service
        options history = None).
Proof.
  split; [|split].
  - unfold generate_documentation. set (touched := map fst _).
    destruct (_update_history history (history_entry head options touched))
      as [h'|] eqn:Hu; [|discriminate].
    intros res [= <-]. cbn [history_after changed].
    assert (Hcase : holds_history history \/ history = HUnreadable).
    { destruct history as [| |j]; [left; exact I|right; reflexivity|left].
      destruct j as [| | | | |kvs]; try discriminate.
      unfold _update_history in Hu. rewrite setdefault_spec in Hu.
      cbn [holds_history].
      destruct (dict_get "entries" kvs) as [v|]; [|exact I].
      destruct v; try discriminate. exact I. }
    split; [exact Hcase|]. split; [|split].
    + intros Hh. destruct (update_history_appends _ _ _ Hu) as [H|[-> _]]; [exact H|].
      destruct Hh.
    + intros ->. cbn in Hu. injection Hu as <-. reflexivity.
    + destruct Hcase as [Hh| ->].
      * destruct (update_history_returns history (history_entry head options touched) Hh)
          as (h'' & Hu' & Hh''). congruence.
      * cbn in Hu. injection Hu as <-. exact I.
  - intros Hh entry. destruct (update_history_returns history entry Hh) as (h' & Hu & _).
    eauto.
  - intros Hn Hu. unfold generate_documentation.
    rewrite update_history_raises by assumption. reflexivity.
Qed.

(** *** Files that cannot be read *)

Lemma read_text_file_none path :
  fs_stat_size fs path = None
  \/ (exists sz, fs_stat_size fs path = Some sz /\ sz > 1000000)
  \/ fs_read_text fs path = None ->
  read_text_file fs path = None.
Proof.
  unfold read_text_file, read_text_file_with, max_size_default.
  intros [H|[(sz & H & Hsz)|H]].
  - rewrite H. reflexivity.
  - rewrite H. destruct (sz >? 1000000) eqn:E; [reflexivity|].
    rewrite Z.gtb_ltb in E. apply Z.ltb_ge in E. lia.
  - destruct (fs_stat_size fs path) as [sz|]; [|reflexivity].
    destruct (sz >? 1000000); [reflexivity|exact H].
Qed.

Lemma collect_file_skips files_data file_path :
  read_text_file fs (Py.path_join repo_root file_path) = None ->
  collect_file ast_parse fs repo_root files_data file_path = files_data.
Proof.
  intros H. unfold collect_file. rewrite H.
  destruct (_ || _); [reflexivity|].
  destruct (String.eqb _ "unknown"); reflexivity.
Qed.

Lemma dict_set_keys {V} k (v : V) kvs k' :
  In k' (map fst (dict_set k v kvs)) -> k' = k \/ In k' (map fst kvs).
Proof.
  induction kvs as [|[k0 v0] kvs IH]; cbn [dict_set map fst In].
  - intros [<-|[]]. left. reflexivity.
  - destruct (String.eqb k k0); cbn [map fst In].
    + intros [<-|H]; right; [left; reflexivity|right; exact H].
    + intros [<-|H]; [right; left; reflexivity|].
      destruct (IH H) as [->|H']; [left; reflexivity|right; right; exact H'].
Qed.

Lemma collect_file_keys files_data file_path k :
  In k (map fst (collect_file ast_parse fs repo_root files_data file_path)) ->
  In k (map fst files_data)
  \/ (k = file_path
      /\ read_text_file fs (Py.path_join repo_root file_path) <> None).
Proof.
  unfold collect_file.
  destruct (_ || _); [left; assumption|].
  destruct (String.eqb _ "unknown"); [left; assumption|].
  destruct (read_text_file fs _) as [txt|]; [|left; assumption].
  destruct (_scan_declarations _ _ _); [left; assumption|].
  intros H. apply dict_set_keys in H as [->|H]; [right|left; exact H].
  split; [reflexivity|discriminate].
Qed.

Lemma collected_files_readable l : forall files_data k,
  In k (map fst (fold_left (collect_file ast_parse fs repo_root) l files_data)) ->
  In k (map fst files_data)
  \/ read_text_file fs (Py.path_join repo_root k) <> None.
Proof.
  induction l as [|f l IH]; intros files_data k; cbn [fold_left]; [left; assumption|].
  intros H. apply IH in H as [H|H]; [|right; exact H].
  apply collect_file_keys in H as [H|[-> H]]; [left; exact H|right; exact H].
Qed.

(** C10: reading a file gives [None] when its size cannot be taken, when
    it is larger than 1,000,000 bytes, or when its text cannot be read; such
    a file leaves [files_data] as it was (it is not scanned), and it is
    neither rendered nor listed among the touched files. *)
Theorem unreadable_files_are_left_out options history res :
  generate_documentation ast_parse fs repo_root all_files head llm_service
      options history = Some res ->
  (forall path,
     fs_stat_size fs path = None
     \/ (exists sz, fs_stat_size fs path = Some sz /\ sz > 1000000)
     \/ fs_read_text fs path = None ->
     read_text_file fs path = None)
  /\ forall file_path,
       read_text_file fs (Py.path_join repo_root file_path) = None ->
       (forall files_data,
          collect_file ast_parse fs repo_root files_data file_path = files_data)
       /\ ~ In file_path (map fst (rendered res))
       /\ ~ In file_path (changed res).
Proof.
  unfold generate_documentation.
  destruct (_update_history _ _); [|discriminate].
  intros [= <-]. cbn [rendered changed].
  split; [apply read_text_file_none|].
  intros file_path Hnone.
  split; [intros fd; apply collect_file_skips, Hnone|].
  assert (Hk : ~ In file_path
                 (map fst (fold_left (collect_file ast_parse fs repo_root) all_files []))).
  { intros H. apply collected_files_readable in H as [[]|H]. contradiction. }
  split; [|exact Hk].
  rewrite map_map. cbn [render_file fst]. exact Hk.
Qed.

End Pipeline.

Lemma history_grows_by_one_witness :
  (holds_history prior_history \/ prior_history = HUnreadable)
  /\ (holds_history prior_history ->
      entries_of (history_after later_result)
      = (entries_of prior_history
         ++ [history_entry (Some "0123abcd") sample_options (changed later_result)])%list)
  /\ (prior_history = HUnreadable ->
      entries_of (history_after later_result)
      = [history_entry (Some "0123abcd") sample_options (changed later_result)])
  /\ holds_history (history_after later_result).
Proof.
  apply (proj1 (history_grows_by_one sample_parse sample_fs "repo" sample_files
                  (Some "0123abcd") (fun _ => ∅) sample_options prior_history)
           later_result).
  vm_compute. reflexivity.
Defined.

(** C7 as it is written fails: on a history file that holds a JSON list,
    or an object whose [entries] is [null], the run raises and no entry is
    appended. *)
Lemma history_not_grown_on_other_shapes :
  generate_documentation sample_parse sample_fs "repo" sample_files
    (Some "0123abcd") (fun _ => ∅) sample_options
    (HJson (JList [JDict [("total_files", JInt 3)]])) = None
  /\ generate_documentation sample_parse sample_fs "repo" sample_files
       (Some "0123abcd") (fun _ => ∅) sample_options
       (HJson (JDict [("entries", JNull)])) = None.
Proof. split; vm_compute; reflexivity. Qed.

Lemma unreadable_files_are_left_out_witness :
  (forall path,
     fs_stat_size sample_fs path = None
     \/ (exists sz, fs_stat_size sample_fs path = Some sz /\ sz > 1000000)
     \/ fs_read_text sample_fs path = None ->
     read_text_file sample_fs path = None)
  /\ forall file_path,
       read_text_file sample_fs (Py.path_join "repo" file_path) = None ->
       (forall files_data,
          collect_file sample_parse sample_fs "repo" files_data file_path
          = files_data)
       /\ ~ In file_path (map fst (rendered sample_result))
       /\ ~ In file_path (changed sample_result).
Proof.
  apply (unreadable_files_are_left_out sample_parse sample_fs "repo"
           sample_files (Some "0123abcd") (fun _ => ∅) sample_options HAbsent
           sample_result).
  vm_compute. reflexivity.
Defined.

End DocgenFacts.

(** ** Reading the headers of a rendered document back *)

Module HeaderFacts.
Import Re Ast Langraph Docgen Samples PyFacts DocgenFacts.

Lemma lacks_app c a b : lacks c (a ++ b) = lacks c a && lacks c b.
Proof.
  induction a as [|d a IH]; [reflexivity|].
  rewrite append_cons. cbn [lacks]. rewrite IH, andb_assoc. reflexivity.
Qed.

Lemma strip_prefix_app p s : strip_prefix p (p ++ s) = Some s.
Proof.
  induction p as [|a p IH]; [destruct s; reflexivity|].
  rewrite append_cons. cbn [strip_prefix]. rewrite Ascii.eqb_refl. exact IH.
Qed.

Lemma cut_app h sep x y :
  lacks h x = true ->
  cut (String h sep) (x ++ String h sep ++ y) = Some (x, y).
Proof.
  induction x as [|c x IH]; intros Hx.
  - rewrite append_nil_l.
    assert (E : strip_prefix (String h sep) (String h sep ++ y) = Some y)
      by apply strip_prefix_app.
    destruct (String h sep ++ y) eqn:Es; cbn [cut]; rewrite E; reflexivity.
  - cbn [lacks] in Hx. apply andb_true_iff in Hx as [Hc Hx].
    rewrite append_cons. cbn [cut strip_prefix].
    apply negb_true_iff in Hc. rewrite Hc. rewrite (IH Hx). reflexivity.
Qed.

Lemma split_nl_nonnil s : split_nl s <> [].
Proof.
  induction s as [|c s IH]; cbn [split_nl]; [discriminate|].
  destruct (Ascii.eqb c Py.LF); [discriminate|].
  destruct (split_nl s); discriminate.
Qed.

Lemma split_nl_app a b :
  split_nl (a ++ Py.nl ++ b) = (split_nl a ++ split_nl b)%list.
Proof.
  induction a as [|c a IH].
  - rewrite append_nil_l. unfold Py.nl. rewrite append_cons, append_nil_l.
    cbn [split_nl]. rewrite Ascii.eqb_refl. reflexivity.
  - rewrite append_cons. cbn [split_nl]. rewrite IH.
    destruct (Ascii.eqb c Py.LF); [reflexivity|].
    pose proof (split_nl_nonnil a) as Hn.
    destruct (split_nl a); [contradiction|]. reflexivity.
Qed.

Lemma split_nl_single s : lacks Py.LF s = true -> split_nl s = [s].
Proof.
  induction s as [|c s IH]; [reflexivity|]. cbn [lacks split_nl].
  intros H. apply andb_true_iff in H as [Hc Hs].
  apply negb_true_iff in Hc. rewrite Ascii.eqb_sym in Hc. rewrite Hc.
  rewrite (IH Hs). reflexivity.
Qed.

Lemma parse_headers_app a b :
  parse_headers (a ++ Py.nl ++ b) = (parse_headers a ++ parse_headers b)%list.
Proof. unfold parse_headers. rewrite split_nl_app. apply omap_app. Qed.

Lemma parse_headers_nl2 a b :
  parse_headers (a ++ nl2 ++ b) = (parse_headers a ++ parse_headers b)%list.
Proof.
  unfold nl2. rewrite append_assoc, parse_headers_app.
  replace (Py.nl ++ b) with ("" ++ Py.nl ++ b) by reflexivity.
  rewrite parse_headers_app. reflexivity.
Qed.

(** Decimal numerals *)

Lemma uint_digits d :
  all_digits (NilEmpty.string_of_uint d) = true
  /\ lacks "-" (NilEmpty.string_of_uint d) = true
  /\ lacks ")" (NilEmpty.string_of_uint d) = true
  /\ lacks Py.LF (NilEmpty.string_of_uint d) = true.
Proof.
  induction d as [|d IH|d IH|d IH|d IH|d IH|d IH|d IH|d IH|d IH|d IH];
    cbn [NilEmpty.string_of_uint all_digits lacks];
    [repeat split; reflexivity|..];
    destruct IH as (H1 & H2 & H3 & H4); rewrite H1, H2, H3, H4;
    repeat split; reflexivity.
Qed.

Lemma str_nonneg n :
  0 <= n ->
  exists d, Py.str n = NilEmpty.string_of_uint d /\ d <> Decimal.Nil
            /\ Z.of_int (Decimal.Pos d) = n.
Proof.
  intros Hn. unfold Py.str.
  pose proof (DecimalZ.of_to n) as Hz.
  destruct n as [|p|p]; [| |lia].
  - exists (Decimal.D0 Decimal.Nil). repeat split. discriminate.
  - cbn [Z.to_int] in *. cbn [NilZero.string_of_int].
    destruct (Pos.to_uint p) as [|d|d|d|d|d|d|d|d|d|d] eqn:E;
      [cbn in Hz; discriminate|..];
      (eexists; split; [reflexivity|split; [discriminate|exact Hz]]).
Qed.

Lemma read_nat_str n : 0 <= n -> read_nat (Py.str n) = Some n.
Proof.
  intros Hn. destruct (str_nonneg n Hn) as (d & -> & Hd & Hz).
  unfold read_nat. destruct (uint_digits d) as (H1 & _). rewrite H1, andb_true_r.
  pose proof (NilEmpty.isi (Decimal.Pos d)) as Hi. cbn [NilEmpty.string_of_int] in Hi.
  rewrite Hi.
  assert (Ht : Py.truthy (NilEmpty.string_of_uint d) = true).
  { destruct d; try reflexivity. contradiction. }
  rewrite Ht. change (Some (Z.of_int (Decimal.Pos d)) = Some n).
  f_equal. exact Hz.
Qed.

Lemma str_lacks n :
  0 <= n ->
  lacks "-" (Py.str n) = true /\ lacks ")" (Py.str n) = true
  /\ lacks Py.LF (Py.str n) = true.
Proof.
  intros Hn. destruct (str_nonneg n Hn) as (d & -> & _).
  destruct (uint_digits d) as (_ & H2 & H3 & H4). auto.
Qed.

Lemma section_header_eq d : section_header d = header_line d ++ nl2.
Proof. unfold section_header, header_line. rewrite !append_assoc. reflexivity. Qed.

Lemma header_line_one_line d :
  header_safe d -> split_nl (header_line d) = [header_line d].
Proof.
  intros (_ & Ht & _ & Hn & Hs & He). apply split_nl_single.
  destruct (str_lacks _ Hs) as (_ & _ & Hs').
  destruct (str_lacks _ He) as (_ & _ & He').
  unfold header_line. rewrite !lacks_app, Ht, Hn, Hs', He'. reflexivity.
Qed.

Lemma parse_header_line d :
  header_safe d -> parse_header (header_line d) = Some (decl_tuple d).
Proof.
  intros (Ht & _ & Hn & _ & Hs & He).
  destruct (str_lacks _ Hs) as (Hs1 & _).
  destruct (str_lacks _ He) as (_ & He2 & _).
  unfold parse_header, header_line.
  rewrite strip_prefix_app.
  rewrite (cut_app " " "`" _ _ Ht).
  rewrite (cut_app "`" " (lines " _ _ Hn).
  rewrite (cut_app "-" "" _ _ Hs1).
  replace (Py.str (decl_end d) ++ ")")
    with (Py.str (decl_end d) ++ ")" ++ "") by reflexivity.
  rewrite (cut_app ")" "" _ _ He2).
  rewrite (read_nat_str _ Hs), (read_nat_str _ He). reflexivity.
Qed.

Lemma parse_headers_header_line d :
  header_safe d -> parse_headers (header_line d) = [decl_tuple d].
Proof.
  intros H. unfold parse_headers.
  rewrite (header_line_one_line d H). cbn [omap list_omap].
  rewrite (parse_header_line d H). reflexivity.
Qed.

Lemma parse_headers_section rel_path existing llm d rest :
  header_safe d ->
  parse_headers (section_body rel_path existing llm d) = [] ->
  parse_headers (section_text rel_path existing llm d ++ rest)
  = decl_tuple d :: parse_headers rest.
Proof.
  intros Hd Hb. unfold section_text. rewrite section_header_eq, !append_assoc.
  rewrite !parse_headers_nl2, Hb, (parse_headers_header_line d Hd). reflexivity.
Qed.

Lemma parse_headers_sections rel_path existing llm decls :
  Forall (fun d => header_safe d
                   /\ parse_headers (section_body rel_path existing llm d) = [])
         decls ->
  parse_headers (Py.concat (map (section_text rel_path existing llm) decls))
  = map decl_tuple decls.
Proof.
  induction 1 as [|d decls [Hd Hb] _ IH]; [reflexivity|].
  cbn [map Py.concat fold_right].
  fold (Py.concat (map (section_text rel_path existing llm) decls)).
  rewrite (parse_headers_section _ _ _ _ _ Hd Hb), IH. reflexivity.
Qed.

Lemma parse_headers_title rel_path :
  lacks Py.LF rel_path = true -> parse_headers ("# " ++ rel_path) = [].
Proof.
  intros H. unfold parse_headers. rewrite split_nl_single.
  - reflexivity.
  - rewrite lacks_app, H. reflexivity.
Qed.

Lemma template_heading_shape template :
  exists h, template_heading template = h ++ nl2 /\ parse_headers h = [].
Proof.
  unfold template_heading.
  destruct (String.eqb template "api");
    [|destruct (String.eqb template "class_breakdown")];
    eexists; split; reflexivity.
Qed.

(** C9, as it can hold: when the path has no line feed, every declaration
    is [header_safe] and no line of a section body reads as a header, the
    headers read back from the rendered document are the (kind, name, start,
    end) of the declarations, in order. *)
Theorem headers_round_trip rel_path language text decls existing llm template :
  lacks Py.LF rel_path = true ->
  Forall (fun d => header_safe d
                   /\ parse_headers (section_body rel_path existing llm d) = [])
         decls ->
  parse_headers
    (_render_markdown_for_file rel_path language text decls existing llm template)
  = map decl_tuple decls.
Proof.
  intros Hp Hd.
  destruct (template_heading_shape template) as (h & Hh & Hh0).
  assert (Hpre : forall rest,
            parse_headers (page_title rel_path ++ template_heading template ++ rest)
            = parse_headers rest).
  { intros rest. unfold page_title. rewrite Hh.
    replace (("# " ++ rel_path ++ nl2) ++ (h ++ nl2) ++ rest)
      with (("# " ++ rel_path) ++ nl2 ++ h ++ nl2 ++ rest)
      by (rewrite !append_assoc; reflexivity).
    rewrite !parse_headers_nl2, Hh0, (parse_headers_title _ Hp). reflexivity. }
  destruct decls as [|d decls].
  - unfold _render_markdown_for_file. cbn [app Py.concat fold_right].
    rewrite Hpre. reflexivity.
  - rewrite render_sections by discriminate.
    rewrite Hpre. apply parse_headers_sections, Hd.
Qed.

Lemma headers_round_trip_witness :
  parse_headers
    (_render_markdown_for_file "app.py" "python" sample_src
       [Decl "class" "A" (Some 1) (Some 10); Decl "def" "b" (Some 3) (Some 5)]
       ∅ ∅ "api")
  = map decl_tuple
      [Decl "class" "A" (Some 1) (Some 10); Decl "def" "b" (Some 3) (Some 5)].
Proof.
  apply (headers_round_trip "app.py" "python" sample_src
           [Decl "class" "A" (Some 1) (Some 10); Decl "def" "b" (Some 3) (Some 5)]
           ∅ ∅ "api").
  - reflexivity.
  - repeat (constructor;
            [split; [unfold header_safe; cbn; repeat split; (reflexivity || lia)
                    |vm_compute; reflexivity]|]).
    constructor.
Defined.

(** C9 as it is written fails: bodies are copied into the document as they
    are, so a body with a header-like line renders exactly like a document
    with one more section; no reader of the document can tell the two
    apart. *)
Lemma headers_do_not_round_trip :
  _render_markdown_for_file "m.py" "python" "" [decl_f] forged_docs ∅ "api"
  = _render_markdown_for_file "m.py" "python" "" [decl_f; decl_g] plain_docs ∅ "api"
  /\ parse_headers
       (_render_markdown_for_file "m.py" "python" "" [decl_f] forged_docs ∅ "api")
     = [("def", "f", 1, 2); ("def", "g", 3, 4)]
  /\ map decl_tuple [decl_f] = [("def", "f", 1, 2)]
  /\ ~ exists reader : string -> list (string * string * Z * Z),
        forall rel_path language text decls existing llm template,
          reader (_render_markdown_for_file rel_path language text decls
                    existing llm template)
          = map decl_tuple decls.
Proof.
  assert (E : _render_markdown_for_file "m.py" "python" "" [decl_f] forged_docs ∅ "api"
              = _render_markdown_for_file "m.py" "python" "" [decl_f; decl_g]
                  plain_docs ∅ "api") by (vm_compute; reflexivity).
  split; [exact E|]. split; [vm_compute; reflexivity|].
  split; [reflexivity|].
  intros [reader H].
  pose proof (H "m.py" "python" "" [decl_f] forged_docs ∅ "api") as H1.
  pose proof (H "m.py" "python" "" [decl_f; decl_g] plain_docs ∅ "api") as H2.
  rewrite E, H2 in H1. discriminate.
Qed.

End HeaderFacts.

(* ===================================================================== *)
(** * Further properties of the code *)
(* ===================================================================== *)


Module GitModuleProps.
Import Re Ast GitModule PyFacts Samples AstFacts GitModuleFacts.

(** *** The diff hunk parser *)

(** X1: a patch none of whose lines is a hunk header gives no change at all,
    whatever its lines start with. *)
Theorem no_hunk_no_changes patch_text :
  Forall (fun l => pmatch hunk_re l = None) (Py.splitlines patch_text) ->
  parse_patch_for_changes patch_text = [].
Proof.
  unfold parse_patch_for_changes.
  induction 1 as [|l lines Hl _ IH]; [reflexivity|].
  cbn [length parse_loop]. rewrite Hl. exact IH.
Qed.

Lemma no_hunk_no_changes_witness : parse_patch_for_changes rename_patch = [].
Proof.
  apply (no_hunk_no_changes rename_patch). vm_compute. repeat constructor.
Defined.

Lemma hunk_body_linenos lines : forall o n,
  let cs := (hunk_body o n lines).1 in
  (StronglySorted Z.lt (del_linenos cs) /\ Forall (fun x => o <= x) (del_linenos cs))
  /\ (StronglySorted Z.lt (add_linenos cs) /\ Forall (fun x => n <= x) (add_linenos cs)).
Proof.
  induction lines as [|l lines IH]; intros o n; cbn [hunk_body].
  - cbn. repeat split; constructor.
  - destruct (Py.startswith "@@ " l); [cbn; repeat split; constructor|].
    destruct (is_add_line l).
    + specialize (IH o (n + 1)). destruct (hunk_body o (n + 1) lines) as [cs r].
      cbn [fst] in *. destruct IH as [[Hd1 Hd2] [Ha1 Ha2]].
      unfold del_linenos, add_linenos in *. cbn [List.filter is_del is_add c_type map].
      split; [split; assumption|]. split.
      * constructor; [exact Ha1|].
        eapply Forall_impl; [exact Ha2|]. cbn. intros; lia.
      * constructor; [cbn; lia|]. eapply Forall_impl; [exact Ha2|]. cbn. intros; lia.
    + destruct (is_del_line l).
      * specialize (IH (o + 1) n). destruct (hunk_body (o + 1) n lines) as [cs r].
        cbn [fst] in *. destruct IH as [[Hd1 Hd2] [Ha1 Ha2]].
        unfold del_linenos, add_linenos in *. cbn [List.filter is_del is_add c_type map].
        split; [|split; assumption]. split.
        -- constructor; [exact Hd1|].
           eapply Forall_impl; [exact Hd2|]. cbn. intros; lia.
        -- constructor; [cbn; lia|]. eapply Forall_impl; [exact Hd2|]. cbn. intros; lia.
      * specialize (IH (o + 1) (n + 1)). cbn zeta in IH.
        destruct IH as [[Hd1 Hd2] [Ha1 Ha2]].
        repeat split; try assumption;
          (eapply Forall_impl; [eassumption|]; cbn; intros; lia).
Qed.

(** X2: within one hunk the recorded line numbers of the deletions increase
    strictly and start no lower than the old start of the hunk, and those
    of the additions increase strictly and start no lower than the new
    start. *)
Theorem hunk_line_numbers_increase o n lines :
  let cs := (hunk_body o n lines).1 in
  StronglySorted Z.lt (del_linenos cs)
  /\ Forall (fun x => o <= x) (del_linenos cs)
  /\ StronglySorted Z.lt (add_linenos cs)
  /\ Forall (fun x => n <= x) (add_linenos cs).
Proof.
  intros cs. destruct (hunk_body_linenos lines o n) as [[H1 H2] [H3 H4]].
  auto.
Qed.

Lemma hunk_body_from_lines lines : forall o n,
  (forall c, In c (hunk_body o n lines).1 -> exists l, In l lines /\ from_line c l)
  /\ (forall l, In l (hunk_body o n lines).2 -> In l lines).
Proof.
  induction lines as [|l lines IH]; intros o n; cbn [hunk_body].
  - split; intros ? [].
  - destruct (Py.startswith "@@ " l); [split; [intros ? []|auto]|].
    destruct (is_add_line l) eqn:Ea.
    + specialize (IH o (n + 1)). destruct (hunk_body o (n + 1) lines) as [cs r].
      cbn [fst snd] in *. destruct IH as [IH1 IH2]. split.
      * intros c [<-|Hc].
        -- exists l. split; [left; reflexivity|]. split; [reflexivity|exact Ea].
        -- destruct (IH1 c Hc) as (l' & Hl' & Hf). exists l'. split; [right|]; assumption.
      * intros l' Hl'. right. apply IH2, Hl'.
    + destruct (is_del_line l) eqn:Ed.
      * specialize (IH (o + 1) n). destruct (hunk_body (o + 1) n lines) as [cs r].
        cbn [fst snd] in *. destruct IH as [IH1 IH2]. split.
        -- intros c [<-|Hc].
           ++ exists l. split; [left; reflexivity|]. split; [reflexivity|exact Ed].
           ++ destruct (IH1 c Hc) as (l' & Hl' & Hf). exists l'. split; [right|]; assumption.
        -- intros l' Hl'. right. apply IH2, Hl'.
      * destruct (IH (o + 1) (n + 1)) as [IH1 IH2]. split.
        -- intros c Hc. destruct (IH1 c Hc) as (l' & Hl' & Hf).
           exists l'. split; [right|]; assumption.
        -- intros l' Hl'. right. apply IH2, Hl'.
Qed.

Lemma parse_loop_from_lines fuel : forall lines c,
  In c (parse_loop fuel lines) -> exists l, In l lines /\ from_line c l.
Proof.
  induction fuel as [|fuel IH]; intros lines c; cbn [parse_loop]; [intros []|].
  destruct lines as [|l lines]; [intros []|].
  destruct (pmatch hunk_re l) as [m|].
  - destruct (hunk_body_from_lines lines (Py.int (default "" (group 1 m)))
                (Py.int (default "" (group 3 m)))) as [H1 H2].
    destruct (hunk_body _ _ lines) as [cs r]. cbn [fst snd] in *.
    intros Hc. apply in_app_or in Hc as [Hc|Hc].
    + destruct (H1 c Hc) as (l' & Hl' & Hf). exists l'. split; [right|]; assumption.
    + destruct (IH r c Hc) as (l' & Hl' & Hf). exists l'.
      split; [right; apply H2|]; assumption.
  - intros Hc. destruct (IH lines c Hc) as (l' & Hl' & Hf).
    exists l'. split; [right|]; assumption.
Qed.

(** X3: every change comes from a line of the patch that starts with the
    marker of its type but not with the tripled marker of a file header,
    and its content is that line without its first character. *)
Theorem changes_come_from_marked_lines patch_text c :
  In c (parse_patch_for_changes patch_text) ->
  exists l,
    In l (Py.splitlines patch_text)
    /\ c_content c = Py.tail1 l
    /\ match c_type c with
       | Add => Py.startswith "+" l = true /\ Py.startswith "+++" l = false
       | Del => Py.startswith "-" l = true /\ Py.startswith "---" l = false
       end.
Proof.
  intros Hc. apply parse_loop_from_lines in Hc as (l & Hl & Hcont & Hmark).
  exists l. split; [exact Hl|]. split; [exact Hcont|].
  destruct (c_type c); unfold is_add_line, is_del_line in Hmark;
    apply andb_true_iff in Hmark as [H1 H2]; apply negb_true_iff in H2; auto.
Qed.

Lemma changes_come_from_marked_lines_witness :
  exists l,
    In l (Py.splitlines sample_patch)
    /\ c_content (Change Add 8 "e") = Py.tail1 l
    /\ (Py.startswith "+" l = true /\ Py.startswith "+++" l = false).
Proof.
  apply (changes_come_from_marked_lines sample_patch (Change Add 8 "e")).
  vm_compute. tauto.
Defined.

End GitModuleProps.

Module ScopeProps.
Import Re Ast GitModule PyFacts Samples AstFacts GitModuleFacts.

(** *** The structural resolver *)

Lemma walk_go_origin fuel : forall todo r,
  r ∈ walk_go fuel todo ->
  r ∈ todo \/ exists pr, pr ∈ walk_go fuel todo /\ r ∈ child_refs pr.
Proof.
  induction fuel as [|fuel IH]; intros todo r; cbn [walk_go].
  - intros H. inversion H.
  - destruct todo as [|r0 todo]; [intros H; inversion H|].
    intros H. apply elem_of_cons in H as [->|H].
    + left. left.
    + apply IH in H as [H|(pr & Hpr & Hc)].
      * apply elem_of_app in H as [H|H].
        -- left. right. exact H.
        -- right. exists r0. split; [left|exact H].
      * right. exists pr. split; [right; exact Hpr|exact Hc].
Qed.

Lemma walk_origin tree r :
  r ∈ walk tree ->
  r = ([], tree) \/ exists pr, pr ∈ walk tree /\ r ∈ child_refs pr.
Proof.
  intros H. apply walk_go_origin in H as [H|H]; [left|right; exact H].
  apply list_elem_of_singleton in H. exact H.
Qed.

Lemma tokens_below_snoc p : forall t m i c,
  subtree t p = Some m -> n_children m !! i = Some c ->
  tokens_below t (p ++ [i]) = (tokens_below t p ++ chain_token c)%list.
Proof.
  induction p as [|j p IH]; intros t m i c; cbn [subtree tokens_below app].
  - intros [= <-] ->. rewrite app_nil_r. reflexivity.
  - destruct (n_children t !! j) as [c'|]; [|discriminate].
    intros Hs Hc. rewrite (IH _ _ _ _ Hs Hc), app_assoc. reflexivity.
Qed.

Lemma chain_token_rev n : rev (chain_token n) = chain_token n.
Proof. unfold chain_token. destruct (n_kind n); reflexivity. Qed.

Lemma chain_up_tokens tree fuel : forall r chain,
  r ∈ walk tree -> (length r.1 < fuel)%nat ->
  chain_up fuel (build_parent tree) r chain
  = (chain ++ rev (tokens_below tree r.1))%list.
Proof.
  induction fuel as [|fuel IH]; intros r chain Hr Hlen; [lia|].
  cbn [chain_up].
  destruct (walk_origin tree r Hr) as [->|(pr & Hpr & Hc)].
  - cbn [fst]. destruct (build_parent tree !! []) as [pr|] eqn:E.
    + apply build_parent_inv in E as [_ [i Hi]]. destruct (pr.1); discriminate.
    + cbn. rewrite app_nil_r. reflexivity.
  - rewrite (build_parent_child tree pr r Hpr Hc).
    apply child_refs_lookup in Hc as (i & Hp & Hi).
    rewrite Hp in *. rewrite length_app in Hlen. cbn in Hlen.
    rewrite IH; [|exact Hpr|lia].
    assert (Hs : sound tree pr).
    { pose proof (walk_sound tree) as Hall. rewrite Forall_forall in Hall.
      apply Hall, Hpr. }
    rewrite (tokens_below_snoc _ _ _ _ _ Hs Hi).
    rewrite rev_app_distr, chain_token_rev, app_assoc. reflexivity.
Qed.

(** X4: when the structural resolver finds a declaration, the chain is the
    tokens of the declarations on the path from the root of the tree down
    to the innermost candidate, in that order; it ends with the token of
    that candidate, so it is never empty and the result is never
    ["module"]. *)
Theorem structural_chain_is_path_from_root ast_parse src target tree chain :
  ast_parse src = Some tree ->
  is_decl (n_kind tree) = false ->
  python_chain_tokens ast_parse src target = Some chain ->
  exists r,
    pick_innermost (List.filter (is_candidate target) (walk tree)) = Some r
    /\ sound tree r
    /\ chain = tokens_below tree r.1
    /\ (exists outer, chain = (outer ++ chain_token r.2)%list)
    /\ chain <> []
    /\ find_enclosing_python_chain ast_parse src target
       = Some (Py.join " -> " chain).
Proof.
  intros Hparse Hroot. unfold find_enclosing_python_chain, python_chain_tokens.
  rewrite Hparse.
  destruct (pick_innermost _) as [r|] eqn:Hpick; [|discriminate].
  assert (Hin : r ∈ List.filter (is_candidate target) (walk tree)).
  { unfold pick_innermost in Hpick.
    destruct (List.filter _ _) as [|x l]; [discriminate|].
    injection Hpick as <-.
    destruct (max_from_spec l x) as [H _]. apply list_elem_of_In. exact H. }
  apply list_elem_of_In, filter_In in Hin as [Hw Hcand].
  apply list_elem_of_In in Hw.
  assert (Hs : sound tree r).
  { pose proof (walk_sound tree) as Hall. rewrite Forall_forall in Hall.
    apply Hall, Hw. }
  rewrite chain_up_tokens by (auto; lia).
  cbn [app]. rewrite rev_involutive.
  intros Hc. apply (inj Some) in Hc. subst chain. exists r.
  assert (Hdecl : is_decl (n_kind r.2) = true).
  { unfold is_candidate in Hcand. apply andb_true_iff in Hcand. tauto. }
  assert (Htok : chain_token r.2 <> []).
  { unfold chain_token. destruct (n_kind r.2); cbn in Hdecl; congruence. }
  assert (Hex : exists outer, tokens_below tree r.1 = (outer ++ chain_token r.2)%list).
  { destruct (walk_origin tree r Hw) as [->|(pr & Hpr & Hc)].
    - cbn in Hdecl. congruence.
    - apply child_refs_lookup in Hc as (i & Hp & Hi).
      assert (Hsp : sound tree pr).
      { pose proof (walk_sound tree) as Hall. rewrite Forall_forall in Hall.
        apply Hall, Hpr. }
      rewrite Hp, (tokens_below_snoc _ _ _ _ _ Hsp Hi). eauto. }
  assert (Hne : tokens_below tree r.1 <> []).
  { destruct Hex as [outer ->]. intros H. apply app_eq_nil in H. tauto. }
  repeat split; try assumption.
  cbn [fmap option_fmap option_map]. unfold render_chain.
  destruct (tokens_below tree r.1); [congruence|reflexivity].
Qed.

(** *** The heuristic resolver *)

Lemma fold_chain_step_decls l : forall acc m,
  (fold_left chain_step_decls l (acc, m)).1 = (acc ++ select_below m l)%list.
Proof.
  induction l as [|d l IH]; intros acc m; cbn [fold_left select_below].
  - cbn. rewrite app_nil_r. reflexivity.
  - unfold chain_step_decls at 2. cbn [fst snd].
    destruct (r_indent d <? m) eqn:E.
    + rewrite IH, <- app_assoc. reflexivity.
    + apply IH.
Qed.

Lemma fold_chain_step_tokens l : forall acc m,
  (fold_left chain_step l (acc, m)).1
  = (acc ++ map rtoken (select_below m l))%list.
Proof.
  induction l as [|d l IH]; intros acc m; cbn [fold_left select_below].
  - cbn. rewrite app_nil_r. reflexivity.
  - unfold chain_step at 2. cbn [fst snd].
    destruct (r_indent d <? m) eqn:E.
    + rewrite IH, <- app_assoc. reflexivity.
    + apply IH.
Qed.

Lemma select_below_sublist l : forall m, sublist (select_below m l) l.
Proof.
  induction l as [|d l IH]; intros m; cbn [select_below]; [constructor|].
  destruct (r_indent d <? m); [apply sublist_skip|apply sublist_cons]; apply IH.
Qed.

Lemma select_below_bound l : forall m,
  Forall (fun d => r_indent d < m) (select_below m l).
Proof.
  induction l as [|d l IH]; intros m; cbn [select_below]; [constructor|].
  destruct (r_indent d <? m) eqn:E; [|apply IH].
  apply Z.ltb_lt in E. constructor; [exact E|].
  eapply Forall_impl; [apply IH|]. cbn. intros; lia.
Qed.

Lemma select_below_decreasing l : forall m,
  StronglySorted (fun d e => r_indent e < r_indent d) (select_below m l).
Proof.
  induction l as [|d l IH]; intros m; cbn [select_below]; [constructor|].
  destruct (r_indent d <? m); [|apply IH].
  constructor; [apply IH|apply select_below_bound].
Qed.

Lemma StronglySorted_snoc {A} (R : A -> A -> Prop) l x :
  StronglySorted R l -> Forall (fun y => R y x) l -> StronglySorted R (l ++ [x]).
Proof.
  induction 1 as [|a l Hs IH Ha]; intros Hx; cbn [app].
  - repeat constructor.
  - inversion Hx as [|? ? Hax Hlx]; subst. constructor; [apply IH, Hlx|].
    apply Forall_app. split; [exact Ha|]. repeat constructor. exact Hax.
Qed.

Lemma StronglySorted_rev {A} (R : A -> A -> Prop) l :
  StronglySorted R l -> StronglySorted (fun a b => R b a) (rev l).
Proof.
  induction 1 as [|a l Hs IH Ha]; cbn [rev]; [constructor|].
  apply StronglySorted_snoc; [exact IH|].
  apply Forall_forall. intros y Hy. rewrite Forall_forall in Ha.
  apply Ha. apply list_elem_of_In, in_rev, list_elem_of_In, Hy.
Qed.

Lemma sublist_rev {A} (l1 l2 : list A) :
  sublist l1 l2 -> sublist (rev l1) (rev l2).
Proof.
  induction 1 as [|x l1 l2 H IH|x l1 l2 H IH]; cbn [rev].
  - constructor.
  - apply sublist_app; [exact IH|reflexivity].
  - apply sublist_inserts_r, IH.
Qed.

Lemma last_rev {A} (l : list A) : last (rev l) = head l.
Proof. destruct l as [|a l]; [reflexivity|]. cbn [rev head]. apply last_snoc. Qed.

Lemma head_rev {A} (l : list A) : head (rev l) = last l.
Proof. rewrite <- (rev_involutive l) at 2. symmetry. apply last_rev. Qed.

Lemma regex_chain_decls_eq prev :
  regex_chain_decls prev = rev (select_below (10 ^ 9) (rev prev)).
Proof. unfold regex_chain_decls. rewrite fold_chain_step_decls. reflexivity. Qed.

(** X5: the chain of the heuristic resolver names a subsequence of the
    declarations at or before the target line, in source order, with
    strictly increasing indentation, and its last element is the last of
    those declarations. *)
Theorem heuristic_chain_shape prev :
  Forall (fun d => r_indent d < 10 ^ 9) prev ->
  let ds := regex_chain_decls prev in
  regex_chain_tokens prev = map rtoken ds
  /\ sublist ds prev
  /\ StronglySorted indent_lt ds
  /\ last ds = last prev.
Proof.
  intros Hb ds. subst ds. rewrite regex_chain_decls_eq.
  repeat split.
  - unfold regex_chain_tokens. rewrite fold_chain_step_tokens. cbn [app].
    rewrite map_rev. reflexivity.
  - rewrite <- (rev_involutive prev) at 2. apply sublist_rev, select_below_sublist.
  - apply (StronglySorted_rev (fun d e => r_indent e < r_indent d)).
    apply select_below_decreasing.
  - rewrite last_rev, <- head_rev.
    destruct (rev prev) as [|d l] eqn:E; [reflexivity|].
    cbn [select_below head].
    assert (Hd : r_indent d < 10 ^ 9).
    { rewrite Forall_forall in Hb. apply Hb.
      apply list_elem_of_In, in_rev. rewrite E. left. reflexivity. }
    apply Z.ltb_lt in Hd. rewrite Hd. reflexivity.
Qed.

Lemma heuristic_chain_shape_witness :
  regex_chain_tokens sample_prev = map rtoken (regex_chain_decls sample_prev)
  /\ sublist (regex_chain_decls sample_prev) sample_prev
  /\ StronglySorted indent_lt (regex_chain_decls sample_prev)
  /\ last (regex_chain_decls sample_prev) = last sample_prev.
Proof.
  apply (heuristic_chain_shape sample_prev).
  repeat constructor.
Defined.

Lemma structural_chain_is_path_from_root_witness :
  exists r,
    pick_innermost (List.filter (is_candidate 4) (walk sample_tree)) = Some r
    /\ sound sample_tree r
    /\ ["class A"; "def b"] = tokens_below sample_tree r.1
    /\ (exists outer, ["class A"; "def b"] = (outer ++ chain_token r.2)%list)
    /\ ["class A"; "def b"] <> []
    /\ find_enclosing_python_chain sample_parse sample_src 4
       = Some (Py.join " -> " ["class A"; "def b"]).
Proof.
  apply (structural_chain_is_path_from_root sample_parse sample_src 4 sample_tree
           ["class A"; "def b"]); vm_compute; reflexivity.
Defined.

End ScopeProps.

Module ContextProps.
Import Re Ast GitModule PyFacts Samples AstFacts GitModuleFacts.

(** X6: for a line number inside the file the context is a run of
    consecutive lines of the file: the changed line, the two lines before
    it and the two after it, fewer where the file begins or ends. *)
Theorem context_window (src_lines : list string) lineno :
  1 <= lineno <= Z.of_nat (length src_lines) ->
  exists pre before line after post,
    src_lines = (pre ++ before ++ line :: after ++ post)%list
    /\ context_lines src_lines lineno = (before ++ line :: after)%list
    /\ Z.of_nat (length (pre ++ before)%list) = lineno - 1
    /\ Z.of_nat (length before) = Z.min 2 (lineno - 1)
    /\ Z.of_nat (length after)
       = Z.min 2 (Z.of_nat (length src_lines) - lineno).
Proof.
  intros Hr.
  set (n := length src_lines) in *.
  set (k := Z.to_nat (lineno - 1)).
  set (s := Z.to_nat (Z.max 0 (lineno - 3))).
  set (e := Z.to_nat (Z.min (Z.of_nat n) (lineno + 2))).
  assert (Hk : (k < n)%nat) by lia.
  destruct (lookup_lt_is_Some_2 src_lines k Hk) as [line Hline].
  exists (take s src_lines), (take (k - s) (drop s src_lines)), line,
    (take (e - S k) (drop (S k) src_lines)), (drop e src_lines).
  assert (Hdec : drop s src_lines
    = (take (k - s) (drop s src_lines) ++ line
       :: take (e - S k) (drop (S k) src_lines) ++ drop e src_lines)%list).
  { rewrite <- (take_drop (k - s) (drop s src_lines)) at 1. f_equal.
    rewrite drop_drop. replace (s + (k - s))%nat with k by lia.
    rewrite (drop_S _ _ _ Hline). f_equal.
    rewrite <- (take_drop (e - S k) (drop (S k) src_lines)) at 1. f_equal.
    rewrite drop_drop. f_equal. lia. }
  assert (Hlb : length (take (k - s) (drop s src_lines)) = (k - s)%nat).
  { rewrite length_take, length_drop. fold n. lia. }
  assert (Hla : length (take (e - S k) (drop (S k) src_lines)) = (e - S k)%nat).
  { rewrite length_take, length_drop. fold n. lia. }
  split; [|split; [|split; [|split]]].
  - rewrite <- Hdec, take_drop. reflexivity.
  - unfold context_lines, py_slice, slice_index, Py.slice. fold n.
    destruct (Z.max 0 (lineno - 3) <? 0) eqn:E1; [lia|].
    destruct (Z.min (Z.of_nat n) (lineno + 2) <? 0) eqn:E2; [lia|].
    replace (Z.to_nat (Z.min (Z.max 0 (lineno - 3)) (Z.of_nat n))) with s by lia.
    replace (Z.to_nat (Z.min (Z.min (Z.of_nat n) (lineno + 2)) (Z.of_nat n)
                       - Z.min (Z.max 0 (lineno - 3)) (Z.of_nat n)))
      with (e - s)%nat by lia.
    rewrite Hdec at 1.
    replace (take (k - s) (drop s src_lines) ++ line
       :: take (e - S k) (drop (S k) src_lines) ++ drop e src_lines)%list
      with ((take (k - s) (drop s src_lines) ++ line
       :: take (e - S k) (drop (S k) src_lines)) ++ drop e src_lines)%list
      by (rewrite <- app_assoc; reflexivity).
    apply take_app_length'.
    rewrite length_app. cbn [length]. rewrite Hlb, Hla. lia.
  - rewrite length_app, Hlb, length_take. fold n. lia.
  - rewrite Hlb. lia.
  - rewrite Hla. lia.
Qed.

Lemma context_window_witness :
  exists pre before line after post,
    ["a"; "b"; "c"; "d"; "e"; "f"; "g"]
      = (pre ++ before ++ line :: after ++ post)%list
    /\ context_lines ["a"; "b"; "c"; "d"; "e"; "f"; "g"] 4
       = (before ++ line :: after)%list
    /\ Z.of_nat (length (pre ++ before)%list) = 4 - 1
    /\ Z.of_nat (length before) = Z.min 2 (4 - 1)
    /\ Z.of_nat (length after)
       = Z.min 2 (Z.of_nat (length ["a"; "b"; "c"; "d"; "e"; "f"; "g"]) - 4).
Proof.
  apply (context_window ["a"; "b"; "c"; "d"; "e"; "f"; "g"] 4). cbn. lia.
Defined.

Section Aggregator.

Variable ast_parse : string -> option node.
Variable load_file_at_commit : string -> string -> option string.
Variable commit_sha parent_sha : string.

(** X7: every collected context stems from one change of one diff; for an
    addition the file is the [b_path] of the diff read at the commit, for a
    deletion its [a_path] read at the parent; the path is not empty and
    the file could be loaded there; line number, changed line, snippet and
    chain are those of the change in the loaded text. *)
Theorem contexts_follow_changes diffs rc :
  In rc (collect_contexts ast_parse load_file_at_commit commit_sha parent_sha diffs) ->
  exists d ch file_text,
    In d diffs
    /\ In ch (parse_patch_for_changes (diff_text d))
    /\ match c_type ch with
       | Add => b_path d = Some (rc_file_path rc) /\ rc_ref rc = commit_sha
       | Del => a_path d = Some (rc_file_path rc) /\ rc_ref rc = parent_sha
       end
    /\ rc_file_path rc <> ""
    /\ load_file_at_commit (rc_file_path rc) (rc_ref rc) = Some file_text
    /\ rc_change_type rc = c_type ch
    /\ rc_lineno rc = c_lineno ch
    /\ rc_changed_line rc = c_content ch
    /\ rc_context rc
       = Py.join Py.nl (context_lines (Py.splitlines file_text) (c_lineno ch))
    /\ rc_enclosing_chain rc
       = enclosing_chain ast_parse (rc_file_path rc) file_text (c_lineno ch)
    /\ rc_commit rc = commit_sha
    /\ rc_parent_commit rc = parent_sha.
Proof.
  unfold collect_contexts, diff_contexts. intros H.
  apply in_flat_map in H as (d & Hd & H).
  apply in_flat_map in H as (ch & Hch & H).
  unfold change_context in H.
  destruct (c_type ch) eqn:Et.
  - destruct (b_path d) as [path|] eqn:Ep; [|destruct H].
    destruct (Py.truthy path) eqn:Etr; cbn [negb] in H; [|destruct H].
    destruct (load_file_at_commit path commit_sha) as [txt|] eqn:El; [|destruct H].
    destruct H as [<-|[]]. exists d, ch, txt. cbn. rewrite Et.
    repeat split; try assumption; try reflexivity.
    intros ->. discriminate.
  - destruct (a_path d) as [path|] eqn:Ep; [|destruct H].
    destruct (Py.truthy path) eqn:Etr; cbn [negb] in H; [|destruct H].
    destruct (load_file_at_commit path parent_sha) as [txt|] eqn:El; [|destruct H].
    destruct H as [<-|[]]. exists d, ch, txt. cbn. rewrite Et.
    repeat split; try assumption; try reflexivity.
    intros ->. discriminate.
Qed.

End Aggregator.

Lemma contexts_follow_changes_witness :
  exists d ch file_text,
    In d sample_diffs
    /\ In ch (parse_patch_for_changes (diff_text d))
    /\ match c_type ch with
       | Add => b_path d = Some (rc_file_path sample_context)
                /\ rc_ref sample_context = "c1"
       | Del => a_path d = Some (rc_file_path sample_context)
                /\ rc_ref sample_context = "p0"
       end
    /\ rc_file_path sample_context <> ""
    /\ sample_load (rc_file_path sample_context) (rc_ref sample_context)
       = Some file_text
    /\ rc_change_type sample_context = c_type ch
    /\ rc_lineno sample_context = c_lineno ch
    /\ rc_changed_line sample_context = c_content ch
    /\ rc_context sample_context
       = Py.join Py.nl (context_lines (Py.splitlines file_text) (c_lineno ch))
    /\ rc_enclosing_chain sample_context
       = enclosing_chain sample_parse (rc_file_path sample_context) file_text
           (c_lineno ch)
    /\ rc_commit sample_context = "c1"
    /\ rc_parent_commit sample_context = "p0".
Proof.
  apply (contexts_follow_changes sample_parse sample_load "c1" "p0" sample_diffs
           sample_context).
  vm_compute. left. reflexivity.
Defined.

End ContextProps.

Module PathProps.
Import Re Ast Langraph Docgen DocgenExports PyFacts Samples HeaderFacts.

Lemma rfind_go_lacks c n : forall i found,
  lacks c n = true -> Py.rfind_go c n i found = found.
Proof.
  induction n as [|d n IH]; intros i found H; [reflexivity|].
  cbn [lacks] in H. apply andb_true_iff in H as [Hd Hn].
  cbn [Py.rfind_go]. rewrite Ascii.eqb_sym.
  apply negb_true_iff in Hd. rewrite Hd. apply IH, Hn.
Qed.

Lemma rfind_go_last c n a : forall i found,
  lacks c n = true ->
  Py.rfind_go c (a ++ String c n) i found = Some (i + String.length a)%nat.
Proof.
  induction a as [|d a IH]; intros i found H.
  - rewrite append_nil_l. cbn [Py.rfind_go]. rewrite Ascii.eqb_refl.
    rewrite rfind_go_lacks by exact H. cbn. f_equal. lia.
  - rewrite append_cons. cbn [Py.rfind_go String.length]. rewrite IH by exact H.
    f_equal. lia.
Qed.

Lemma rfind_last c n a :
  lacks c n = true -> Py.rfind c (a ++ String c n) = Some (String.length a).
Proof. intros H. unfold Py.rfind. rewrite rfind_go_last by exact H. reflexivity. Qed.

Lemma rfind_none c n : lacks c n = true -> Py.rfind c n = None.
Proof. intros H. apply rfind_go_lacks, H. Qed.

Lemma drop_str_app a b : Py.drop_str (String.length a) (a ++ b) = b.
Proof.
  unfold Py.drop_str. rewrite substring_skip, length_append.
  replace (String.length a + String.length b - String.length a)%nat
    with (String.length b) by lia.
  apply substring_all.
Qed.

Lemma drop_str_app_S a c b :
  Py.drop_str (S (String.length a)) (a ++ String c b) = b.
Proof.
  replace (a ++ String c b) with ((a ++ String c "") ++ b)
    by (rewrite append_assoc, append_cons, append_nil_l; reflexivity).
  replace (S (String.length a)) with (String.length (a ++ String c ""))
    by (rewrite length_append; cbn; lia).
  apply drop_str_app.
Qed.

Lemma path_name_join dir name :
  lacks "/" name = true -> Py.path_name (dir ++ "/" ++ name) = name.
Proof.
  intros H. unfold Py.path_name. rewrite append_cons, append_nil_l.
  rewrite rfind_last by exact H. apply drop_str_app_S.
Qed.

Lemma path_suffix_join dir stem ext :
  stem <> "" -> ext <> "" ->
  lacks "/" stem = true -> lacks "/" ext = true -> lacks "." ext = true ->
  Py.path_suffix (dir ++ "/" ++ stem ++ "." ++ ext) = "." ++ ext.
Proof.
  intros Hs He Hls Hle Hde. unfold Py.path_suffix.
  rewrite path_name_join.
  2:{ rewrite lacks_app, Hls. rewrite append_cons, append_nil_l. cbn [lacks andb].
      exact Hle. }
  rewrite (append_cons _ "" ext), append_nil_l.
  rewrite rfind_last by exact Hde.
  rewrite length_append. cbn [String.length].
  destruct stem as [|c stem]; [congruence|]. destruct ext as [|e ext]; [congruence|].
  cbn [String.length].
  replace ((0 <? S (String.length stem))%nat) with true by (symmetry; apply Nat.ltb_lt; lia).
  replace ((S (String.length stem) <? S (String.length stem) + S (S (String.length ext)) - 1)%nat)
    with true by (symmetry; apply Nat.ltb_lt; lia).
  cbn [andb].
  change (S (String.length stem)) with (String.length (String c stem)).
  apply drop_str_app.
Qed.

Lemma lower_dot ext : Py.lower ("." ++ ext) = "." ++ Py.lower ext.
Proof. rewrite append_cons, append_nil_l. reflexivity. Qed.

Lemma dotted_name_is_no_key stem ext :
  stem <> "" -> assoc (stem ++ "." ++ ext) _EXT_LANG = None.
Proof.
  intros Hs. destruct stem as [|c stem]; [congruence|].
  assert (Hd : lacks "." (Py.tail1 (String c stem ++ "." ++ ext)) = false).
  { rewrite append_cons. cbn [Py.tail1]. rewrite lacks_app.
    rewrite (append_cons _ "" ext), append_nil_l. cbn [lacks].
    rewrite Ascii.eqb_refl. cbn. apply andb_false_r. }
  unfold _EXT_LANG. cbn [assoc].
  repeat match goal with
  | |- context [String.eqb ?a ?k] =>
      let E := fresh "E" in
      destruct (String.eqb a k) eqn:E;
      [apply String.eqb_eq in E; rewrite E in Hd; vm_compute in Hd; discriminate|]
  end.
  reflexivity.
Qed.

(** X8: for a file name with a non-empty stem and extension the language is
    looked up under the lower-cased last extension alone; directory, stem
    and letter case of the extension do not matter. *)
Theorem language_is_decided_by_extension dir stem ext :
  stem <> "" -> ext <> "" ->
  lacks "/" stem = true -> lacks "/" ext = true -> lacks "." ext = true ->
  detect_language_from_path (dir ++ "/" ++ stem ++ "." ++ ext)
  = default "unknown" (assoc ("." ++ Py.lower ext) _EXT_LANG).
Proof.
  intros Hs He Hls Hle Hde. unfold detect_language_from_path.
  rewrite path_suffix_join by assumption.
  rewrite path_name_join.
  2:{ rewrite lacks_app, Hls. rewrite append_cons, append_nil_l. cbn [lacks andb].
      exact Hle. }
  rewrite dotted_name_is_no_key by exact Hs.
  rewrite lower_dot. reflexivity.
Qed.

Lemma language_is_decided_by_extension_witness :
  detect_language_from_path ("repo/src" ++ "/" ++ "Main" ++ "." ++ "PY")
  = default "unknown" (assoc ("." ++ Py.lower "PY") _EXT_LANG).
Proof.
  apply (language_is_decided_by_extension "repo/src" "Main" "PY");
    (discriminate || reflexivity).
Defined.

(** *** Export paths *)

Lemma replace_char_app a b s t :
  replace_char a b (s ++ t) = replace_char a b s ++ replace_char a b t.
Proof.
  induction s as [|c s IH]; [reflexivity|].
  rewrite append_cons. cbn [replace_char]. rewrite IH.
  destruct (Ascii.eqb c a); [rewrite append_assoc|rewrite append_cons]; reflexivity.
Qed.

Lemma replace_char_lacks a b s : lacks a s = true -> replace_char a b s = s.
Proof.
  induction s as [|c s IH]; [reflexivity|]. cbn [lacks replace_char].
  intros H. apply andb_true_iff in H as [Hc Hs]. apply negb_true_iff in Hc.
  rewrite Ascii.eqb_sym, Hc, IH by exact Hs. reflexivity.
Qed.

Lemma safe_name_lacks_slash s : lacks "/" (safe_name s) = true.
Proof.
  unfold safe_name. induction s as [|c s IH]; [reflexivity|]. cbn [replace_char].
  destruct (Ascii.eqb c "/") eqn:E.
  - rewrite lacks_app, IH. reflexivity.
  - cbn [lacks]. rewrite Ascii.eqb_sym, E, IH. reflexivity.
Qed.

Lemma safe_name_nonempty s : s <> "" -> safe_name s <> "".
Proof.
  destruct s as [|c s]; [congruence|]. intros _. unfold safe_name. cbn [replace_char].
  destruct (Ascii.eqb c "/"); [rewrite !append_cons|]; discriminate.
Qed.

(** X17: the document of a file is written to the drafts directory under the
    path of the file with its slashes replaced and its last extension
    exchanged for the format; the extension of the source file does not
    show, so two files that differ only in it share their documents. *)
Theorem export_path_ignores_extension drafts_dir base ext fmt :
  base <> "" -> ext <> "" -> lacks "/" ext = true -> lacks "." ext = true ->
  export_path drafts_dir (base ++ "." ++ ext) fmt
  = drafts_dir ++ "/" ++ safe_name base ++ "." ++ fmt.
Proof.
  intros Hb He Hle Hde. unfold export_path, with_suffix, Py.path_join.
  assert (Hsafe : safe_name (base ++ "." ++ ext) = safe_name base ++ "." ++ ext).
  { unfold safe_name. rewrite !replace_char_app.
    rewrite (replace_char_lacks _ _ ext) by exact Hle. reflexivity. }
  rewrite Hsafe.
  pose proof (safe_name_lacks_slash base) as Hls.
  pose proof (safe_name_nonempty base Hb) as Hne.
  set (sb := safe_name base) in *.
  rewrite path_suffix_join by assumption.
  rewrite path_name_join.
  2:{ rewrite lacks_app, Hls. rewrite append_cons, append_nil_l. cbn [lacks andb].
      exact Hle. }
  replace (drafts_dir ++ "/" ++ sb ++ "." ++ ext)
    with ((drafts_dir ++ "/") ++ (sb ++ "." ++ ext))
    by (rewrite append_assoc; reflexivity).
  rewrite (length_append (drafts_dir ++ "/")).
  replace (String.length (drafts_dir ++ "/") + String.length (sb ++ "." ++ ext)
           - String.length (sb ++ "." ++ ext))%nat
    with (String.length (drafts_dir ++ "/")) by lia.
  rewrite substring_prefix.
  rewrite (length_append sb).
  replace (String.length sb + String.length ("." ++ ext) - String.length ("." ++ ext))%nat
    with (String.length sb) by lia.
  rewrite substring_prefix. rewrite !append_assoc. reflexivity.
Qed.

Lemma export_path_ignores_extension_witness :
  export_path "docs/files" ("src/app" ++ "." ++ "py") "md"
  = "docs/files" ++ "/" ++ safe_name "src/app" ++ "." ++ "md".
Proof.
  apply (export_path_ignores_extension "docs/files" "src/app" "py" "md");
    (discriminate || reflexivity).
Defined.

End PathProps.

Module OrderProps.
Import Re Ast Langraph Docgen DocgenExports PyFacts Samples LangraphFacts.

Section Engine.

Variable subject : string.
Context {A : Type}.

Lemma rmatch_moves_forward r : forall st (k : mstate -> option A) a,
  rmatch subject r st k = Some a ->
  exists st', k st' = Some a /\ (pos st <= pos st')%nat.
Proof.
  induction r as [|p|r1 IH1 r2 IH2|r1 IH1 r2 IH2|r IH|r IH|n r IH|ml];
    intros st k a; cbn [rmatch].
  - intros H. exists st. split; [exact H|lia].
  - destruct (rest st) as [|c s']; [discriminate|].
    destruct (p c); [|discriminate]. intros H. eexists. split; [exact H|]. cbn. lia.
  - intros H. apply IH1 in H as (st1 & H & Hle1).
    apply IH2 in H as (st2 & H & Hle2). exists st2. split; [exact H|lia].
  - destruct (rmatch subject r1 st k) as [a'|] eqn:E.
    + intros [= <-]. apply IH1, E.
    + apply IH2.
  - generalize (String.length (rest st)) as fuel. intros fuel. revert st.
    induction fuel as [|fuel IHf]; intros st.
    + intros H. exists st. split; [exact H|lia].
    + match goal with
      | |- context [rmatch subject r st ?k'] =>
          destruct (rmatch subject r st k') as [a'|] eqn:E
      end.
      * intros [= <-]. apply IH in E as (st1 & E & Hle1).
        unfold progress in E. destruct (pos st <? pos st1)%nat; [|discriminate].
        apply IHf in E as (st2 & E & Hle2). exists st2. split; [exact E|lia].
      * intros H. exists st. split; [exact H|lia].
  - generalize (String.length (rest st)) as fuel. intros fuel. revert st.
    induction fuel as [|fuel IHf]; intros st.
    + destruct (k st) as [a'|] eqn:E; [|discriminate].
      intros [= <-]. exists st. split; [exact E|lia].
    + destruct (k st) as [a'|] eqn:E.
      * intros [= <-]. exists st. split; [exact E|lia].
      * intros H. apply IH in H as (st1 & H & Hle1).
        unfold progress in H. destruct (pos st <? pos st1)%nat; [|discriminate].
        apply IHf in H as (st2 & H & Hle2). exists st2. split; [exact H|lia].
  - intros H. apply IH in H as (st1 & H & Hle1). eexists. split; [exact H|].
    cbn. exact Hle1.
  - destruct (at_bol ml (prev st)); [|discriminate].
    intros H. exists st. split; [exact H|lia].
Qed.

End Engine.

Lemma search_from_bounds subject r s : forall off p m,
  search_from subject r off p s = Some m ->
  (off <= m_start m <= m_end m)%nat.
Proof.
  induction s as [|c s IH]; intros off p m; cbn [search_from].
  - destruct (rmatch _ _ _ _) as [m'|] eqn:E; [|discriminate].
    intros [= <-]. apply rmatch_moves_forward in E as (st' & E & Hle).
    unfold accept in E. injection E as <-. cbn in *. lia.
  - destruct (rmatch _ _ _ _) as [m'|] eqn:E.
    + intros [= <-]. apply rmatch_moves_forward in E as (st' & E & Hle).
      unfold accept in E. injection E as <-. cbn in *. lia.
    + intros H. apply IH in H. lia.
Qed.

Lemma finditer_go_increasing subject r fuel : forall off,
  Forall (fun m => (off <= m_start m)%nat) (finditer_go fuel subject r off)
  /\ StronglySorted (fun m m' => (m_start m < m_start m')%nat)
       (finditer_go fuel subject r off).
Proof.
  induction fuel as [|fuel IH]; intros off; cbn [finditer_go].
  - split; constructor.
  - destruct (search_from _ _ _ _ _) as [m|] eqn:E; [|split; constructor].
    apply search_from_bounds in E.
    set (next := if (m_start m <? m_end m)%nat then m_end m else S (m_end m)).
    assert (Hnext : (m_start m < next)%nat).
    { subst next. destruct (m_start m <? m_end m)%nat eqn:E'.
      - apply Nat.ltb_lt, E'.
      - lia. }
    destruct (next <=? String.length subject)%nat.
    + destruct (IH next) as [Hall Hs]. split.
      * constructor; [lia|]. eapply Forall_impl; [exact Hall|]. cbn. intros; lia.
      * constructor; [exact Hs|]. eapply Forall_impl; [exact Hall|]. cbn. intros; lia.
    + split; repeat constructor. lia.
Qed.

Lemma count_char_nonneg c s : 0 <= Py.count_char c s.
Proof.
  induction s as [|d s IH]; cbn [Py.count_char]; [lia|].
  destruct (Ascii.eqb d c); lia.
Qed.

Lemma count_char_prefix_mono c s : forall n n',
  (n <= n')%nat ->
  Py.count_char c (substring 0 n s) <= Py.count_char c (substring 0 n' s).
Proof.
  induction s as [|d s IH]; intros n n' Hle.
  - destruct n, n'; cbn; lia.
  - destruct n as [|n]; cbn [substring Py.count_char].
    + apply count_char_nonneg.
    + destruct n' as [|n']; [lia|]. cbn [substring Py.count_char].
      specialize (IH n n' ltac:(lia)). lia.
Qed.

Lemma line_of_sorted text ms :
  StronglySorted (fun m m' => (m_start m < m_start m')%nat) ms ->
  StronglySorted (fun m m' => line_of text m <= line_of text m') ms.
Proof.
  induction 1 as [|m ms Hs IH Hall]; constructor; [exact IH|].
  eapply Forall_impl; [exact Hall|]. cbn. intros m' Hlt. unfold line_of.
  pose proof (count_char_prefix_mono Py.LF text (m_start m) (m_start m') ltac:(lia)).
  lia.
Qed.

Lemma items_sorted (item : rmatched -> decl) text ms :
  (forall m, d_lineno (item m) = Some (line_of text m)) ->
  StronglySorted (fun m m' => line_of text m <= line_of text m') ms ->
  Sorted by_lineno (map item ms).
Proof.
  intros Hitem Hs. apply StronglySorted_Sorted.
  induction Hs as [|m ms Hs IH Hall]; cbn [map]; constructor; [exact IH|].
  apply Forall_forall. intros d Hd. apply list_elem_of_In, in_map_iff in Hd as (m' & <- & Hm').
  rewrite Forall_forall in Hall. apply list_elem_of_In, Hall in Hm'.
  unfold by_lineno, sort_key. rewrite !Hitem. cbn [Py.or_int].
  unfold line_of in *.
  pose proof (count_char_nonneg Py.LF (substring 0 (m_start m) text)).
  pose proof (count_char_nonneg Py.LF (substring 0 (m_start m') text)).
  destruct (_ + 1 =? 0) eqn:E1; [apply Z.eqb_eq in E1; lia|].
  destruct (Py.count_char Py.LF (substring 0 (m_start m') text) + 1 =? 0) eqn:E2;
    [apply Z.eqb_eq in E2; lia|]. exact Hm'.
Qed.

(** X9: the declarations of a file are returned in the order of their line
    numbers by the scanner of the documentation pipeline, for every
    language, and by both scanners of the codebase summary. *)
Theorem declarations_come_in_line_order ast_parse text language :
  Sorted by_lineno (_scan_declarations ast_parse text language)
  /\ Sorted by_lineno (LangraphScan.parse_generic_structure text)
  /\ Sorted by_lineno (parse_python_structure ast_parse text).
Proof.
  assert (Hpy : Sorted by_lineno (parse_python_structure ast_parse text)).
  { unfold parse_python_structure. destruct (ast_parse text); [|constructor].
    apply sort_items_sorted. }
  split; [|split; [|exact Hpy]].
  - unfold _scan_declarations. destruct (String.eqb language "python"); [exact Hpy|].
    apply (items_sorted _ text); [reflexivity|].
    apply line_of_sorted, finditer_go_increasing.
  - unfold LangraphScan.parse_generic_structure.
    apply (items_sorted _ text); [reflexivity|].
    apply line_of_sorted, finditer_go_increasing.
Qed.

End OrderProps.

Module ScanProps.
Import Re Ast Langraph Docgen LangraphScan PyFacts Samples DocgenFacts.

(** *** The project type *)

Lemma max_item_first_greatest l : forall best,
  exists l1 l2,
    best :: l = (l1 ++ max_item best l :: l2)%list
    /\ Forall (fun x => x.2 < (max_item best l).2) l1
    /\ Forall (fun x => x.2 <= (max_item best l).2) l2.
Proof.
  induction l as [|x l IH]; intros best; cbn [max_item].
  - exists [], []. repeat split; constructor.
  - destruct (best.2 <? x.2) eqn:E.
    + apply Z.ltb_lt in E. destruct (IH x) as (l1 & l2 & Heq & H1 & H2).
      exists (best :: l1), l2. split; [cbn [app]; rewrite <- Heq; reflexivity|].
      split; [|exact H2]. constructor; [|exact H1].
      destruct l1 as [|y l1]; cbn [app] in Heq.
      * injection Heq as Hx _. rewrite <- Hx. exact E.
      * injection Heq as Hx _. subst y. inversion H1; subst. lia.
    + apply Z.ltb_ge in E. destruct (IH best) as (l1 & l2 & Heq & H1 & H2).
      remember (max_item best l) as m eqn:Hm. clear Hm.
      destruct l1 as [|y l1]; cbn [app] in Heq.
      * injection Heq as Hb Hl. subst m l2. exists [], (x :: l).
        split; [reflexivity|]. split; [constructor|]. constructor; assumption.
      * injection Heq as Hb Hl. subst y l. exists (best :: x :: l1), l2.
        split; [reflexivity|]. split; [|exact H2].
        inversion H1; subst. constructor; [assumption|]. constructor; [lia|assumption].
Qed.

(** X11: the list of guesses is never empty; one marker file is enough for
    the guesses to be those of the markers, without any guess from the
    languages; without markers the guess is [unknown] when no file was
    counted and otherwise names the first language with the greatest
    count. *)
Theorem project_type_guesses markers langs :
  let guesses := infer_project_type markers langs in
  guesses <> []
  /\ (forall k, marked markers k = true ->
      In k ["python"; "node"; "docker"; "rust"; "go"] ->
      guesses = marker_guesses markers)
  /\ (marker_guesses markers = [] ->
      match langs with
      | [] => guesses = ["unknown"]
      | _ =>
          exists before k n after,
            langs = (before ++ (k, n) :: after)%list
            /\ guesses = ["dominant-language:" ++ k]
            /\ Forall (fun x => x.2 < n) before
            /\ Forall (fun x => x.2 <= n) after
      end).
Proof.
  intros guesses. subst guesses. unfold infer_project_type. split; [|split].
  - destruct (marker_guesses markers); [|discriminate].
    destruct langs; discriminate.
  - intros k Hk Hin.
    assert (Hne : marker_guesses markers <> []).
    { unfold marker_guesses. cbn [In] in Hin.
      destruct Hin as [<-|[<-|[<-|[<-|[<-|[]]]]]]; rewrite Hk;
        repeat match goal with
               | |- context [if ?c then _ else _] => destruct c
               end; discriminate. }
    destruct (marker_guesses markers); [congruence|reflexivity].
  - intros ->. destruct langs as [|x l]; [reflexivity|].
    destruct (max_item_first_greatest l x) as (l1 & l2 & Heq & H1 & H2).
    exists l1, (max_item x l).1, (max_item x l).2, l2.
    rewrite <- surjective_pairing. auto.
Qed.

Lemma project_type_guesses_witness :
  infer_project_type sample_markers sample_langs = marker_guesses sample_markers.
Proof.
  apply (proj1 (proj2 (project_type_guesses sample_markers sample_langs)) "node").
  - reflexivity.
  - cbn. tauto.
Defined.

(** *** The codebase scan *)

Lemma total_count_up k c : total (count_up k c) = total c + 1.
Proof.
  unfold total. induction c as [|[k' n] c IH]; [reflexivity|].
  cbn [count_up]. destruct (String.eqb k k'); cbn [map snd fold_right] in *; lia.
Qed.

Lemma append_under_values k v d rel :
  In rel (concat (map snd (append_under k v d))) ->
  rel = v \/ In rel (concat (map snd d)).
Proof.
  induction d as [|[k' vs] d IH]; cbn [append_under].
  - cbn. intros [<-|[]]. left. reflexivity.
  - destruct (String.eqb k k'); cbn [map snd concat].
    + rewrite !in_app_iff. cbn [In]. intros [[H|[<-|[]]]|H]; auto.
    + rewrite !in_app_iff. intros [H|H]; [auto|]. apply IH in H as [H|H]; auto.
Qed.

Section Scan.

Variable ast_parse : string -> option node.
Variable fs : file_system.
Variable root : string.
Variable root_parts : list string.
Variable max_files : Z.
Variable ignore_dirs : list string.

Lemma mem_In x l : mem x l = true <-> In x l.
Proof.
  unfold mem. rewrite existsb_exists. split.
  - intros (y & Hy & E). apply String.eqb_eq in E. subst. exact Hy.
  - intros H. exists x. split; [exact H|apply String.eqb_refl].
Qed.

Lemma add_markers_values name rel markers r :
  In r (concat (map snd (add_markers name rel markers))) ->
  r = rel \/ In r (concat (map snd markers)).
Proof.
  unfold add_markers. generalize _PROJECT_MARKERS. intros pm. revert markers.
  induction pm as [|km pm IH]; intros markers; cbn [fold_left]; [tauto|].
  intros H. apply IH in H as [H|H]; [tauto|].
  destruct (mem name km.2); [|tauto]. apply append_under_values in H. exact H.
Qed.

Lemma scan_entry_inv entries st rel :
  In rel entries -> scan_inv fs root root_parts max_files ignore_dirs entries st ->
  match scan_entry ast_parse fs root root_parts max_files ignore_dirs st rel with
  | inr st' => scan_inv fs root root_parts max_files ignore_dirs entries st'
  | inl (Some st') => scan_inv fs root root_parts max_files ignore_dirs entries st'
  | inl None => True
  end.
Proof.
  intros Hrel Hinv. unfold scan_entry.
  destruct (st_seen st >=? max_files) eqn:Emax; [exact Hinv|].
  destruct (existsb _ (entry_parts root_parts rel)) eqn:Eign; [exact Hinv|].
  destruct (fs_is_file fs (Py.path_join root rel)) eqn:Efile; [|exact Hinv].
  destruct (fs_stat_size fs (Py.path_join root rel)) as [size|] eqn:Esize; [|exact I].
  destruct Hinv as (Hseen & Hmax & Htot & Hfiles & Hparsed & Hmark).
  assert (Hlisted : listed fs root root_parts ignore_dirs entries
            (FileInfo rel size (detect_language_from_path (Py.path_join root rel)))).
  { unfold listed. cbn [fi_path fi_size fi_language].
    repeat split; try assumption.
    apply Forall_forall. intros part Hpart Hin.
    apply list_elem_of_In in Hpart.
    assert (existsb (fun part => mem part ignore_dirs) (entry_parts root_parts rel) = true).
    { apply existsb_exists. exists part. split; [exact Hpart|apply mem_In, Hin]. }
    congruence. }
  assert (Hcommon : forall parsed,
    (forall r, In r (map fst parsed) ->
       In r (map fi_path (st_files st ++ [FileInfo rel size
              (detect_language_from_path (Py.path_join root rel))]))
       /\ read_text_file fs (Py.path_join root r) <> None) ->
    scan_inv fs root root_parts max_files ignore_dirs entries
      (ScanState
         (st_files st ++ [FileInfo rel size
              (detect_language_from_path (Py.path_join root rel))])
         (count_up (detect_language_from_path (Py.path_join root rel)) (st_languages st))
         (add_markers (Py.path_name (Py.path_join root rel)) rel (st_markers st))
         parsed (st_seen st + 1))).
  { intros parsed Hp. unfold scan_inv.
    cbn [st_seen st_files st_languages st_markers st_parsed].
    rewrite length_app, total_count_up. cbn [length].
    rewrite Z.geb_leb in Emax. apply Z.leb_gt in Emax.
    split; [lia|]. split; [lia|]. split; [lia|].
    split; [apply Forall_app; split; [exact Hfiles|constructor; [exact Hlisted|constructor]]|].
    split; [exact Hp|].
    intros r Hr. rewrite map_app, in_app_iff. cbn [map fi_path In].
    apply add_markers_values in Hr as [->|Hr]; [tauto|]. left. apply Hmark, Hr. }
  destruct (read_text_file fs (Py.path_join root rel)) as [txt|] eqn:Eread.
  - apply Hcommon. intros r Hr. apply dict_set_keys in Hr as [->|Hr].
    + split; [|congruence]. rewrite map_app, in_app_iff. cbn. tauto.
    + destruct (Hparsed r Hr) as [H1 H2]. split; [|exact H2].
      rewrite map_app, in_app_iff. tauto.
  - apply Hcommon. intros r Hr. destruct (Hparsed r Hr) as [H1 H2].
    split; [|exact H2]. rewrite map_app, in_app_iff. tauto.
Qed.

Lemma scan_loop_inv entries l : forall st st',
  (forall rel, In rel l -> In rel entries) ->
  scan_inv fs root root_parts max_files ignore_dirs entries st ->
  scan_loop ast_parse fs root root_parts max_files ignore_dirs st l = Some st' ->
  scan_inv fs root root_parts max_files ignore_dirs entries st'.
Proof.
  induction l as [|rel l IH]; intros st st' Hsub Hinv; cbn [scan_loop].
  - intros [= <-]. exact Hinv.
  - pose proof (scan_entry_inv entries st rel (Hsub rel (or_introl eq_refl)) Hinv) as Hstep.
    destruct (scan_entry _ _ _ _ _ _ st rel) as [[st1|]|st1].
    + apply IH; [intros; apply Hsub; right; assumption|exact Hstep].
    + discriminate.
    + intros [= <-]. exact Hstep.
Qed.

(** X10: in the summary of a scan the file count is the number of listed
    files and at most [max_files], the language counts add up to it, every
    listed file is a file of the listing with no ignored directory in its
    path, and only listed files have parsed declarations or are named as
    markers. *)
Theorem scan_summary_is_consistent entries sm :
  scan_codebase ast_parse fs root root_parts max_files ignore_dirs entries = Some sm ->
  sm_file_count sm = Z.of_nat (length (sm_files sm))
  /\ sm_file_count sm <= Z.max 0 max_files
  /\ total (sm_languages sm) = sm_file_count sm
  /\ Forall (listed fs root root_parts ignore_dirs entries) (sm_files sm)
  /\ (forall rel, In rel (map fst (sm_parsed sm)) ->
        In rel (map fi_path (sm_files sm))
        /\ read_text_file fs (Py.path_join root rel) <> None)
  /\ (forall rel, In rel (concat (map snd (sm_markers sm))) ->
        In rel (map fi_path (sm_files sm))).
Proof.
  unfold scan_codebase.
  destruct (scan_loop _ _ _ _ _ _ _ entries) as [st|] eqn:E; [|discriminate].
  intros [= <-]. cbn [sm_file_count sm_files sm_languages sm_parsed sm_markers].
  apply scan_loop_inv with (entries := entries) in E; [|auto|].
  - destruct E as (H1 & H2 & H3 & H4 & H5 & H6). rewrite <- H1.
    repeat split; try assumption; try apply H5; try assumption. lia.
  - unfold scan_inv. cbn. repeat split; try lia; try constructor; intros ? [].
Qed.

End Scan.

Lemma scan_summary_is_consistent_witness :
  sm_file_count sample_summary = Z.of_nat (length (sm_files sample_summary))
  /\ sm_file_count sample_summary <= Z.max 0 2
  /\ total (sm_languages sample_summary) = sm_file_count sample_summary
  /\ Forall (listed sample_fs "repo" ["repo"] default_ignore_dirs sample_files)
       (sm_files sample_summary)
  /\ (forall rel, In rel (map fst (sm_parsed sample_summary)) ->
        In rel (map fi_path (sm_files sample_summary))
        /\ read_text_file sample_fs (Py.path_join "repo" rel) <> None)
  /\ (forall rel, In rel (concat (map snd (sm_markers sample_summary))) ->
        In rel (map fi_path (sm_files sample_summary))).
Proof.
  apply (scan_summary_is_consistent sample_parse sample_fs "repo" ["repo"] 2
           default_ignore_dirs sample_files sample_summary).
  vm_compute. reflexivity.
Defined.

End ScanProps.

Module ExtractorProps.
Import Re Ast Langraph Docgen DocgenExports PyFacts Samples AstFacts DocgenFacts.

Lemma truthy_ne s : Py.truthy s = true <-> s <> "".
Proof. destruct s; cbn; split; congruence. Qed.

(** *** Comment lines above a Go or Rust declaration *)

Lemma line_comment_doc_inv rust lines i line key doc :
  line_comment_doc rust lines i line = Some (key, doc) ->
  pmatch (line_decl_re rust) line <> None
  /\ (exists tok, key = (tok, i + 1, i + 1))
  /\ comment_lines_above (line_marker rust) lines i <> []
  /\ doc = Py.strip (Py.join Py.nl (comment_lines_above (line_marker rust) lines i))
  /\ doc <> "".
Proof.
  destruct rust; cbn [line_comment_doc line_decl_re line_marker].
  - unfold rust_line_doc. destruct (pmatch rust_re line) as [m|]; [|discriminate].
    destruct (comment_lines_above "///" lines i) as [|c cs] eqn:Ec; [discriminate|].
    destruct (Py.truthy _) eqn:Et; [|discriminate].
    intros [= <- <-]. split; [discriminate|]. split; [eauto|].
    split; [discriminate|]. split; [reflexivity|]. apply truthy_ne, Et.
  - unfold go_line_doc. destruct (pmatch go_re line) as [m|]; [|discriminate].
    destruct (comment_lines_above "//" lines i) as [|c cs] eqn:Ec; [discriminate|].
    destruct (Py.truthy (Py.strip _)) eqn:Et; [|discriminate].
    intros [= <- <-]. split; [discriminate|]. split; [eauto|].
    split; [discriminate|]. split; [reflexivity|]. apply truthy_ne, Et.
Qed.

Lemma comment_run_nonempty marker above :
  comment_run marker above <> [] ->
  exists l above', above = l :: above' /\ Py.startswith marker (Py.strip l) = true.
Proof.
  destruct above as [|l above']; cbn [comment_run]; [congruence|].
  destruct (Py.startswith marker (Py.strip l)) eqn:E; [eauto|congruence].
Qed.

Lemma rev_take_head {A} (l : list A) (n : nat) x rest :
  rev (take n l) = x :: rest ->
  exists n', n' = Nat.pred (Nat.min n (length l)) /\ (0 < Nat.min n (length l))%nat
             /\ l !! n' = Some x.
Proof.
  intros H. exists (Nat.pred (Nat.min n (length l))). split; [reflexivity|].
  assert (Hl : length (take n l) = Nat.min n (length l)) by apply length_take.
  assert (Ht : take n l = (rev rest ++ [x])%list).
  { rewrite <- (rev_involutive (take n l)), H. reflexivity. }
  rewrite Ht, length_app, length_rev in Hl. cbn in Hl.
  split; [lia|].
  replace (Nat.pred (Nat.min n (length l))) with (length (rev rest))
    by (rewrite length_rev; lia).
  assert (Hlk : take n l !! length (rev rest) = Some x).
  { rewrite Ht. apply list_lookup_middle. reflexivity. }
  rewrite lookup_take_Some in Hlk. tauto.
Qed.

(** X12: the Go and the Rust extractor attribute documentation only to a
    declaration whose preceding line is a comment line; the text is the
    unbroken run of comment lines that ends on that line, and it is not
    empty. *)
Theorem line_comments_are_adjacent rust source_text key doc :
  line_comment_docs rust source_text !! key = Some doc ->
  let lines := Py.splitlines source_text in
  exists i line above tok,
    1 <= i /\ lines !! Z.to_nat i = Some line
    /\ pmatch (line_decl_re rust) line <> None
    /\ key = (tok, i + 1, i + 1)
    /\ lines !! Z.to_nat (i - 1) = Some above
    /\ Py.startswith (line_marker rust) (Py.strip above) = true
    /\ doc = Py.strip (Py.join Py.nl (comment_lines_above (line_marker rust) lines i))
    /\ doc <> "".
Proof.
  intros H lines.
  assert (H' : scan_docs (line_comment_doc rust) source_text !! key = Some doc).
  { destruct rust; exact H. }
  apply scan_docs_lookup in H' as (i & line & Hi & Hline & Hdoc). fold lines in Hline, Hdoc.
  apply line_comment_doc_inv in Hdoc as (Hm & [tok Hk] & Hne & Hd & Hdne).
  unfold comment_lines_above in Hne.
  apply comment_run_nonempty in Hne as (above & rest & Hab & Hst).
  apply rev_take_head in Hab as (n' & Hn' & Hpos & Hlk).
  assert (Hlen : (Z.to_nat i < length lines)%nat) by (eapply lookup_lt_Some; eauto).
  exists i, line, above, tok.
  assert (Hn'' : n' = Z.to_nat (i - 1)) by lia.
  rewrite <- Hn''. repeat split; try assumption. lia.
Qed.

(** *** Documentation that is found is never empty *)

Section WithParser.

Variable ast_parse : string -> option node.

Lemma put_python_doc_fold l key doc : forall out : gmap doc_key string,
  fold_left put_python_doc l out !! key = Some doc ->
  out !! key = Some doc
  \/ exists r, In r l /\ is_decl (n_kind r.2) = true
               /\ n_docstring r.2 = doc /\ doc <> ""
               /\ key = ((match n_kind r.2 with ClassDef => "class" | _ => "def" end)
                           ++ " " ++ n_name r.2,
                         default (-1) (n_lineno r.2),
                         default (-1) (n_end_lineno r.2)).
Proof.
  induction l as [|r l IH]; intros out; cbn [fold_left]; [auto|].
  intros H. apply IH in H as [H|(r' & Hr' & H)].
  - unfold put_python_doc in H.
    destruct (is_decl (n_kind r.2)) eqn:Ed; [|auto].
    destruct (Py.truthy (n_docstring r.2)) eqn:Et; [|auto].
    destruct (decide (key = ((match n_kind r.2 with ClassDef => "class" | _ => "def" end)
                           ++ " " ++ n_name r.2,
                         default (-1) (n_lineno r.2),
                         default (-1) (n_end_lineno r.2)))) as [->|Hne].
    + rewrite lookup_insert_eq in H. injection H as <-.
      right. exists r. split; [left; reflexivity|].
      repeat split; try assumption; try reflexivity. apply truthy_ne, Et.
    + rewrite lookup_insert_ne in H by congruence. auto.
  - right. exists r'. split; [right; exact Hr'|exact H].
Qed.

(** X13: documentation stored by an extractor, whatever the language, is
    never empty; so the section of a declaration whose key is found shows
    that documentation, whatever text was generated for it. *)
Theorem found_documentation_is_used source_text language key doc :
  _parse_docstrings_by_language ast_parse source_text language !! key = Some doc ->
  doc <> ""
  /\ forall rel_path llm_docs d,
       existing_key d = key ->
       section_body rel_path
         (_parse_docstrings_by_language ast_parse source_text language) llm_docs d
       = Py.strip doc.
Proof.
  intros H.
  assert (Hne : doc <> "").
  { unfold _parse_docstrings_by_language in H.
    destruct (String.eqb language "python").
    { unfold _parse_python_docstrings in H.
      destruct (ast_parse source_text) as [tree|]; [|rewrite lookup_empty in H; discriminate].
      apply put_python_doc_fold in H as [H|(r & _ & _ & _ & Hd & _)];
        [rewrite lookup_empty in H; discriminate|exact Hd]. }
    destruct (String.eqb language "javascript" || String.eqb language "typescript").
    { apply scan_docs_lookup in H as (i & line & _ & _ & H).
      apply (block_line_doc_inv false) in H as (_ & _ & jm & _ & _ & Hd). exact Hd. }
    destruct (String.eqb language "java").
    { apply scan_docs_lookup in H as (i & line & _ & _ & H).
      apply (block_line_doc_inv true) in H as (_ & _ & jm & _ & _ & Hd). exact Hd. }
    destruct (String.eqb language "go").
    { apply scan_docs_lookup in H as (i & line & _ & _ & H).
      apply (line_comment_doc_inv false) in H as (_ & _ & _ & _ & Hd). exact Hd. }
    destruct (String.eqb language "rust").
    { apply scan_docs_lookup in H as (i & line & _ & _ & H).
      apply (line_comment_doc_inv true) in H as (_ & _ & _ & _ & Hd). exact Hd. }
    rewrite lookup_empty in H. discriminate. }
  split; [exact Hne|].
  intros rel_path llm_docs d Hk. unfold section_body. rewrite Hk, H.
  assert (Ht : Py.truthy doc = true) by (apply truthy_ne, Hne).
  cbn [present]. rewrite Ht. cbn [negb present]. rewrite Ht. reflexivity.
Qed.

(** *** Declarations that are sent for generation *)

Lemma generic_items_have_no_end text ms :
  Forall (fun d => d_end_lineno d = None) (map (Docgen.generic_item text) ms).
Proof. induction ms; cbn; constructor; auto. Qed.

(** X15: for a file that is not Python every declaration is listed as
    lacking documentation, whatever documentation was found for the file:
    its [end_lineno] is [None], and no key of the existing documentation
    has a [None] in it. *)
Theorem heuristic_declarations_are_always_missing file_path text language existing :
  language <> "python" ->
  let decls := _scan_declarations ast_parse text language in
  missing_of_file (file_path, FileData text language decls existing)
  = map (fun d => (file_path, language, d_type d, d_name d, d_lineno d)) decls.
Proof.
  intros Hl decls. subst decls. unfold _scan_declarations.
  destruct (String.eqb language "python") eqn:E;
    [apply String.eqb_eq in E; congruence|].
  unfold missing_of_file. cbn [fst snd fd_decls fd_existing_docs fd_language].
  pose proof (generic_items_have_no_end text (finditer Docgen._generic_decl_re text)) as Hall.
  induction Hall as [|d l Hd _ IH]; [reflexivity|].
  cbn [flat_map map]. unfold is_missing at 1. rewrite Hd.
  destruct (d_lineno d); cbn [app]; rewrite IH; reflexivity.
Qed.

End WithParser.

Lemma line_comments_are_adjacent_witness :
  exists i line above tok,
    1 <= i /\ Py.splitlines go_src !! Z.to_nat i = Some line
    /\ pmatch (line_decl_re false) line <> None
    /\ ("func Add", 5, 5) = (tok, i + 1, i + 1)
    /\ Py.splitlines go_src !! Z.to_nat (i - 1) = Some above
    /\ Py.startswith (line_marker false) (Py.strip above) = true
    /\ "Add adds." +:+ Py.nl +:+ "It is total."
       = Py.strip (Py.join Py.nl
                     (comment_lines_above (line_marker false) (Py.splitlines go_src) i))
    /\ "Add adds." +:+ Py.nl +:+ "It is total." <> "".
Proof.
  apply (line_comments_are_adjacent false go_src ("func Add", 5, 5)
           ("Add adds." +:+ Py.nl +:+ "It is total.")).
  vm_compute. reflexivity.
Defined.

Lemma found_documentation_is_used_witness :
  "Add adds." +:+ Py.nl +:+ "It is total." <> ""
  /\ forall rel_path llm_docs d,
       existing_key d = ("func Add", 5, 5) ->
       section_body rel_path
         (_parse_docstrings_by_language sample_parse go_src "go") llm_docs d
       = Py.strip ("Add adds." +:+ Py.nl +:+ "It is total.").
Proof.
  apply (found_documentation_is_used sample_parse go_src "go" ("func Add", 5, 5)
           ("Add adds." +:+ Py.nl +:+ "It is total.")).
  vm_compute. reflexivity.
Defined.

Lemma heuristic_declarations_are_always_missing_witness :
  missing_of_file
    ("main.go",
     FileData go_src "go" (_scan_declarations sample_parse go_src "go")
       (_parse_go_docstrings go_src))
  = map (fun d => ("main.go", "go", d_type d, d_name d, d_lineno d))
      (_scan_declarations sample_parse go_src "go").
Proof.
  apply (heuristic_declarations_are_always_missing sample_parse "main.go" go_src
           "go" (_parse_go_docstrings go_src)).
  discriminate.
Defined.

End ExtractorProps.

Module DocstringProps.
Import Re Ast Langraph Docgen DocgenExports PyFacts Samples AstFacts LangraphFacts DocgenFacts
  ExtractorProps.

Section WithParser.

Variable ast_parse : string -> option node.

Lemma put_python_doc_step (P : string -> Prop) key out r :
  (documented r.2 -> python_key r.2 = key -> P (n_docstring r.2)) ->
  (exists doc, out !! key = Some doc /\ P doc) ->
  exists doc, put_python_doc out r !! key = Some doc /\ P doc.
Proof.
  intros HP (doc & Hd & Hp). unfold put_python_doc.
  destruct (is_decl (n_kind r.2)) eqn:Ed; [|eauto].
  destruct (Py.truthy (n_docstring r.2)) eqn:Et; [|eauto].
  destruct (decide (python_key r.2 = key)) as [Hk|Hk].
  - unfold python_key in Hk. rewrite Hk, lookup_insert_eq.
    eexists. split; [reflexivity|]. apply HP; [|exact Hk].
    split; [exact Ed|apply truthy_ne, Et].
  - unfold python_key in Hk. rewrite lookup_insert_ne by exact Hk. eauto.
Qed.

Lemma put_python_doc_fold_keeps (P : string -> Prop) key l :
  (forall r, In r l -> documented r.2 -> python_key r.2 = key -> P (n_docstring r.2)) ->
  forall out : gmap doc_key string,
  (exists doc, out !! key = Some doc /\ P doc) ->
  exists doc, fold_left put_python_doc l out !! key = Some doc /\ P doc.
Proof.
  induction l as [|r l IH]; intros HP out H; cbn [fold_left]; [exact H|].
  apply IH; [intros; apply HP; auto; right; assumption|].
  apply put_python_doc_step; [|exact H].
  apply HP. left. reflexivity.
Qed.

Lemma put_python_doc_fold_finds (P : string -> Prop) l r :
  In r l -> documented r.2 ->
  (forall r', In r' l -> documented r'.2 -> python_key r'.2 = python_key r.2 ->
              P (n_docstring r'.2)) ->
  forall out : gmap doc_key string,
  exists doc, fold_left put_python_doc l out !! python_key r.2 = Some doc /\ P doc.
Proof.
  intros Hin Hdoc HP out. apply in_split in Hin as (l1 & l2 & ->).
  rewrite fold_left_app. cbn [fold_left].
  apply put_python_doc_fold_keeps.
  - intros r' Hr'. apply HP. apply in_or_app. right. right. exact Hr'.
  - set (out1 := fold_left put_python_doc l1 out).
    unfold put_python_doc. destruct Hdoc as [Hd Hne].
    rewrite Hd. apply truthy_ne in Hne as Ht. rewrite Ht.
    unfold python_key. rewrite lookup_insert_eq. eexists. split; [reflexivity|].
    apply HP; [apply in_or_app; right; left; reflexivity| |reflexivity].
    split; assumption.
Qed.

Lemma python_key_item n n' a b :
  1 <= a -> 1 <= b ->
  n_lineno n = Some a -> n_end_lineno n = Some b ->
  python_key n' = python_key n -> item_of n' = item_of n.
Proof.
  intros H1 H2 Ha Hb Hk. unfold python_key in Hk. injection Hk as Hk1 Hk2 Hk3.
  rewrite Ha, Hb in *. cbn in Hk2, Hk3.
  unfold item_of. rewrite Ha, Hb.
  destruct (n_lineno n') as [a'|]; cbn in Hk2; [|lia].
  destruct (n_end_lineno n') as [b'|]; cbn in Hk3; [|lia].
  subst a' b'.
  assert (Hkn : (match n_kind n' with ClassDef => "class" | _ => "def" end
                 = match n_kind n with ClassDef => "class" | _ => "def" end)
                /\ n_name n' = n_name n).
  { destruct (n_kind n'), (n_kind n); try discriminate;
      (split; [reflexivity|]); str_norm_in Hk1; congruence. }
  destruct Hkn as [-> ->]. reflexivity.
Qed.

(** X14: a Python declaration with a docstring is listed by the scanner,
    its docstring (or that of a declaration with the same kind, name and
    lines) is stored under the very key the renderer looks up, and its
    section shows that docstring, whatever text was generated. *)
Theorem python_docstrings_reach_the_page source_text tree r a b rel_path llm_docs :
  ast_parse source_text = Some tree ->
  In r (walk tree) ->
  is_decl (n_kind r.2) = true ->
  n_docstring r.2 <> "" ->
  n_lineno r.2 = Some a -> n_end_lineno r.2 = Some b -> 1 <= a -> 1 <= b ->
  let d := item_of r.2 in
  let docs := _parse_python_docstrings ast_parse source_text in
  In d (parse_python_structure ast_parse source_text)
  /\ exists r',
       In r' (walk tree) /\ item_of r'.2 = d /\ n_docstring r'.2 <> ""
       /\ docs !! existing_key d = Some (n_docstring r'.2)
       /\ section_body rel_path docs llm_docs d = Py.strip (n_docstring r'.2).
Proof.
  intros Hparse Hin Hdecl Hdoc Ha Hb Ha1 Hb1 d docs. split.
  - unfold parse_python_structure. rewrite Hparse.
    eapply Permutation_in; [symmetry; apply sort_items_perm|].
    apply in_flat_map. exists r. split; [exact Hin|]. rewrite Hdecl. left. reflexivity.
  - assert (Hkey : existing_key d = python_key r.2).
    { unfold existing_key, python_key, d, decl_start, decl_end, item_of.
      cbn [d_type d_name d_lineno d_end_lineno]. rewrite Ha, Hb. cbn.
      destruct (b =? 0) eqn:E; [apply Z.eqb_eq in E; lia|].
      destruct (a =? 0) eqn:E'; [apply Z.eqb_eq in E'; lia|]. reflexivity. }
    destruct (put_python_doc_fold_finds
                (fun doc => exists r', In r' (walk tree) /\ item_of r'.2 = d
                                       /\ n_docstring r'.2 <> "" /\ doc = n_docstring r'.2)
                (walk tree) r Hin (conj Hdecl Hdoc)) with (out := (∅ : gmap doc_key string))
      as (doc & Hlook & r' & Hr' & Hitem & Hne & ->).
    { intros r' Hr' [Hd' Hne'] Hk. exists r'. repeat split; try assumption.
      apply (python_key_item r.2 r'.2 a b); assumption. }
    exists r'. repeat split; try assumption.
    + unfold docs, _parse_python_docstrings. rewrite Hparse, Hkey. exact Hlook.
    + unfold section_body, docs, _parse_python_docstrings.
      rewrite Hparse, Hkey, Hlook.
      apply truthy_ne in Hne. cbn [present]. rewrite Hne. cbn [negb present].
      rewrite Hne. reflexivity.
Qed.

End WithParser.

Lemma python_docstrings_reach_the_page_witness :
  In (Decl "def" "f" (Some 1) (Some 3))
    (parse_python_structure documented_parse documented_src)
  /\ exists r',
       In r' (walk documented_tree)
       /\ item_of r'.2 = Decl "def" "f" (Some 1) (Some 3)
       /\ n_docstring r'.2 <> ""
       /\ _parse_python_docstrings documented_parse documented_src
            !! existing_key (Decl "def" "f" (Some 1) (Some 3))
          = Some (n_docstring r'.2)
       /\ section_body "f.py"
            (_parse_python_docstrings documented_parse documented_src) ∅
            (Decl "def" "f" (Some 1) (Some 3))
          = Py.strip (n_docstring r'.2).
Proof.
  apply (python_docstrings_reach_the_page documented_parse documented_src
           documented_tree
           ([0%nat], Node FunctionDef "f" (Some 1) (Some 3) "Do f."
                [ Node OtherNode "" None None "" [];
                  Node OtherNode "" (Some 2) (Some 2) "" [leaf 2];
                  Node OtherNode "" (Some 3) (Some 3) "" [leaf 3] ])
           1 3 "f.py" ∅);
    try reflexivity; try discriminate; try lia.
  vm_compute. tauto.
Defined.

End DocstringProps.

Module TouchedProps.
Import Re Ast Langraph Docgen DocgenExports PyFacts Samples AstFacts LangraphFacts DocgenFacts.

Lemma dict_set_in {V} k (v : V) kvs kv :
  In kv (dict_set k v kvs) -> kv = (k, v) \/ In kv kvs.
Proof.
  induction kvs as [|[k0 v0] kvs IH]; cbn [dict_set].
  - intros [<-|[]]. left. reflexivity.
  - destruct (String.eqb k k0) eqn:E.
    + apply String.eqb_eq in E. subst k0. intros [<-|H]; [left; reflexivity|right; right; exact H].
    + intros [<-|H]; [right; left; reflexivity|].
      apply IH in H as [H|H]; [left; exact H|right; right; exact H].
Qed.

Lemma dict_set_nodup {V} k (v : V) kvs :
  NoDup (map fst kvs) -> NoDup (map fst (dict_set k v kvs)).
Proof.
  induction kvs as [|[k0 v0] kvs IH]; cbn [dict_set map fst]; intros Hnd.
  - repeat constructor. intros H. inversion H.
  - inversion Hnd as [|? ? Hnin Hnd']; subst.
    destruct (String.eqb k k0) eqn:E; cbn [map fst]; [exact Hnd|].
    constructor; [|apply IH, Hnd'].
    intros Hin. apply list_elem_of_In, dict_set_keys in Hin as [->|Hin].
    + rewrite String.eqb_refl in E. discriminate.
    + apply Hnin, list_elem_of_In, Hin.
Qed.

Section Pipeline.

Variable ast_parse : string -> option node.
Variable fs : file_system.
Variable repo_root : string.
Variable all_files : list string.
Variable head : option string.
Variable llm_service : list (string * file_data) -> gmap string string.

Lemma collect_file_inv (seen : list string) files_data file_path :
  NoDup (map fst files_data)
  /\ Forall (fun kv => In kv.1 seen /\ documentable ast_parse fs repo_root kv.1 kv.2) files_data ->
  let files_data' := collect_file ast_parse fs repo_root files_data file_path in
  NoDup (map fst files_data')
  /\ Forall (fun kv => In kv.1 (seen ++ [file_path]) /\ documentable ast_parse fs repo_root kv.1 kv.2)
       files_data'.
Proof.
  intros [Hnd Hall] fd'.
  assert (Hold : Forall (fun kv : string * file_data =>
                  In kv.1 (seen ++ [file_path]) /\ documentable ast_parse fs repo_root kv.1 kv.2) files_data).
  { eapply Forall_impl; [exact Hall|]. cbn. intros kv [H1 H2].
    split; [apply in_or_app; left; exact H1|exact H2]. }
  subst fd'. unfold collect_file.
  destruct (fs_exists fs (Py.path_join repo_root file_path)) eqn:Ee; cbn [negb orb]; [|auto].
  destruct (fs_is_file fs (Py.path_join repo_root file_path)) eqn:Ef; cbn [negb]; [|auto].
  destruct (String.eqb (detect_language_from_path (Py.path_join repo_root file_path)) "unknown") eqn:El; [auto|].
  destruct (read_text_file fs (Py.path_join repo_root file_path)) as [txt|] eqn:Er; [|auto].
  destruct (_scan_declarations ast_parse txt _) as [|d ds] eqn:Ed; [auto|].
  split; [apply dict_set_nodup, Hnd|].
  apply Forall_forall. intros kv Hin. apply list_elem_of_In, dict_set_in in Hin as [->|Hin].
  - cbn [fst snd]. split; [apply in_or_app; right; left; reflexivity|].
    unfold documentable. cbn [fd_language fd_text fd_decls fd_existing_docs].
    rewrite Ee, Ef, Er, Ed. repeat split; try reflexivity; try discriminate.
    intros H. rewrite H in El. discriminate.
  - rewrite Forall_forall in Hold. apply Hold, list_elem_of_In, Hin.
Qed.

Lemma collect_files_inv l : forall seen files_data,
  NoDup (map fst files_data)
  /\ Forall (fun kv => In kv.1 seen /\ documentable ast_parse fs repo_root kv.1 kv.2) files_data ->
  let files_data' := fold_left (collect_file ast_parse fs repo_root) l files_data in
  NoDup (map fst files_data')
  /\ Forall (fun kv => In kv.1 (seen ++ l) /\ documentable ast_parse fs repo_root kv.1 kv.2) files_data'.
Proof.
  induction l as [|f l IH]; intros seen files_data H; cbn [fold_left].
  - rewrite app_nil_r. exact H.
  - replace (seen ++ f :: l)%list with ((seen ++ [f]) ++ l)%list
      by (rewrite <- app_assoc; reflexivity).
    apply IH, collect_file_inv, H.
Qed.

(** X16: the files a run reports as changed are pairwise different, they are
    exactly the files rendered, in the same order, and [total_files] is
    their number; each of them is a listed file that exists, is a regular
    file of a known language, can be read and has at least one
    declaration. *)
Theorem touched_files_are_documentable options history res :
  generate_documentation ast_parse fs repo_root all_files head llm_service
    options history = Some res ->
  NoDup (changed res)
  /\ map fst (rendered res) = changed res
  /\ total_files res = Z.of_nat (length (changed res))
  /\ forall file_path,
       In file_path (changed res) ->
       let abs_path := Py.path_join repo_root file_path in
       let lang := detect_language_from_path abs_path in
       In file_path all_files
       /\ fs_exists fs abs_path = true
       /\ fs_is_file fs abs_path = true
       /\ lang <> "unknown"
       /\ exists txt,
            read_text_file fs abs_path = Some txt
            /\ _scan_declarations ast_parse txt lang <> [].
Proof.
  unfold generate_documentation. destruct (_update_history _ _); [|discriminate].
  intros [= <-]. cbn [changed rendered total_files].
  destruct (collect_files_inv all_files [] []) as [Hnd Hall].
  { split; [constructor|constructor]. }
  cbn [app] in Hall. cbv zeta in Hnd, Hall.
  split; [exact Hnd|]. split; [rewrite map_map; reflexivity|]. split; [reflexivity|].
  intros file_path Hin.
  apply in_map_iff in Hin as ([k data] & <- & Hin). cbn [fst] in *.
  rewrite Forall_forall in Hall. apply list_elem_of_In in Hin.
  destruct (Hall _ Hin) as [Hf Hd]. cbn [fst snd] in Hf, Hd.
  destruct Hd as (He & Hi & Hl & Hu & Hr & Hdecl & Hne & _).
  rewrite <- Hl.
  repeat split; try assumption.
  exists (fd_text data). split; [exact Hr|]. rewrite <- Hdecl. exact Hne.
Qed.

End Pipeline.

Lemma touched_files_are_documentable_witness :
  NoDup (changed sample_result)
  /\ map fst (rendered sample_result) = changed sample_result
  /\ total_files sample_result = Z.of_nat (length (changed sample_result))
  /\ forall file_path,
       In file_path (changed sample_result) ->
       let abs_path := Py.path_join "repo" file_path in
       let lang := detect_language_from_path abs_path in
       In file_path sample_files
       /\ fs_exists sample_fs abs_path = true
       /\ fs_is_file sample_fs abs_path = true
       /\ lang <> "unknown"
       /\ exists txt,
            read_text_file sample_fs abs_path = Some txt
            /\ _scan_declarations sample_parse txt lang <> [].
Proof.
  apply (touched_files_are_documentable sample_parse sample_fs "repo" sample_files
           (Some "0123abcd") (fun _ => ∅) sample_options HAbsent sample_result).
  vm_compute. reflexivity.
Defined.

End TouchedProps.

Module HistoryProps.
Import Re Ast Langraph Docgen DocgenExports PyFacts Samples DocgenFacts.

(** X18: the update of the history raises exactly when the file decodes to
    something that is no history: a value that is not an object, or an
    object whose [entries] is not a list.  A missing file and a file that
    cannot be decoded never make it raise. *)
Theorem update_history_raises_iff h entry :
  _update_history h entry = None <-> ~ holds_history h /\ h <> HUnreadable.
Proof.
  unfold _update_history, holds_history.
  destruct h as [| |j]; [split; [discriminate|tauto] | split; [discriminate|intros [_ H]; congruence] |].
  destruct j as [| | | | |kvs]; try (split; [intros _; split; [tauto|discriminate]|reflexivity]).
  rewrite setdefault_spec.
  destruct (dict_get "entries" kvs) as [v|].
  - destruct v; try (split; [intros _; split; [tauto|discriminate]|reflexivity]).
    split; [discriminate|tauto].
  - split; [discriminate|tauto].
Qed.

Lemma update_history_raises_iff_witness :
  _update_history (HJson (JList [])) JNull = None.
Proof.
  apply (proj2 (update_history_raises_iff (HJson (JList [])) JNull)).
  split; [cbn; tauto|discriminate].
Defined.

Lemma dict_get_replace_ne k k' v kvs :
  k' <> k -> dict_get k' (dict_replace k v kvs) = dict_get k' kvs.
Proof.
  intros Hne. induction kvs as [|[k0 v0] kvs IH]; [reflexivity|].
  cbn [dict_replace dict_get].
  destruct (String.eqb k k0) eqn:E.
  - apply String.eqb_eq in E. subst k0. cbn [dict_get].
    destruct (String.eqb k' k) eqn:E'; [apply String.eqb_eq in E'; congruence|reflexivity].
  - cbn [dict_get]. rewrite IH. reflexivity.
Qed.

Lemma dict_replace_keys k v kvs :
  map fst (dict_replace k v kvs) = map fst kvs.
Proof.
  induction kvs as [|[k0 v0] kvs IH]; [reflexivity|].
  cbn [dict_replace]. destruct (String.eqb k k0); cbn [map fst]; [reflexivity|].
  rewrite IH. reflexivity.
Qed.

(** X19: an update leaves every other key of the history object as it was,
    and the keys in their order; [entries] is added at the end when it was
    missing. *)
Theorem update_history_keeps_other_keys kvs entry h' :
  _update_history (HJson (JDict kvs)) entry = Some h' ->
  exists kvs',
    h' = HJson (JDict kvs')
    /\ (forall k, k <> "entries" -> dict_get k kvs' = dict_get k kvs)
    /\ map fst kvs'
       = (match dict_get "entries" kvs with
          | Some _ => map fst kvs
          | None => map fst kvs ++ ["entries"]
          end)%list.
Proof.
  unfold _update_history. rewrite setdefault_spec.
  destruct (dict_get "entries" kvs) as [v|] eqn:E.
  - destruct v; try discriminate. intros [= <-]. eexists. split; [reflexivity|].
    split; [|apply dict_replace_keys].
    intros k Hk. apply dict_get_replace_ne, Hk.
  - intros [= <-]. eexists. split; [reflexivity|]. split.
    + intros k Hk. rewrite dict_get_replace_ne by exact Hk.
      rewrite dict_get_app. destruct (dict_get k kvs); [reflexivity|].
      cbn [dict_get]. destruct (String.eqb k "entries") eqn:E'; [|reflexivity].
      apply String.eqb_eq in E'. congruence.
    + rewrite dict_replace_keys, map_app. reflexivity.
Qed.

Lemma update_history_keeps_other_keys_witness :
  exists kvs',
    HJson (JDict [("version", JInt 2); ("entries", JList [JNull])])
      = HJson (JDict kvs')
    /\ (forall k, k <> "entries" -> dict_get k kvs' = dict_get k versioned_history)
    /\ map fst kvs'
       = (match dict_get "entries" versioned_history with
          | Some _ => map fst versioned_history
          | None => map fst versioned_history ++ ["entries"]
          end)%list.
Proof.
  apply (update_history_keeps_other_keys versioned_history JNull).
  reflexivity.
Defined.

(** X20: any number of updates of a store that holds a history succeed, and
    they leave the entries it had followed by the new entries in the order
    of the calls. *)
Theorem repeated_updates_accumulate entries : forall h,
  holds_history h ->
  exists h',
    update_all h entries = Some h'
    /\ entries_of h' = (entries_of h ++ entries)%list
    /\ holds_history h'.
Proof.
  induction entries as [|e es IH]; intros h Hh; cbn [update_all].
  - exists h. rewrite app_nil_r. auto.
  - destruct (update_history_returns h e Hh) as (h1 & E1 & Hh1).
    rewrite E1. destruct (IH h1 Hh1) as (h' & E' & He & Hh').
    exists h'. split; [exact E'|]. split; [|exact Hh'].
    rewrite He.
    destruct (update_history_appends h e h1 E1) as [->|[-> _]].
    + rewrite <- app_assoc. reflexivity.
    + destruct Hh.
Qed.

Lemma repeated_updates_accumulate_witness :
  exists h',
    update_all HAbsent [JInt 1; JInt 2; JInt 3] = Some h'
    /\ entries_of h' = (entries_of HAbsent ++ [JInt 1; JInt 2; JInt 3])%list
    /\ holds_history h'.
Proof.
  apply (repeated_updates_accumulate [JInt 1; JInt 2; JInt 3] HAbsent).
  exact I.
Defined.

End HistoryProps.

Module PagesProps.
Import Re Ast Langraph Docgen DocgenExports PyFacts Samples DocgenFacts TouchedProps.

Section Pipeline.

Variable ast_parse : string -> option node.
Variable fs : file_system.
Variable repo_root : string.
Variable all_files : list string.
Variable head : option string.
Variable llm_service : list (string * file_data) -> gmap string string.

(** X21: every page a run renders belongs to a readable file with at least
    one declaration and consists of the title, the template heading and one
    section per declaration; the page for a file without declarations is
    never written.  The generated texts come into play only when
    [use_llm] is set. *)
Theorem rendered_pages_have_sections options history res file_path md :
  generate_documentation ast_parse fs repo_root all_files head llm_service
    options history = Some res ->
  In (file_path, md) (rendered res) ->
  let abs_path := Py.path_join repo_root file_path in
  let lang := detect_language_from_path abs_path in
  let llm_docs :=
    if use_llm options
    then llm_service (fold_left (collect_file ast_parse fs repo_root) all_files [])
    else ∅ in
  exists txt,
    read_text_file fs abs_path = Some txt
    /\ _scan_declarations ast_parse txt lang <> []
    /\ md = page_title file_path ++ template_heading (template options)
            ++ Py.concat
                 (map (section_text file_path
                         (_parse_docstrings_by_language ast_parse txt lang) llm_docs)
                    (_scan_declarations ast_parse txt lang)).
Proof.
  unfold generate_documentation. destruct (_update_history _ _); [|discriminate].
  intros [= <-]. cbn [rendered]. intros Hin.
  apply in_map_iff in Hin as ([k data] & Hr & Hin).
  unfold render_file in Hr. cbn [fst snd] in Hr. injection Hr as -> <-.
  destruct (collect_files_inv ast_parse fs repo_root all_files [] []) as [_ Hall].
  { split; constructor. }
  cbv zeta in Hall. rewrite Forall_forall in Hall.
  apply list_elem_of_In in Hin. destruct (Hall _ Hin) as [_ Hd]. cbn [fst snd] in Hd.
  destruct Hd as (_ & _ & Hl & _ & Hread & Hdecl & Hne & Hex).
  cbv zeta. rewrite <- Hl. exists (fd_text data).
  split; [exact Hread|]. rewrite <- Hdecl. split; [exact Hne|].
  rewrite render_sections by exact Hne. rewrite Hex.
  unfold _generate_llm_docs_for_missing. destruct (use_llm options); reflexivity.
Qed.

End Pipeline.

Lemma rendered_pages_have_sections_witness :
  exists txt,
    read_text_file sample_fs (Py.path_join "repo" "app.py") = Some txt
    /\ _scan_declarations sample_parse txt
         (detect_language_from_path (Py.path_join "repo" "app.py")) <> []
    /\ default "" (Langraph.assoc "app.py" (rendered sample_result))
       = page_title "app.py" ++ template_heading (template sample_options)
         ++ Py.concat
              (map (section_text "app.py"
                      (_parse_docstrings_by_language sample_parse txt
                         (detect_language_from_path (Py.path_join "repo" "app.py")))
                      ∅)
                 (_scan_declarations sample_parse txt
                    (detect_language_from_path (Py.path_join "repo" "app.py")))).
Proof.
  apply (rendered_pages_have_sections sample_parse sample_fs "repo" sample_files
           (Some "0123abcd") (fun _ => ∅) sample_options HAbsent sample_result
           "app.py" (default "" (Langraph.assoc "app.py" (rendered sample_result)))).
  - vm_compute. reflexivity.
  - vm_compute. left. reflexivity.
Defined.

End PagesProps.

Module ScanFailureProps.
Import Re Ast Langraph Docgen LangraphScan PyFacts Samples ScanProps.

Section Scan.

Variable ast_parse : string -> option node.
Variable fs : file_system.
Variable root : string.
Variable root_parts : list string.
Variable max_files : Z.
Variable ignore_dirs : list string.

Lemma scan_loop_fails l : forall st,
  scan_loop ast_parse fs root root_parts max_files ignore_dirs st l = None ->
  exists rel,
    In rel l
    /\ fs_is_file fs (Py.path_join root rel) = true
    /\ fs_stat_size fs (Py.path_join root rel) = None
    /\ Forall (fun part => ~ In part ignore_dirs) (entry_parts root_parts rel).
Proof.
  induction l as [|rel l IH]; intros st; cbn [scan_loop]; [discriminate|].
  destruct (scan_entry _ _ _ _ _ _ st rel) as [[st1|]|st1] eqn:E.
  - intros H. apply IH in H as (r & Hr & H). exists r. split; [right; exact Hr|exact H].
  - intros _. exists rel. split; [left; reflexivity|].
    unfold scan_entry in E.
    destruct (st_seen st >=? max_files); [discriminate|].
    destruct (existsb _ (entry_parts root_parts rel)) eqn:Eign; [discriminate|].
    destruct (fs_is_file fs (Py.path_join root rel)); [|discriminate].
    destruct (fs_stat_size fs (Py.path_join root rel)).
    + destruct (read_text_file fs (Py.path_join root rel)); discriminate.
    + repeat split.
      apply Forall_forall. intros part Hpart Hin. apply list_elem_of_In in Hpart.
      assert (existsb (fun part => mem part ignore_dirs) (entry_parts root_parts rel) = true).
      { apply existsb_exists. exists part. split; [exact Hpart|apply mem_In, Hin]. }
      congruence.
  - discriminate.
Qed.

(** X22: the scan of a codebase raises only when the size of a regular file
    outside the ignored directories cannot be taken; files that cannot be
    read are listed without declarations. *)
Theorem scan_fails_only_on_stat entries :
  scan_codebase ast_parse fs root root_parts max_files ignore_dirs entries = None ->
  exists rel,
    In rel entries
    /\ fs_is_file fs (Py.path_join root rel) = true
    /\ fs_stat_size fs (Py.path_join root rel) = None
    /\ Forall (fun part => ~ In part ignore_dirs) (entry_parts root_parts rel).
Proof.
  unfold scan_codebase.
  destruct (scan_loop _ _ _ _ _ _ _ entries) eqn:E; [discriminate|].
  intros _. apply scan_loop_fails in E. exact E.
Qed.

End Scan.

Lemma scan_fails_only_on_stat_witness :
  exists rel,
    In rel ["gone.py"]
    /\ fs_is_file vanishing_fs (Py.path_join "repo" rel) = true
    /\ fs_stat_size vanishing_fs (Py.path_join "repo" rel) = None
    /\ Forall (fun part => ~ In part default_ignore_dirs) (entry_parts ["repo"] rel).
Proof.
  apply (scan_fails_only_on_stat sample_parse vanishing_fs "repo" ["repo"] 2000
           default_ignore_dirs ["gone.py"]).
  vm_compute. reflexivity.
Defined.

End ScanFailureProps.

Module ModuleAnswerProps.
Import Re Ast GitModule PyFacts Samples GitModuleFacts ScopeProps.

Lemma scan_decls_kind (src_lines : list string) d :
  In d (scan_decls src_lines) -> r_kind d = "def" \/ r_kind d = "class".
Proof.
  unfold scan_decls. intros H. apply in_flat_map in H as ([i line] & _ & H).
  unfold scan_line in H. cbn [fst snd] in H.
  destruct (pmatch decl_re line); [|destruct H].
  destruct H as [<-|[]]. cbn [r_kind].
  destruct (Py.startswith "def" (Py.strip line)); auto.
Qed.

Lemma select_below_in l : forall m d, In d (select_below m l) -> In d l.
Proof.
  induction l as [|e l IH]; intros m d; cbn [select_below]; [auto|].
  destruct (r_indent e <? m).
  - intros [<-|H]; [left; reflexivity|right; eapply IH, H].
  - intros H. right. eapply IH, H.
Qed.

Lemma join_head sep t ts : exists rest, Py.join sep (t :: ts) = t ++ rest.
Proof.
  destruct ts as [|u ts]; cbn [Py.join].
  - exists "". rewrite append_nil_r. reflexivity.
  - eauto.
Qed.

Lemma chain_of_declarations_is_not_module (tokens : list string) d ds :
  (r_kind d = "def" \/ r_kind d = "class") ->
  tokens = map rtoken (d :: ds) ->
  render_chain tokens <> "module".
Proof.
  intros Hk ->. cbn [map]. unfold render_chain.
  destruct (join_head " -> " (rtoken d) (map rtoken ds)) as [rest ->].
  unfold rtoken. destruct Hk as [-> | ->]; rewrite !append_cons; discriminate.
Qed.

(** X23: the heuristic resolver answers ["module"] exactly when the target
    line is outside the text or no declaration starts at or before it; a
    line that follows a declaration always gets a chain, at whatever
    indentation it stands. *)
Theorem heuristic_says_module_iff source_text target_lineno :
  let src_lines := Py.splitlines source_text in
  Forall (fun d => r_indent d < 10 ^ 9) (scan_decls src_lines) ->
  (find_enclosing_by_regex source_text target_lineno = "module"
   <-> ~ 1 <= target_lineno <= Z.of_nat (length src_lines)
       \/ Forall (fun d => target_lineno < r_lineno d) (scan_decls src_lines)).
Proof.
  intros src_lines Hb. unfold find_enclosing_by_regex. fold src_lines.
  destruct (_ || _) eqn:E.
  { split; [intros _; left|reflexivity].
    apply orb_true_iff in E as [E|E]; [apply Z.ltb_lt in E|apply Z.geb_le in E]; lia. }
  apply orb_false_iff in E as [E1 E2]. apply Z.ltb_ge in E1.
  rewrite Z.geb_leb in E2. apply Z.leb_gt in E2.
  destruct (List.filter _ (scan_decls src_lines)) as [|d prev] eqn:Ef.
  - split; [intros _; right|reflexivity].
    apply Forall_forall. intros d Hd. apply list_elem_of_In in Hd.
    destruct (r_lineno d <=? target_lineno) eqn:El; [|apply Z.leb_gt, El].
    assert (Hin : In d (List.filter (fun d => r_lineno d <=? target_lineno)
                          (scan_decls src_lines)))
      by (apply filter_In; split; assumption).
    rewrite Ef in Hin. destruct Hin.
  - assert (Hsub : forall e, In e (d :: prev) ->
              In e (scan_decls src_lines) /\ r_lineno e <= target_lineno).
    { intros e He. rewrite <- Ef in He. apply filter_In in He as [H1 H2].
      split; [exact H1|apply Z.leb_le, H2]. }
    split.
    + intros Hm. exfalso. revert Hm.
      unfold regex_chain_tokens. rewrite fold_chain_step_tokens. cbn [app].
      rewrite <- map_rev.
      destruct (rev (d :: prev)) as [|e l] eqn:Er.
      { apply (f_equal (@length _)) in Er. rewrite length_rev in Er. discriminate. }
      assert (He : In e (d :: prev)).
      { apply in_rev. rewrite Er. left. reflexivity. }
      destruct (Hsub e He) as [He1 _].
      cbn [select_below].
      assert (Hlt : r_indent e < 10 ^ 9).
      { rewrite Forall_forall in Hb. apply Hb, list_elem_of_In, He1. }
      apply Z.ltb_lt in Hlt. rewrite Hlt.
      destruct (rev (e :: select_below (r_indent e) l)) as [|f fs] eqn:Erv.
      { apply (f_equal (@length _)) in Erv. rewrite length_rev in Erv. discriminate. }
      apply (chain_of_declarations_is_not_module _ f fs); [|reflexivity].
      apply (scan_decls_kind src_lines).
      assert (Hf : In f (e :: select_below (r_indent e) l)).
      { apply in_rev. rewrite Erv. left. reflexivity. }
      assert (Hfl : In f (e :: l)).
      { destruct Hf as [<-|Hf]; [left; reflexivity|right].
        eapply select_below_in, Hf. }
      rewrite <- Er in Hfl. apply in_rev in Hfl. apply Hsub, Hfl.
    + intros [Hout|Hall]; [lia|]. exfalso.
      destruct (Hsub d (or_introl eq_refl)) as [Hd1 Hd2].
      rewrite Forall_forall in Hall. apply list_elem_of_In, Hall in Hd1. lia.
Qed.

Lemma heuristic_says_module_iff_witness :
  find_enclosing_by_regex sample_src 0 = "module".
Proof.
  apply (proj2 (heuristic_says_module_iff sample_src 0
    ltac:(replace (scan_decls (Py.splitlines sample_src))
            with [RDecl 1 0 "class" "A"; RDecl 3 4 "def" "b"]
            by (vm_compute; reflexivity);
          repeat constructor))).
  left. cbn. lia.
Defined.

End ModuleAnswerProps.

Module IgnoredRootProps.
Import Re Ast Langraph Docgen LangraphScan PyFacts Samples ScanProps.

Section Scan.

Variable ast_parse : string -> option node.
Variable fs : file_system.
Variable root : string.
Variable root_parts : list string.
Variable max_files : Z.
Variable ignore_dirs : list string.

Lemma scan_loop_all_ignored part entries : forall st,
  In part root_parts -> In part ignore_dirs ->
  scan_loop ast_parse fs root root_parts max_files ignore_dirs st entries = Some st.
Proof.
  intros st Hp Hi. induction entries as [|rel entries IH]; cbn [scan_loop]; [reflexivity|].
  unfold scan_entry. destruct (st_seen st >=? max_files); [reflexivity|].
  assert (E : existsb (fun part => mem part ignore_dirs) (entry_parts root_parts rel) = true).
  { apply existsb_exists. exists part. split; [|apply mem_In, Hi].
    unfold entry_parts. apply in_or_app. left. exact Hp. }
  rewrite E. exact IH.
Qed.

(** X24: the ignored names are tested against all parts of the path of an
    entry, those of the root included; when the root lies in a directory
    with an ignored name the scan lists no file at all. *)
Theorem ignored_root_lists_nothing part entries :
  In part root_parts -> In part ignore_dirs ->
  scan_codebase ast_parse fs root root_parts max_files ignore_dirs entries
  = Some (ScanSummary root 0 [] [] [] []).
Proof.
  intros Hp Hi. unfold scan_codebase.
  rewrite (scan_loop_all_ignored part entries _ Hp Hi). reflexivity.
Qed.

End Scan.

Lemma ignored_root_lists_nothing_witness :
  scan_codebase sample_parse sample_fs "work/venv/repo" ["work"; "venv"; "repo"]
    2000 default_ignore_dirs sample_files
  = Some (ScanSummary "work/venv/repo" 0 [] [] [] []).
Proof.
  apply (ignored_root_lists_nothing sample_parse sample_fs "work/venv/repo"
           ["work"; "venv"; "repo"] 2000 default_ignore_dirs "venv" sample_files);
    cbn; tauto.
Defined.

End IgnoredRootProps.
